(** * Tasmotic firmware core: catalog, cache, community pipeline, review

    A shallow embedding of the firmware subsystem of the Tasmotic backend
    (firmware_manager.py, firmware_cache.py, community_firmware.py and the
    review step of background_scheduler.py) together with the properties
    checked against it.

    Conventions of the embedding:
    - an SQLite table is the list of its rows in insertion order; a
      [PRIMARY KEY] lives in the statements that write the table
      ([INSERT OR REPLACE] deletes the old row first, a plain [INSERT]
      fails on a taken key);
    - a directory is a finite map from file names to file contents;
    - [datetime.now()] and the answer of the network are arguments of the
      operation that consults them;
    - a Python exception caught by the enclosing [try] is an [Err] result
      handled where the source handles it;
    - calls to the file system and to SQLite do what they are asked: the
      only failures modelled are the ones the source tests for (a missing
      file, a missing row, a taken primary key) and those of the network;
    - [hashlib.md5] and [hashlib.sha256] are the real functions, so that
      identifiers can be computed; [werkzeug.utils.secure_filename] is an
      argument of the upload. *)

From Stdlib Require Import ZArith List Bool Ascii String Lia.
From Stdlib.Strings Require Import Byte.
From Stdlib Require Import Permutation.
From stdpp Require Import gmap strings list fin_maps.

Local Open Scope string_scope.
Local Open Scope list_scope.
Local Open Scope Z_scope.

(** ** Bytes and Python string primitives *)

Module Py.

Abbreviation bytes := (list byte).

Definition byte_val (b : byte) : Z := Z.of_N (Byte.to_N b).

(** [len(data)] as an integer. *)
Definition len {A} (l : list A) : Z := Z.of_nat (length l).

(** [s.encode()] for the text the program builds. *)
Fixpoint encode (s : string) : bytes :=
  match s with
  | EmptyString => []
  | String c s' => byte_of_ascii c :: encode s'
  end.

Definition lower_ascii (c : ascii) : ascii :=
  let n := N_of_ascii c in
  if ((65 <=? n) && (n <=? 90))%N then ascii_of_N (n + 32) else c.

(** [s.lower()] on ASCII text. *)
Fixpoint lower (s : string) : string :=
  match s with
  | EmptyString => EmptyString
  | String c s' => String (lower_ascii c) (lower s')
  end.

(** [s.startswith(p)]. *)
Fixpoint startswith (p s : string) : bool :=
  match p, s with
  | EmptyString, _ => true
  | String _ _, EmptyString => false
  | String a p', String b s' => if Ascii.eqb a b then startswith p' s' else false
  end.

(** [p in s]: [p] occurs as a substring of [s]. *)
Fixpoint contains (p s : string) : bool :=
  startswith p s ||
  match s with
  | EmptyString => false
  | String _ s' => contains p s'
  end.

(** [s.endswith(p)]. *)
Definition endswith (p s : string) : bool :=
  let lp := String.length p in
  let ls := String.length s in
  if (lp <=? ls)%nat then String.eqb (substring (ls - lp) lp s) p else false.

Fixpoint drop (n : nat) (s : string) : string :=
  match n, s with
  | O, _ => s
  | S n', String _ s' => drop n' s'
  | S _, EmptyString => EmptyString
  end.

(** [s.replace(old, new)] for a non-empty [old]: leftmost occurrences, not
    overlapping.  The fuel is the length of [s]. *)
Fixpoint replace_fuel (fuel : nat) (old new s : string) : string :=
  match fuel with
  | O => s
  | S fuel' =>
      match s with
      | EmptyString => EmptyString
      | String c s' =>
          if startswith old s
          then new +:+ replace_fuel fuel' old new (drop (String.length old) s)
          else String c (replace_fuel fuel' old new s')
      end
  end.

Definition replace (old new s : string) : string :=
  replace_fuel (String.length s) old new s.

(** [a == b] on bytes. *)
Fixpoint beq (a b : bytes) : bool :=
  match a, b with
  | [], [] => true
  | x :: a', y :: b' => Byte.eqb x y && beq a' b'
  | _, _ => false
  end.

(** [pattern in data] on bytes. *)
Fixpoint bstartswith (p s : bytes) : bool :=
  match p, s with
  | [], _ => true
  | _ :: _, [] => false
  | a :: p', b :: s' => if Byte.eqb a b then bstartswith p' s' else false
  end.

Fixpoint bcontains (p s : bytes) : bool :=
  bstartswith p s ||
  match s with
  | [] => false
  | _ :: s' => bcontains p s'
  end.

(** [os.path.splitext(p)[1]]: the extension starts at the last dot of the
    last path component, unless that component has only leading dots before
    it. *)
Fixpoint rfind_from (c : ascii) (s : string) (i : nat) (last : option nat)
  : option nat :=
  match s with
  | EmptyString => last
  | String a s' =>
      rfind_from c s' (S i) (if Ascii.eqb a c then Some i else last)
  end.

Definition rfind (c : ascii) (s : string) : option nat := rfind_from c s 0 None.

Fixpoint all_char (c : ascii) (s : string) : bool :=
  match s with
  | EmptyString => true
  | String a s' => Ascii.eqb a c && all_char c s'
  end.

Definition splitext_ext (p : string) : string :=
  let start := match rfind "/" p with Some i => S i | None => O end in
  match rfind "." p with
  | None => ""
  | Some d =>
      if (start <=? d)%nat
      then if all_char "." (substring start (d - start) p)
           then ""
           else drop d p
      else ""
  end.

End Py.


(** ** hashlib: MD5 and SHA-256 with hexadecimal digests *)

Module Hash.

Definition w32 (x : Z) : Z := Z.land x 4294967295.

Definition add32 (x y : Z) : Z := w32 (x + y).

Definition rotl32 (x : Z) (n : Z) : Z :=
  w32 (Z.lor (Z.shiftl x n) (Z.shiftr x (32 - n))).

Definition rotr32 (x : Z) (n : Z) : Z :=
  w32 (Z.lor (Z.shiftr x n) (Z.shiftl x (32 - n))).

Definition not32 (x : Z) : Z := Z.lxor x 4294967295.

Definition hex_digit (n : Z) : ascii :=
  ascii_of_N (Z.to_N (if n <? 10 then 48 + n else 87 + n)).

Definition hex_byte (b : Z) : string :=
  String (hex_digit (Z.shiftr b 4)) (String (hex_digit (Z.land b 15)) "").

Definition hex_bytes (l : list Z) : string :=
  fold_right (fun b acc => hex_byte b +:+ acc) "" l.

(** Little-endian and big-endian byte strings of a word. *)
Fixpoint le_bytes (n : nat) (x : Z) : list Z :=
  match n with
  | O => []
  | S n' => Z.land x 255 :: le_bytes n' (Z.shiftr x 8)
  end.

Definition be_bytes (n : nat) (x : Z) : list Z := rev (le_bytes n x).

Definition le_word (l : list Z) : Z :=
  fold_right (fun b acc => b + 256 * acc) 0 l.

Definition be_word (l : list Z) : Z :=
  fold_left (fun acc b => 256 * acc + b) l 0.

(** Cut a byte string into words of four bytes. *)
Fixpoint words (conv : list Z -> Z) (n : nat) (l : list Z) : list Z :=
  match n with
  | O => []
  | S n' => conv (firstn 4 l) :: words conv n' (skipn 4 l)
  end.

(** The message followed by 0x80, zero bytes up to 56 modulo 64, and the
    bit length on eight bytes. *)
Definition pad (len_bytes : Z -> list Z) (msg : list Z) : list Z :=
  let n := Z.of_nat (length msg) in
  let zeros := Z.to_nat ((55 - n) mod 64) in
  msg ++ 128 :: repeat 0 zeros ++ len_bytes (8 * n).

(** Run [compress] over the blocks of sixty-four bytes. *)
Fixpoint absorb {S} (compress : S -> list Z -> S) (fuel : nat) (st : S)
    (l : list Z) : S :=
  match fuel with
  | O => st
  | S fuel' =>
      match l with
      | [] => st
      | _ => absorb compress fuel' (compress st (firstn 64 l)) (skipn 64 l)
      end
  end.

(** *** MD5 (RFC 1321) *)

(** Per step: the additive constant, the rotation and the message index. *)
Definition md5_steps : list (Z * Z * Z) :=
    (3614090360, 7, 0) :: (3905402710, 12, 1) :: (606105819, 17, 2) :: (3250441966, 22, 3) ::
    (4118548399, 7, 4) :: (1200080426, 12, 5) :: (2821735955, 17, 6) :: (4249261313, 22, 7) ::
    (1770035416, 7, 8) :: (2336552879, 12, 9) :: (4294925233, 17, 10) :: (2304563134, 22, 11) ::
    (1804603682, 7, 12) :: (4254626195, 12, 13) :: (2792965006, 17, 14) :: (1236535329, 22, 15) ::
    (4129170786, 5, 1) :: (3225465664, 9, 6) :: (643717713, 14, 11) :: (3921069994, 20, 0) ::
    (3593408605, 5, 5) :: (38016083, 9, 10) :: (3634488961, 14, 15) :: (3889429448, 20, 4) ::
    (568446438, 5, 9) :: (3275163606, 9, 14) :: (4107603335, 14, 3) :: (1163531501, 20, 8) ::
    (2850285829, 5, 13) :: (4243563512, 9, 2) :: (1735328473, 14, 7) :: (2368359562, 20, 12) ::
    (4294588738, 4, 5) :: (2272392833, 11, 8) :: (1839030562, 16, 11) :: (4259657740, 23, 14) ::
    (2763975236, 4, 1) :: (1272893353, 11, 4) :: (4139469664, 16, 7) :: (3200236656, 23, 10) ::
    (681279174, 4, 13) :: (3936430074, 11, 0) :: (3572445317, 16, 3) :: (76029189, 23, 6) ::
    (3654602809, 4, 9) :: (3873151461, 11, 12) :: (530742520, 16, 15) :: (3299628645, 23, 2) ::
    (4096336452, 6, 0) :: (1126891415, 10, 7) :: (2878612391, 15, 14) :: (4237533241, 21, 5) ::
    (1700485571, 6, 12) :: (2399980690, 10, 3) :: (4293915773, 15, 10) :: (2240044497, 21, 1) ::
    (1873313359, 6, 8) :: (4264355552, 10, 15) :: (2734768916, 15, 6) :: (1309151649, 21, 13) ::
    (4149444226, 6, 4) :: (3174756917, 10, 11) :: (718787259, 15, 2) :: (3951481745, 21, 9) ::
    nil.

Definition md5_mix (round : nat) (b c d : Z) : Z :=
  match round with
  | 0%nat => Z.lor (Z.land b c) (Z.land (not32 b) d)
  | 1%nat => Z.lor (Z.land d b) (Z.land (not32 d) c)
  | 2%nat => Z.lxor b (Z.lxor c d)
  | _ => Z.lxor c (Z.lor b (not32 d))
  end.

Definition md5_state : Type := Z * Z * Z * Z.

Fixpoint md5_rounds (m : list Z) (i : nat) (steps : list (Z * Z * Z))
    (st : md5_state) : md5_state :=
  match steps with
  | [] => st
  | (k, s, g) :: steps' =>
      let '(a, b, c, d) := st in
      let f := add32 (add32 (md5_mix (i / 16)%nat b c d) a)
                     (add32 k (nth (Z.to_nat g) m 0)) in
      md5_rounds m (S i) steps' (d, add32 b (rotl32 f s), b, c)
  end.

Definition md5_compress (st : md5_state) (block : list Z) : md5_state :=
  let '(a, b, c, d) := st in
  let '(a', b', c', d') := md5_rounds (words le_word 16 block) 0%nat md5_steps st in
  (add32 a a', add32 b b', add32 c c', add32 d d').

Definition md5_init : md5_state := (1732584193, 4023233417, 2562383102, 271733878).

Definition md5_digest (msg : Py.bytes) : list Z :=
  let padded := pad (le_bytes 8) (map Py.byte_val msg) in
  let '(a, b, c, d) := absorb md5_compress (length padded) md5_init padded in
  le_bytes 4 a ++ le_bytes 4 b ++ le_bytes 4 c ++ le_bytes 4 d.

(** [hashlib.md5(msg).hexdigest()] *)
Definition md5_hexdigest (msg : Py.bytes) : string := hex_bytes (md5_digest msg).

(** *** SHA-256 (FIPS 180-4) *)

Definition sha256_k : list Z :=
    1116352408 :: 1899447441 :: 3049323471 :: 3921009573 :: 961987163 :: 1508970993 ::
    2453635748 :: 2870763221 :: 3624381080 :: 310598401 :: 607225278 :: 1426881987 ::
    1925078388 :: 2162078206 :: 2614888103 :: 3248222580 :: 3835390401 :: 4022224774 ::
    264347078 :: 604807628 :: 770255983 :: 1249150122 :: 1555081692 :: 1996064986 ::
    2554220882 :: 2821834349 :: 2952996808 :: 3210313671 :: 3336571891 :: 3584528711 ::
    113926993 :: 338241895 :: 666307205 :: 773529912 :: 1294757372 :: 1396182291 ::
    1695183700 :: 1986661051 :: 2177026350 :: 2456956037 :: 2730485921 :: 2820302411 ::
    3259730800 :: 3345764771 :: 3516065817 :: 3600352804 :: 4094571909 :: 275423344 ::
    430227734 :: 506948616 :: 659060556 :: 883997877 :: 958139571 :: 1322822218 ::
    1537002063 :: 1747873779 :: 1955562222 :: 2024104815 :: 2227730452 :: 2361852424 ::
    2428436474 :: 2756734187 :: 3204031479 :: 3329325298 :: nil.

Definition ssig0 (x : Z) : Z :=
  Z.lxor (rotr32 x 7) (Z.lxor (rotr32 x 18) (Z.shiftr x 3)).
Definition ssig1 (x : Z) : Z :=
  Z.lxor (rotr32 x 17) (Z.lxor (rotr32 x 19) (Z.shiftr x 10)).
Definition bsig0 (x : Z) : Z :=
  Z.lxor (rotr32 x 2) (Z.lxor (rotr32 x 13) (rotr32 x 22)).
Definition bsig1 (x : Z) : Z :=
  Z.lxor (rotr32 x 6) (Z.lxor (rotr32 x 11) (rotr32 x 25)).

(** The message schedule, kept newest first: [w] holds
    [W(t-1), W(t-2), ...]. *)
Fixpoint sha256_schedule (n : nat) (w : list Z) : list Z :=
  match n with
  | O => w
  | S n' =>
      let wt := add32 (add32 (ssig1 (nth 1 w 0)) (nth 6 w 0))
                      (add32 (ssig0 (nth 14 w 0)) (nth 15 w 0)) in
      sha256_schedule n' (wt :: w)
  end.

Definition sha256_state : Type := list Z.

Definition sha256_round (st : sha256_state) (kw : Z * Z) : sha256_state :=
  match st with
  | [a; b; c; d; e; f; g; h] =>
      let ch := Z.lxor (Z.land e f) (Z.land (not32 e) g) in
      let maj := Z.lxor (Z.land a b) (Z.lxor (Z.land a c) (Z.land b c)) in
      let t1 := add32 (add32 h (bsig1 e)) (add32 ch (add32 (fst kw) (snd kw))) in
      let t2 := add32 (bsig0 a) maj in
      [add32 t1 t2; a; b; c; add32 d t1; e; f; g]
  | _ => st
  end.

Fixpoint zip_add (l1 l2 : list Z) : list Z :=
  match l1, l2 with
  | x :: l1', y :: l2' => add32 x y :: zip_add l1' l2'
  | _, _ => []
  end.

Definition sha256_compress (st : sha256_state) (block : list Z) : sha256_state :=
  let w := rev (sha256_schedule 48 (rev (words be_word 16 block))) in
  zip_add st (fold_left sha256_round (combine sha256_k w) st).

Definition sha256_init : sha256_state :=
  [1779033703; 3144134277; 1013904242; 2773480762;
   1359893119; 2600822924; 528734635; 1541459225].

Definition sha256_digest (msg : Py.bytes) : list Z :=
  let padded := pad (be_bytes 8) (map Py.byte_val msg) in
  flat_map (be_bytes 4) (absorb sha256_compress (length padded) sha256_init padded).

(** [hashlib.sha256(msg).hexdigest()] *)
Definition sha256_hexdigest (msg : Py.bytes) : string :=
  hex_bytes (sha256_digest msg).

End Hash.

(** ** Exceptions *)

(** A computation that may raise; the payload of [Raise] is [str(e)]. *)
Inductive result (A : Type) : Type :=
  | Ok (a : A)
  | Raise (e : string).
Arguments Ok {A} a.
Arguments Raise {A} e.

#[global] Instance result_bind : MBind result := fun A B k m =>
  match m with
  | Ok a => k a
  | Raise e => Raise e
  end.

(** [d[key]] on a JSON object: a missing key raises [KeyError]. *)
Definition item {A} (key : string) (field : option A) : result A :=
  match field with
  | Some a => Ok a
  | None => Raise ("'" +:+ key +:+ "'")
  end.

(** [d.get(key, default)]. *)
Definition get {A} (field : option A) (default : A) : A :=
  match field with
  | Some a => a
  | None => default
  end.

(** ** The catalog: firmware_manager.py *)

Module Catalog.

(** A row of table [firmware].  Columns [rating], [created_at] and
    [updated_at] carry defaults that no modelled statement reads and are
    left out. *)
Record firmware_row := {
  fw_id : string;
  fw_name : string;
  fw_version : string;
  fw_chip_type : string;
  fw_variant : string;
  fw_channel : string;
  fw_source : string;
  fw_download_url : string;
  fw_local_path : option string;
  fw_size : Z;
  fw_md5_hash : option string;
  fw_sha256_hash : option string;
  fw_published_at : option string;
  fw_changelog : string;
  fw_features : list string;
  fw_compatibility : list string;
  fw_download_count : Z;
  fw_verified : bool;
  fw_status : string
}.

(** A row of table [update_history] (without its clock columns). *)
Record history_row := {
  h_source : string;
  h_found_updates : Z;
  h_errors : option string
}.

Record db := {
  firmware : list firmware_row;
  update_history : list history_row
}.

Definition empty_db : db := {| firmware := []; update_history := [] |}.

Record source_config := {
  url : string;
  type : string;
  channel : string;
  chip_type : option string
}.

(** [self.sources], in the order of the dictionary literal. *)
Definition sources : list (string * source_config) :=
  [ ("github_releases",
     {| url := "https://api.github.com/repos/arendst/Tasmota/releases";
        type := "github_api"; channel := "stable"; chip_type := None |});
    ("github_artifacts",
     {| url := "https://api.github.com/repos/arendst/Tasmota/actions/artifacts";
        type := "github_api"; channel := "development"; chip_type := None |});
    ("ota_esp8266",
     {| url := "http://ota.tasmota.com/tasmota/release/";
        type := "ota_server"; channel := "stable"; chip_type := Some "ESP8266" |});
    ("ota_esp32",
     {| url := "http://ota.tasmota.com/tasmota32/release/";
        type := "ota_server"; channel := "stable"; chip_type := Some "ESP32" |});
    ("ota_esp8266_dev",
     {| url := "http://ota.tasmota.com/tasmota/";
        type := "ota_server"; channel := "development"; chip_type := Some "ESP8266" |});
    ("ota_esp32_dev",
     {| url := "http://ota.tasmota.com/tasmota32/";
        type := "ota_server"; channel := "development"; chip_type := Some "ESP32" |}) ].

(** *** What the network answers *)

(** A release asset and a release of the GitHub API, as JSON objects: a
    field is [None] when the key is absent. *)
Record asset := {
  a_name : option string;
  a_browser_download_url : option string;
  a_size : option Z
}.

Record release := {
  r_draft : bool;
  r_prerelease : bool;
  r_tag_name : option string;
  r_published_at : option string;
  r_body : option string;
  r_assets : option (list asset)
}.

(** An entry found by [_parse_ota_directory] in the index page of an OTA
    server.  The regular expression scan itself is not modelled: the answer
    of an OTA server is the list of files the scan yields. *)
Record ota_file := {
  of_name : string;
  of_display_name : string;
  of_url : string;
  of_size : Z
}.

(** The outcome of [session.get(url)]: the request raises, or answers with a
    status and a body. *)
Inductive response (A : Type) : Type :=
  | NetError (e : string)
  | Http (status : Z) (body : A).
Arguments NetError {A} e.
Arguments Http {A} status body.

Record network := {
  github_get : string -> response (list release);
  ota_get : string -> response (list ota_file)
}.

(** *** Filename classifier *)

Record firmware_info := {
  fi_chip_type : string;
  fi_variant : string;
  fi_features : list string;
  fi_compatibility : list string
}.

Definition _parse_firmware_filename (filename : string) : option firmware_info :=
  let name := Py.lower (Py.replace ".bin" "" filename) in
  let chip :=
    if Py.contains "tasmota32" name || Py.contains "esp32" name then "ESP32"
    else if Py.contains "tasmota-esp32" name then "ESP32"
    else "ESP8266" in
  let '(variant, features) :=
    if Py.contains "minimal" name then ("minimal", ["OTA"; "Basic GPIO"])
    else if Py.contains "lite" name then ("lite", ["MQTT"; "WiFi"; "Basic Controls"])
    else if Py.contains "sensors" name
         then ("sensors", ["All Sensors"; "DHT22"; "DS18B20"; "BMP280"])
    else if Py.contains "display" name
         then ("display", ["Display Support"; "SSD1306"; "ILI9341"])
    else if Py.contains "ir" name
         then ("ir", ["IR Transmit"; "IR Receive"; "HVAC Control"])
    else if Py.contains "zigbee" name
         then ("zigbee", ["Zigbee Bridge"; "CC2530"; "Coordinator"])
    else if Py.contains "knx" name
         then ("knx", ["KNX Protocol"; "Building Automation"])
    else ("standard", []) in
  let '(variant', compatibility) :=
    if Py.contains "-de" name then (variant +:+ "-de", ["German"])
    else if Py.contains "-cn" name then (variant +:+ "-cn", ["Chinese"])
    else (variant, []) in
  Some {| fi_chip_type := chip; fi_variant := variant';
          fi_features := features; fi_compatibility := compatibility |}.

(** The dedup key. *)
Definition _generate_firmware_id (name version channel : string) : string :=
  Hash.md5_hexdigest (Py.encode (name +:+ "_" +:+ version +:+ "_" +:+ channel)).

(** [SELECT id FROM firmware WHERE id = ?] finds a row. *)
Definition known (rows : list firmware_row) (firmware_id : string) : bool :=
  existsb (fun r => String.eqb (fw_id r) firmware_id) rows.

Definition _firmware_exists (d : db) (firmware_id : string) : bool :=
  known (firmware d) firmware_id.

(** *** Candidates *)

(** The dictionaries appended to [updates]. *)
Record update := {
  u_id : string;
  u_name : string;
  u_version : string;
  u_chip_type : string;
  u_variant : string;
  u_channel : string;
  u_source : string;
  u_download_url : string;
  u_size : Z;
  u_published_at : option string;
  u_changelog : option string;
  u_features : list string;
  u_compatibility : list string
}.

Fixpoint release_assets (d : db) (config : source_config)
    (version published_at changelog : string) (assets : list asset)
    (updates : list update) : result (list update) :=
  match assets with
  | [] => Ok updates
  | a :: rest =>
      name ← item "name" (a_name a);
      if Py.endswith ".bin" name then
        match _parse_firmware_filename name with
        | Some info =>
            let firmware_id := _generate_firmware_id name version (channel config) in
            if negb (_firmware_exists d firmware_id) then
              download_url ← item "browser_download_url" (a_browser_download_url a);
              size ← item "size" (a_size a);
              release_assets d config version published_at changelog rest
                (updates ++
                 [{| u_id := firmware_id; u_name := name; u_version := version;
                     u_chip_type := fi_chip_type info;
                     u_variant := fi_variant info;
                     u_channel := channel config;
                     u_source := "github_releases";
                     u_download_url := download_url;
                     u_size := size;
                     u_published_at := Some published_at;
                     u_changelog := Some changelog;
                     u_features := fi_features info;
                     u_compatibility := fi_compatibility info |}])
            else release_assets d config version published_at changelog rest updates
        | None => release_assets d config version published_at changelog rest updates
        end
      else release_assets d config version published_at changelog rest updates
  end.

Fixpoint process_releases (d : db) (config : source_config)
    (releases : list release) (updates : list update) : result (list update) :=
  match releases with
  | [] => Ok updates
  | r :: rest =>
      if r_draft r || r_prerelease r then process_releases d config rest updates
      else
        version ← item "tag_name" (r_tag_name r);
        published_at ← item "published_at" (r_published_at r);
        let changelog := get (r_body r) "" in
        updates' ← release_assets d config version published_at changelog
                      (get (r_assets r) []) updates;
        process_releases d config rest updates'
  end.

Definition _process_github_releases (d : db) (releases : list release)
    (config : source_config) : result (list update) :=
  process_releases d config (firstn 10 releases) [].

(** [_process_github_artifacts] is called by [_check_github_source] and
    defined nowhere in the class: the call raises [AttributeError]. *)
Definition _process_github_artifacts (releases : list release)
    (config : source_config) : result (list update) :=
  Raise "'FirmwareManager' object has no attribute '_process_github_artifacts'".

Definition _check_github_source (net : network) (d : db) (source_name : string)
    (config : source_config) : list update :=
  let attempt : result (list update) :=
    match github_get net (url config) with
    | NetError e => Raise e
    | Http status data =>
        if status =? 200 then
          if Py.contains "releases" (url config)
          then _process_github_releases d data config
          else if Py.contains "artifacts" (url config)
          then _process_github_artifacts data config
          else Ok []
        else Ok []
    end in
  match attempt with
  | Ok updates => updates
  | Raise _ => []
  end.

Fixpoint ota_files (d : db) (source_name : string) (config : source_config)
    (now_iso : string) (files : list ota_file) (updates : list update)
  : result (list update) :=
  match files with
  | [] => Ok updates
  | f :: rest =>
      match _parse_firmware_filename (of_name f) with
      | Some info =>
          chip ← item "chip_type" (chip_type config);
          if String.eqb (fi_chip_type info) chip then
            let firmware_id :=
              _generate_firmware_id (of_name f) "latest" (channel config) in
            if negb (_firmware_exists d firmware_id) then
              ota_files d source_name config now_iso rest
                (updates ++
                 [{| u_id := firmware_id; u_name := of_name f;
                     u_version := "latest";
                     u_chip_type := fi_chip_type info;
                     u_variant := fi_variant info;
                     u_channel := channel config;
                     u_source := source_name;
                     u_download_url := of_url f;
                     u_size := of_size f;
                     u_published_at := Some now_iso;
                     u_changelog := None;
                     u_features := fi_features info;
                     u_compatibility := fi_compatibility info |}])
            else ota_files d source_name config now_iso rest updates
          else ota_files d source_name config now_iso rest updates
      | None => ota_files d source_name config now_iso rest updates
      end
  end.

Definition _check_ota_source (net : network) (d : db) (now_iso : string)
    (source_name : string) (config : source_config) : list update :=
  let attempt : result (list update) :=
    match ota_get net (url config) with
    | NetError e => Raise e
    | Http status files =>
        if status =? 200
        then ota_files d source_name config now_iso files []
        else Ok []
    end in
  match attempt with
  | Ok updates => updates
  | Raise _ => []
  end.

(** *** Aggregation over the sources *)

Record source_result := {
  sr_updates : Z;
  sr_firmware : list update
}.

(** The dictionary returned by [check_all_sources_for_updates]; the
    per-source [duration] is a clock reading and is left out. *)
Record results := {
  total_updates : Z;
  res_sources : list (string * source_result);
  errors : list string
}.

Definition _record_update_check (d : db) (source : string) (found_updates : Z)
    (error : option string) : db :=
  {| firmware := firmware d;
     update_history := update_history d ++
       [{| h_source := source; h_found_updates := found_updates;
           h_errors := error |}] |}.

(** [d[k] = v] on a dictionary kept in insertion order. *)
Fixpoint dict_set {V} (k : string) (v : V) (l : list (string * V))
  : list (string * V) :=
  match l with
  | [] => [(k, v)]
  | (k', v') :: l' =>
      if String.eqb k' k then (k, v) :: l' else (k', v') :: dict_set k v l'
  end.

(** The dispatch on the source type inside the [try] of the loop body;
    [Ok None] is the [continue] of an unknown type. *)
Definition check_source (net : network) (d : db) (now_iso : string)
    (source_name : string) (config : source_config)
  : result (option (list update)) :=
  if String.eqb (type config) "github_api"
  then Ok (Some (_check_github_source net d source_name config))
  else if String.eqb (type config) "ota_server"
  then Ok (Some (_check_ota_source net d now_iso source_name config))
  else Ok None.

Fixpoint check_sources (net : network) (now_iso : string)
    (srcs : list (string * source_config)) (d : db) (res : results)
  : db * results :=
  match srcs with
  | [] => (d, res)
  | (source_name, config) :: rest =>
      match check_source net d now_iso source_name config with
      | Ok (Some updates) =>
          check_sources net now_iso rest
            (_record_update_check d source_name (Py.len updates) None)
            {| total_updates := total_updates res + Py.len updates;
               res_sources :=
                 dict_set source_name
                   {| sr_updates := Py.len updates; sr_firmware := updates |}
                   (res_sources res);
               errors := errors res |}
      | Ok None => check_sources net now_iso rest d res
      | Raise e =>
          check_sources net now_iso rest
            (_record_update_check d source_name 0 (Some e))
            {| total_updates := total_updates res;
               res_sources := res_sources res;
               errors := errors res ++
                 ["Error checking " +:+ source_name +:+ ": " +:+ e] |}
      end
  end.

Definition check_all_sources_for_updates (net : network) (now_iso : string)
    (d : db) : db * results :=
  check_sources net now_iso sources d
    {| total_updates := 0; res_sources := []; errors := [] |}.

(** *** Saving candidates *)

Definition row_of_update (u : update) : firmware_row :=
  {| fw_id := u_id u;
     fw_name := u_name u;
     fw_version := u_version u;
     fw_chip_type := u_chip_type u;
     fw_variant := u_variant u;
     fw_channel := u_channel u;
     fw_source := u_source u;
     fw_download_url := u_download_url u;
     fw_local_path := None;
     fw_size := u_size u;
     fw_md5_hash := None;
     fw_sha256_hash := None;
     fw_published_at := u_published_at u;
     fw_changelog := get (u_changelog u) "";
     fw_features := u_features u;
     fw_compatibility := u_compatibility u;
     fw_download_count := 0;
     fw_verified := String.eqb (u_source u) "github_releases";
     fw_status := "available" |}.

(** [INSERT OR REPLACE INTO firmware]: a row with the same primary key is
    deleted before the new row is inserted. *)
Definition insert_or_replace (row : firmware_row) (rows : list firmware_row)
  : list firmware_row :=
  List.filter (fun r => negb (String.eqb (fw_id r) (fw_id row))) rows ++ [row].

Fixpoint save_rows (updates : list update) (rows : list firmware_row)
    (saved_count : Z) : list firmware_row * Z :=
  match updates with
  | [] => (rows, saved_count)
  | u :: rest =>
      save_rows rest (insert_or_replace (row_of_update u) rows) (saved_count + 1)
  end.

Definition save_firmware_updates (d : db) (updates : list update) : db * Z :=
  let '(rows, saved_count) := save_rows updates (firmware d) 0 in
  ({| firmware := rows; update_history := update_history d |}, saved_count).

(** *** What a listing names *)

(** The dedup keys of the binaries a release listing names. *)
Definition asset_ids (config : source_config) (version : string)
    (assets : list asset) : list string :=
  flat_map
    (fun a =>
       match a_name a with
       | Some name =>
           if Py.endswith ".bin" name
           then [_generate_firmware_id name version (channel config)]
           else []
       | None => []
       end) assets.

Definition release_ids (config : source_config) (releases : list release)
  : list string :=
  flat_map
    (fun r =>
       if r_draft r || r_prerelease r then []
       else match r_tag_name r with
            | Some version => asset_ids config version (get (r_assets r) [])
            | None => []
            end) releases.

(** The dedup keys of the files of an OTA index that are for the chip of
    the source. *)
Definition ota_ids (config : source_config) (chip : string)
    (files : list ota_file) : list string :=
  flat_map
    (fun f =>
       match _parse_firmware_filename (of_name f) with
       | Some info =>
           if String.eqb (fi_chip_type info) chip
           then [_generate_firmware_id (of_name f) "latest" (channel config)]
           else []
       | None => []
       end) files.

(** The dedup keys a source offers under the answers of the network. *)
Definition source_ids (net : network) (config : source_config) : list string :=
  if String.eqb (type config) "github_api" then
    match github_get net (url config) with
    | Http status data =>
        if (status =? 200) && Py.contains "releases" (url config)
        then release_ids config (firstn 10 data)
        else []
    | NetError _ => []
    end
  else if String.eqb (type config) "ota_server" then
    match ota_get net (url config), chip_type config with
    | Http status files, Some chip =>
        if status =? 200 then ota_ids config chip files else []
    | _, _ => []
    end
  else [].

(** A release listing with the keys the GitHub API documents: a release
    that is neither a draft nor a prerelease has a tag and a date, and its
    assets have a name, a download address and a size. *)
Definition wf_asset (a : asset) : Prop :=
  a_name a <> None /\ a_browser_download_url a <> None /\ a_size a <> None.

Definition wf_release (r : release) : Prop :=
  r_draft r || r_prerelease r = true \/
  (r_tag_name r <> None /\ r_published_at r <> None /\
   Forall wf_asset (get (r_assets r) [])).

Definition wf_network (net : network) : Prop :=
  forall address status data,
    github_get net address = Http status data -> Forall wf_release data.

(** A result in which no source offers a candidate. *)
Definition quiet (res : results) : Prop :=
  Forall (fun kv : string * source_result => sr_firmware kv.2 = []) (res_sources res).

(** All the candidates of an aggregated check. *)
Definition all_updates (res : results) : list update :=
  flat_map (fun kv => sr_firmware kv.2) (res_sources res).

(** *** Sample answers of the network *)

Definition releases_config : source_config :=
  {| url := "https://api.github.com/repos/arendst/Tasmota/releases";
     type := "github_api"; channel := "stable"; chip_type := None |}.

Definition sensors_asset (address : string) : asset :=
  {| a_name := Some "tasmota32-sensors.bin";
     a_browser_download_url := Some address;
     a_size := Some 650000 |}.

Definition sensors_release (published_at changelog address : string) : release :=
  {| r_draft := false; r_prerelease := false;
     r_tag_name := Some "v13.2.0";
     r_published_at := Some published_at;
     r_body := Some changelog;
     r_assets := Some [sensors_asset address] |}.

Definition sensors_id : string := "b64fe159bd892328222aacdd5c9af111".

(** GitHub lists the sensors build, the ESP32 OTA server lists one file,
    and every other request fails. *)
Definition sample_network : network :=
  {| github_get := fun address =>
       if String.eqb address (url releases_config)
       then Http 200 [sensors_release "2023-10-16T09:00:00Z" "Release notes"
                        "https://github.com/arendst/Tasmota/releases/download/v13.2.0/tasmota32-sensors.bin"]
       else NetError "Cannot connect to host";
     ota_get := fun address =>
       if String.eqb address "http://ota.tasmota.com/tasmota32/release/"
       then Http 200 [{| of_name := "tasmota32-lite.bin";
                         of_display_name := "tasmota32-lite.bin";
                         of_url := "http://ota.tasmota.com/tasmota32/release/tasmota32-lite.bin";
                         of_size := 0 |}]
       else NetError "Cannot connect to host" |}.

(** Every request fails. *)
Definition dead_network : network :=
  {| github_get := fun _ => NetError "Cannot connect to host";
     ota_get := fun _ => NetError "Cannot connect to host" |}.

(** GitHub lists one release, tagged latest, with two binaries of which the
    first comes without the key browser_download_url; the ESP8266 OTA server
    lists the first binary too; every other request fails. *)
Definition keyless_network : network :=
  {| github_get := fun address =>
       if String.eqb address (url releases_config)
       then Http 200
              [{| r_draft := false; r_prerelease := false;
                  r_tag_name := Some "latest";
                  r_published_at := Some "2023-10-16T09:00:00Z";
                  r_body := Some "Release notes";
                  r_assets :=
                    Some [{| a_name := Some "tasmota.bin";
                             a_browser_download_url := None;
                             a_size := Some 600000 |};
                          {| a_name := Some "tasmota-lite.bin";
                             a_browser_download_url :=
                               Some "https://github.com/arendst/Tasmota/releases/download/latest/tasmota-lite.bin";
                             a_size := Some 400000 |}] |}]
       else NetError "Cannot connect to host";
     ota_get := fun address =>
       if String.eqb address "http://ota.tasmota.com/tasmota/release/"
       then Http 200 [{| of_name := "tasmota.bin";
                         of_display_name := "tasmota.bin";
                         of_url := "http://ota.tasmota.com/tasmota/release/tasmota.bin";
                         of_size := 0 |}]
       else NetError "Cannot connect to host" |}.

End Catalog.

(** ** The cache: firmware_cache.py *)

Module Cache.

(** A file is named by the directory it lives in: [CacheFile name] is
    [os.path.join(self.cache_dir, name)], [TempFile name] a file of the
    temporary directory. *)
Inductive path : Type :=
  | CacheFile (name : string)
  | TempFile (name : string).

Definition path_eqb (p q : path) : bool :=
  match p, q with
  | CacheFile a, CacheFile b => String.eqb a b
  | TempFile a, TempFile b => String.eqb a b
  | _, _ => false
  end.

Definition cache_dir_name : string := "/opt/app/data/firmware_cache".

Definition path_string (p : path) : string :=
  match p with
  | CacheFile name => cache_dir_name +:+ "/" +:+ name
  | TempFile name => name
  end.

Record disk := {
  cache_dir : gmap string Py.bytes;
  temp_dir : gmap string Py.bytes
}.

(** A row of table [firmware_cache]; clock values are microseconds. *)
Record cache_row := {
  firmware_id : string;
  local_path : path;
  download_url : string;
  file_size : option Z;
  md5_hash : string;
  sha256_hash : string;
  download_count : Z;
  last_accessed : Z;
  cached_at : Z;
  verified : bool
}.

(** A row of table [cache_stats]. *)
Record stats_row := {
  st_total_size : Z;
  st_file_count : Z;
  st_last_cleanup : Z
}.

Record state := {
  rows : list cache_row;
  stats : list stats_row;
  files : disk;
  catalog : Catalog.db
}.

Definition init (c : Catalog.db) : state :=
  {| rows := []; stats := [];
     files := {| cache_dir := ∅; temp_dir := ∅ |};
     catalog := c |}.

Definition max_cache_size : Z := 2 * 1024 * 1024 * 1024.
Definition cache_retention_days : Z := 30.

(** *** The file system *)

Definition read (d : disk) (p : path) : option Py.bytes :=
  match p with
  | CacheFile name => cache_dir d !! name
  | TempFile name => temp_dir d !! name
  end.

(** [os.path.exists] *)
Definition exists_ (d : disk) (p : path) : bool :=
  match read d p with Some _ => true | None => false end.

Definition write (d : disk) (p : path) (content : Py.bytes) : disk :=
  match p with
  | CacheFile name =>
      {| cache_dir := <[name := content]> (cache_dir d); temp_dir := temp_dir d |}
  | TempFile name =>
      {| cache_dir := cache_dir d; temp_dir := <[name := content]> (temp_dir d) |}
  end.

(** [os.remove] of a file that exists. *)
Definition remove (d : disk) (p : path) : disk :=
  match p with
  | CacheFile name =>
      {| cache_dir := delete name (cache_dir d); temp_dir := temp_dir d |}
  | TempFile name =>
      {| cache_dir := cache_dir d; temp_dir := delete name (temp_dir d) |}
  end.

(** [shutil.move(src, dst)] of a file that exists. *)
Definition move (d : disk) (src dst : path) : disk :=
  match read d src with
  | Some content => write (remove d src) dst content
  | None => d
  end.

Definition with_files (s : state) (d : disk) : state :=
  {| rows := rows s; stats := stats s; files := d; catalog := catalog s |}.

Definition with_rows (s : state) (l : list cache_row) : state :=
  {| rows := l; stats := stats s; files := files s; catalog := catalog s |}.

(** *** The cache index *)

Definition _remove_from_cache_db (s : state) (id : string) : state :=
  with_rows s
    (List.filter (fun r => negb (String.eqb (firmware_id r) id)) (rows s)).

Definition _add_to_cache_db (s : state) (now : Z) (id : string) (p : path)
    (url : string) (size : Z) (md5 sha256 : string) : state :=
  with_rows s
    (List.filter (fun r => negb (String.eqb (firmware_id r) id)) (rows s) ++
     [{| firmware_id := id; local_path := p; download_url := url;
         file_size := Some size; md5_hash := md5; sha256_hash := sha256;
         download_count := 0; last_accessed := now; cached_at := now;
         verified := true |}]).

Definition select_verified (s : state) (id : string) : option cache_row :=
  List.find (fun r => String.eqb (firmware_id r) id && verified r) (rows s).

Definition get_cached_firmware_path (s : state) (id : string)
  : state * option path :=
  match select_verified s id with
  | Some r =>
      if exists_ (files s) (local_path r)
      then (s, Some (local_path r))
      else (_remove_from_cache_db s id, None)
  | None => (s, None)
  end.

Definition touch (now : Z) (id : string) (r : cache_row) : cache_row :=
  if String.eqb (firmware_id r) id
  then {| firmware_id := firmware_id r; local_path := local_path r;
          download_url := download_url r; file_size := file_size r;
          md5_hash := md5_hash r; sha256_hash := sha256_hash r;
          download_count := download_count r + 1; last_accessed := now;
          cached_at := cached_at r; verified := verified r |}
  else r.

Definition _update_access_time (s : state) (now : Z) (id : string) : state :=
  with_rows s (map (touch now id) (rows s)).

Definition set_local_path (id : string) (p : string) (r : Catalog.firmware_row)
  : Catalog.firmware_row :=
  if String.eqb (Catalog.fw_id r) id
  then {| Catalog.fw_id := Catalog.fw_id r;
          Catalog.fw_name := Catalog.fw_name r;
          Catalog.fw_version := Catalog.fw_version r;
          Catalog.fw_chip_type := Catalog.fw_chip_type r;
          Catalog.fw_variant := Catalog.fw_variant r;
          Catalog.fw_channel := Catalog.fw_channel r;
          Catalog.fw_source := Catalog.fw_source r;
          Catalog.fw_download_url := Catalog.fw_download_url r;
          Catalog.fw_local_path := Some p;
          Catalog.fw_size := Catalog.fw_size r;
          Catalog.fw_md5_hash := Catalog.fw_md5_hash r;
          Catalog.fw_sha256_hash := Catalog.fw_sha256_hash r;
          Catalog.fw_published_at := Catalog.fw_published_at r;
          Catalog.fw_changelog := Catalog.fw_changelog r;
          Catalog.fw_features := Catalog.fw_features r;
          Catalog.fw_compatibility := Catalog.fw_compatibility r;
          Catalog.fw_download_count := Catalog.fw_download_count r;
          Catalog.fw_verified := Catalog.fw_verified r;
          Catalog.fw_status := Catalog.fw_status r |}
  else r.

Definition _update_firmware_local_path (s : state) (id : string) (p : path)
  : state :=
  {| rows := rows s; stats := stats s; files := files s;
     catalog :=
       {| Catalog.firmware :=
            map (set_local_path id (path_string p)) (Catalog.firmware (catalog s));
          Catalog.update_history := Catalog.update_history (catalog s) |} |}.

(** *** Verification *)

(** [_verify_firmware_file]: the file exists, has at least 100000 bytes and
    starts with E9 00 00 00 or with E9. *)
Definition _verify_firmware_file (d : disk) (p : path) : bool :=
  match read d p with
  | None => false
  | Some content =>
      if Py.len content <? 100000 then false
      else
        let header := firstn 16 content in
        if Py.beq (firstn 4 header) [xe9; x00; x00; x00]
        then true
        else match header with
             | b :: _ => Byte.eqb b xe9
             | [] => false
             end
  end.

(** *** Download *)

(** What [_download_file] meets: the transfer raises after [written] bytes
    reached the file, or delivers [content]. *)
Inductive download : Type :=
  | DownloadFails (written : Py.bytes) (e : string)
  | Downloaded (content : Py.bytes).

(** The effects of one call, in the order in which they happen. *)
Inductive event : Type :=
  | TempCreated (p : path)
  | Fetched (url : string) (p : path)
  | Moved (src dst : path)
  | Verified (p : path) (ok : bool)
  | EntryRecorded (id : string)
  | Removed (p : path)
  | AccessBumped (id : string).

Definition download_and_cache_firmware (s : state) (now : Z)
    (temp_name : string) (id url : string) (net : download)
  : state * option path * list event :=
  let '(s1, cached_path) := get_cached_firmware_path s id in
  let fresh :=
    let temp_path := TempFile temp_name in
    let s2 := with_files s1 (write (files s1) temp_path []) in
    match net with
    | DownloadFails written e =>
        let s3 := with_files s2 (write (files s2) temp_path written) in
        if exists_ (files s3) temp_path
        then (with_files s3 (remove (files s3) temp_path), None,
              [TempCreated temp_path; Removed temp_path])
        else (s3, None, [TempCreated temp_path])
    | Downloaded content =>
        let s3 := with_files s2 (write (files s2) temp_path content) in
        let size := Py.len content in
        let md5 := Hash.md5_hexdigest content in
        let sha256 := Hash.sha256_hexdigest content in
        let cache_path := CacheFile (id +:+ ".bin") in
        let s4 := with_files s3 (move (files s3) temp_path cache_path) in
        if _verify_firmware_file (files s4) cache_path
        then
          let s5 := _add_to_cache_db s4 now id cache_path url size md5 sha256 in
          let s6 := _update_firmware_local_path s5 id cache_path in
          (s6, Some cache_path,
           [TempCreated temp_path; Fetched url temp_path;
            Moved temp_path cache_path; Verified cache_path true;
            EntryRecorded id])
        else
          (with_files s4 (remove (files s4) cache_path), None,
           [TempCreated temp_path; Fetched url temp_path;
            Moved temp_path cache_path; Verified cache_path false;
            Removed cache_path])
    end in
  match cached_path with
  | Some p =>
      if exists_ (files s1) p
      then (_update_access_time s1 now id, Some p, [AccessBumped id])
      else fresh
  | None => fresh
  end.

(** *** Eviction *)

(** [_get_cache_size]: the bytes of all files under the cache directory. *)
Definition _get_cache_size (s : state) : Z :=
  map_fold (fun _ content acc => Py.len content + acc) 0 (cache_dir (files s)).

Definition bin_count (d : disk) : Z :=
  Z.of_nat (size (filter (fun kv => Py.endswith ".bin" (fst kv) = true)
                         (cache_dir d))).

Definition _record_cleanup_stats (s : state) (now : Z) : state :=
  {| rows := rows s;
     stats := stats s ++
       [{| st_total_size := _get_cache_size s;
           st_file_count := bin_count (files s);
           st_last_cleanup := now |}];
     files := files s; catalog := catalog s |}.

Definition microseconds_per_day : Z := 86400 * 1000000.

(** [WHERE last_accessed < cutoff OR download_count = 0] *)
Definition eligible (cutoff : Z) (r : cache_row) : bool :=
  (last_accessed r <? cutoff) || (download_count r =? 0).

(** [ORDER BY last_accessed ASC, download_count ASC], rows with equal keys
    in table order. *)
Definition row_le (a b : cache_row) : bool :=
  (last_accessed a <? last_accessed b) ||
  ((last_accessed a =? last_accessed b) && (download_count a <=? download_count b)).

Fixpoint insert_row (r : cache_row) (l : list cache_row) : list cache_row :=
  match l with
  | [] => [r]
  | x :: l' => if row_le x r then x :: insert_row r l' else r :: x :: l'
  end.

Definition order_rows (l : list cache_row) : list cache_row :=
  fold_left (fun acc r => insert_row r acc) l [].

Definition candidates (s : state) (cutoff : Z) : list cache_row :=
  order_rows (List.filter (eligible cutoff) (rows s)).

(** The two thresholds are the floats [max_cache_size * 0.8] and
    [max_cache_size * 0.7].  Neither is an integer (1717986918.4 and
    1503238553.6 up to rounding), so for an integer number of bytes [n]
    the test [n < max_cache_size * 0.7] is [10 * n < 7 * max_cache_size],
    and likewise for 0.8. *)
Definition below_low_water (n : Z) : bool := 10 * n <? 7 * max_cache_size.
Definition below_high_water (n : Z) : bool := 10 * n <? 8 * max_cache_size.

(** The removal of one candidate: unlink the file if it is there, then
    delete the row. *)
Definition evict_one (s : state) (c : cache_row) : state :=
  _remove_from_cache_db
    (if exists_ (files s) (local_path c)
     then with_files s (remove (files s) (local_path c))
     else s)
    (firmware_id c).

(** The loop over the candidates; [removed_size] and [removed_count] are
    the two counters. *)
Fixpoint evict (cands : list cache_row) (s : state)
    (current_size removed_size removed_count : Z) : state * Z * Z :=
  match cands with
  | [] => (s, removed_size, removed_count)
  | c :: rest =>
      if below_low_water (current_size - removed_size)
      then (s, removed_size, removed_count)
      else
        evict rest (evict_one s c) current_size
          (removed_size + get (file_size c) 0) (removed_count + 1)
  end.

Definition cleanup_cache (s : state) (now : Z) (force : bool) : state :=
  let current_size := _get_cache_size s in
  if negb force && below_high_water current_size then s
  else
    let cutoff := now - cache_retention_days * microseconds_per_day in
    let '(s', _, _) := evict (candidates s cutoff) s current_size 0 0 in
    _record_cleanup_stats s' now.

(** *** Sequences of operations *)

Inductive op : Type :=
  | Download (now : Z) (temp_name id url : string) (net : download)
  | Get (id : string)
  | Cleanup (now : Z) (force : bool).

Definition run (s : state) (o : op) : state :=
  match o with
  | Download now temp_name id url net =>
      (download_and_cache_firmware s now temp_name id url net).1.1
  | Get id => (get_cached_firmware_path s id).1
  | Cleanup now force => cleanup_cache s now force
  end.

Definition run_all (s : state) (ops : list op) : state := fold_left run ops s.

(** *** Invariants of the cache *)

(** The two magic signatures, and what verification asks of a content. *)
Definition esp32_magic (content : Py.bytes) : bool :=
  Py.beq (firstn 4 content) [xe9; x00; x00; x00].

Definition esp8266_magic (content : Py.bytes) : bool :=
  match content with
  | b :: _ => Byte.eqb b xe9
  | [] => false
  end.

Definition passes_verification (content : Py.bytes) : bool :=
  (100000 <=? Py.len content) && (esp32_magic content || esp8266_magic content).

(** The entry [r] points into the cache directory under the name of its
    firmware, is marked verified, and records the size of the file that is
    there. *)
Definition row_ok (d : disk) (r : cache_row) : Prop :=
  local_path r = CacheFile (firmware_id r +:+ ".bin") /\
  verified r = true /\
  exists content,
    cache_dir d !! (firmware_id r +:+ ".bin") = Some content /\
    file_size r = Some (Py.len content).

(** The state of a cache that only its own operations have written. *)
Definition consistent (s : state) : Prop :=
  List.NoDup (map firmware_id (rows s)) /\
  (forall r, In r (rows s) -> row_ok (files s) r) /\
  (forall name content,
      cache_dir (files s) !! name = Some content ->
      exists r, In r (rows s) /\ name = firmware_id r +:+ ".bin") /\
  temp_dir (files s) = ∅.

(** An entry exists if and only if its file exists, and a firmware has at
    most one entry. *)
Definition entry_iff_file (s : state) : Prop :=
  (forall r, In r (rows s) -> exists_ (files s) (local_path r) = true) /\
  (forall name, exists_ (files s) (CacheFile name) = true ->
      exists r, In r (rows s) /\ local_path r = CacheFile name) /\
  (forall r1 r2, In r1 (rows s) -> In r2 (rows s) ->
      firmware_id r1 = firmware_id r2 -> r1 = r2).

Definition has_entry (s : state) (id : string) : Prop :=
  exists r, In r (rows s) /\ firmware_id r = id.

(** The files of a download that completed, from the state [s1] left by
    the lookup: the content sits in the cache directory, the temporary file
    is gone. *)
Definition after_move (s1 : state) (tmp id : string) (content : Py.bytes) : disk :=
  {| cache_dir := <[id +:+ ".bin" := content]> (cache_dir (files s1));
     temp_dir := delete tmp (temp_dir (files s1)) |}.

(** The cutoff of the retention window at clock [now]. *)
Definition cutoff_at (now : Z) : Z :=
  now - cache_retention_days * microseconds_per_day.

(** Sample contents and a sample cache. *)
Definition zeros_100k : Py.bytes := repeat x00 100000.
Definition esp_100k : Py.bytes := xe9 :: repeat x00 99999.

Definition one_entry_cache : state :=
  run_all (init Catalog.empty_db)
    [Download 5 "/tmp/tmp1.bin" "fw1" "http://host/fw1.bin" (Downloaded esp_100k)].

(** Two large images, the cache after their downloads at clocks 10 and 20,
    and the same cache after the file of the first download was deleted
    from the cache directory by something other than the cache. *)
Definition old_image : Py.bytes := xe9 :: repeat x00 (Z.to_nat 499999999).
Definition new_image : Py.bytes := xe9 :: repeat x00 (Z.to_nat 1599999999).

(** The entry that a completed download of [content] records at [now]. *)
Definition recorded_row (now : Z) (id url : string) (content : Py.bytes)
  : cache_row :=
  {| firmware_id := id; local_path := CacheFile (id +:+ ".bin");
     download_url := url; file_size := Some (Py.len content);
     md5_hash := Hash.md5_hexdigest content;
     sha256_hash := Hash.sha256_hexdigest content;
     download_count := 0; last_accessed := now; cached_at := now;
     verified := true |}.

Definition two_downloads (first second : Py.bytes) : state :=
  run_all (init Catalog.empty_db)
    [Download 10 "/tmp/tmp1.bin" "old" "http://host/old.bin" (Downloaded first);
     Download 20 "/tmp/tmp2.bin" "new" "http://host/new.bin" (Downloaded second)].

Definition full_cache : state := two_downloads old_image new_image.

Definition lose_file (s : state) (name : string) : state :=
  with_files s (remove (files s) (CacheFile name)).

Definition stale_cache : state := lose_file full_cache "old.bin".

(** A trace in which no file enters the cache directory before a
    verification has succeeded. *)
Fixpoint verified_before_move (seen_ok : bool) (trace : list event) : bool :=
  match trace with
  | [] => true
  | Verified _ ok :: rest => verified_before_move (seen_ok || ok) rest
  | Moved _ (CacheFile _) :: rest => seen_ok && verified_before_move seen_ok rest
  | _ :: rest => verified_before_move seen_ok rest
  end.

End Cache.

(** ** Community uploads: community_firmware.py *)

Module Community.

(** The [metadata] and [author_info] dictionaries of an upload; a field is
    [None] when the key is absent. *)
Record metadata := {
  m_display_name : option string;
  m_description : option string;
  m_version : option string;
  m_chip_type : option string;
  m_variant : option string;
  m_features : option (list string);
  m_compatibility : option (list string);
  m_gpio_template : option string;
  m_source_code_url : option string;
  m_documentation_url : option string;
  m_license : option string;
  m_tags : option (list string)
}.

Record author_info := {
  au_name : option string;
  au_email : option string;
  au_github : option string
}.

(** A row of table [community_firmware]; a nullable column is an option.
    The rating and clock columns are left out. *)
Record community_row := {
  cf_id : string;
  cf_name : string;
  cf_display_name : option string;
  cf_description : option string;
  cf_version : option string;
  cf_chip_type : string;
  cf_variant : option string;
  cf_author_name : option string;
  cf_author_email : option string;
  cf_author_github : option string;
  cf_local_path : string;
  cf_file_size : option Z;
  cf_md5_hash : option string;
  cf_sha256_hash : option string;
  cf_features : list string;
  cf_compatibility : list string;
  cf_gpio_template : string;
  cf_source_code_url : option string;
  cf_documentation_url : option string;
  cf_license : option string;
  cf_tags : list string;
  cf_status : string;
  cf_download_count : Z;
  cf_report_count : Z
}.

(** The community table and the files of [self.upload_dir], by file name. *)
Record store := {
  community_firmware : list community_row;
  upload_dir : gmap string Py.bytes
}.

Definition empty_store : store :=
  {| community_firmware := []; upload_dir := ∅ |}.

Definition max_file_size : Z := 10 * 1024 * 1024.
Definition allowed_extensions : list string := [".bin"; ".gz"].
Definition upload_dir_name : string := "/opt/app/data/community_uploads".

(** The reasons for which an upload is refused, with the message of the
    source. *)
Inductive upload_error : Type :=
  | FileTooLarge        (* 'File too large. Maximum size is 10.0MB' *)
  | FileTooSmall        (* 'File too small to be valid firmware' *)
  | InvalidFileType     (* 'Invalid file type. Allowed: ...' *)
  | AlreadyUploaded     (* 'This firmware file has already been uploaded' *)
  | InvalidFormat       (* 'Invalid firmware format - no valid magic bytes found' *)
  | SecurityScanFailed (pattern : Py.bytes)   (* 'Security scan failed' *)
  | UploadFailed (e : string).                (* 'Upload failed: ...' *)

Inductive validation : Type :=
  | Valid (chip_type : string)
  | Invalid (error : upload_error).

Definition _validate_firmware_binary (file_data : Py.bytes) : validation :=
  if (4 <=? Py.len file_data) && Py.beq (firstn 4 file_data) [xe9; x00; x00; x00]
  then Valid "ESP32"
  else if (1 <=? Py.len file_data) &&
          match file_data with b :: _ => Byte.eqb b xe9 | [] => false end
  then Valid "ESP8266"
  else if Py.beq (firstn 2 file_data) [x1f; x8b]
  then Valid "Unknown"
  else Invalid InvalidFormat.

Definition suspicious_patterns : list Py.bytes :=
  map Py.encode
    ["eval("; "exec("; "system("; "shell_exec("; "<?php"; "<script";
     "javascript:"; "<iframe"].

(** [_scan_for_malware]: the first suspicious pattern found in the data.
    The entropy the source computes afterwards is only logged. *)
Definition _scan_for_malware (file_data : Py.bytes) : option Py.bytes :=
  List.find (fun pattern => Py.bcontains pattern file_data) suspicious_patterns.

Definition _firmware_hash_exists (official : Catalog.db) (st : store)
    (file_hash : string) : bool :=
  if existsb (fun r => match Catalog.fw_sha256_hash r with
                       | Some h => String.eqb h file_hash
                       | None => false
                       end) (Catalog.firmware official)
  then true
  else existsb (fun r => match cf_sha256_hash r with
                         | Some h => String.eqb h file_hash
                         | None => false
                         end) (community_firmware st).

Definition _validate_firmware_upload (official : Catalog.db) (st : store)
    (file_data : Py.bytes) (filename : string) (md : metadata) : validation :=
  if max_file_size <? Py.len file_data then Invalid FileTooLarge
  else if Py.len file_data <? 100000 then Invalid FileTooSmall
  else
    let file_extension := Py.lower (Py.splitext_ext filename) in
    if negb (existsb (String.eqb file_extension) allowed_extensions)
    then Invalid InvalidFileType
    else
      let file_hash := Hash.sha256_hexdigest file_data in
      if _firmware_hash_exists official st file_hash then Invalid AlreadyUploaded
      else
        match _validate_firmware_binary file_data with
        | Invalid e => Invalid e
        | Valid chip =>
            match _scan_for_malware file_data with
            | Some pattern => Invalid (SecurityScanFailed pattern)
            | None => Valid chip
            end
        end.

(** The identifier of an upload: a digest of the file name, the version of
    the metadata and the clock. *)
Definition _generate_community_firmware_id (filename : string) (md : metadata)
    (now_iso : string) : string :=
  "community_" +:+
  Hash.md5_hexdigest
    (Py.encode (filename +:+ "_" +:+ get (m_version md) "custom" +:+ "_" +:+ now_iso)).

(** [_save_community_firmware]: a plain [INSERT]; a taken primary key
    raises. *)
Definition _save_community_firmware (st : store) (row : community_row)
  : result store :=
  if existsb (fun r => String.eqb (cf_id r) (cf_id row)) (community_firmware st)
  then Raise "UNIQUE constraint failed: community_firmware.id"
  else Ok {| community_firmware := community_firmware st ++ [row];
             upload_dir := upload_dir st |}.

Inductive upload_result : Type :=
  | Uploaded (firmware_id : string)
  | Rejected (error : upload_error).

Section Upload.

(** [werkzeug.utils.secure_filename], a function of the framework. *)
Variable secure_filename : string -> string.

(** The dictionary [community_firmware] built by [upload_firmware].
    [_analyze_firmware_file] never fills [build_info], which stays empty
    and is not kept in the row. *)
Definition upload_row (firmware_id secure_name local_path chip : string)
    (file_data : Py.bytes) (md : metadata) (author : author_info)
  : community_row :=
  {| cf_id := firmware_id;
     cf_name := secure_name;
     cf_display_name := Some (get (m_display_name md) secure_name);
     cf_description := Some (get (m_description md) "");
     cf_version := Some (get (m_version md) "custom");
     cf_chip_type := get (m_chip_type md) chip;
     cf_variant := Some (get (m_variant md) "custom");
     cf_author_name := Some (get (au_name author) "Anonymous");
     cf_author_email := Some (get (au_email author) "");
     cf_author_github := Some (get (au_github author) "");
     cf_local_path := local_path;
     cf_file_size := Some (Py.len file_data);
     cf_md5_hash := Some (Hash.md5_hexdigest file_data);
     cf_sha256_hash := Some (Hash.sha256_hexdigest file_data);
     cf_features := get (m_features md) [];
     cf_compatibility := get (m_compatibility md) [];
     cf_gpio_template := get (m_gpio_template md) "{}";
     cf_source_code_url := Some (get (m_source_code_url md) "");
     cf_documentation_url := Some (get (m_documentation_url md) "");
     cf_license := Some (get (m_license md) "Unknown");
     cf_tags := get (m_tags md) [];
     cf_status := "pending";
     cf_download_count := 0;
     cf_report_count := 0 |}.

Definition upload_firmware (official : Catalog.db) (st : store)
    (now_iso : string) (file_data : Py.bytes) (filename : string)
    (md : metadata) (author : author_info) : store * upload_result :=
  match _validate_firmware_upload official st file_data filename md with
  | Invalid e => (st, Rejected e)
  | Valid chip =>
      let firmware_id := _generate_community_firmware_id filename md now_iso in
      let secure_name := secure_filename filename in
      let file_extension := Py.lower (Py.splitext_ext secure_name) in
      let local_filename := firmware_id +:+ file_extension in
      let local_path := upload_dir_name +:+ "/" +:+ local_filename in
      let st1 := {| community_firmware := community_firmware st;
                    upload_dir := <[local_filename := file_data]> (upload_dir st) |} in
      match _save_community_firmware st1
              (upload_row firmware_id secure_name local_path chip file_data md author) with
      | Ok st2 => (st2, Uploaded firmware_id)
      | Raise e => (st1, Rejected (UploadFailed e))
      end
  end.

End Upload.

(** Sample inputs: a name that [secure_filename] leaves as it is, an
    upload without metadata, an author without details, and a file of nine
    mebibytes that starts with the ESP32 signature. *)
Definition keep_name (filename : string) : string := filename.

Definition no_metadata : metadata :=
  {| m_display_name := None; m_description := None; m_version := None;
     m_chip_type := None; m_variant := None; m_features := None;
     m_compatibility := None; m_gpio_template := None;
     m_source_code_url := None; m_documentation_url := None;
     m_license := None; m_tags := None |}.

Definition anonymous : author_info :=
  {| au_name := None; au_email := None; au_github := None |}.

Definition esp_image (zeros : nat) : Py.bytes :=
  xe9 :: x00 :: x00 :: x00 :: repeat x00 zeros.

Definition esp_300k : Py.bytes := esp_image 299996.

Definition nine_mib : Py.bytes := esp_image (Z.to_nat (9 * 1024 * 1024 - 4)).

(** The store after a first upload of a file of 100000 bytes, named
    fw.bin, into empty catalogs at 2024-05-01T10:00:00.000000. *)
Definition first_id : string := "community_08b707e2531fdf28800a45fe07dd00dd".

Definition stored_once : store :=
  {| community_firmware :=
       [upload_row first_id "fw.bin"
          (upload_dir_name +:+ "/" +:+ (first_id +:+ ".bin")) "ESP32"
          Cache.esp_100k no_metadata anonymous];
     upload_dir := <[first_id +:+ ".bin" := Cache.esp_100k]> ∅ |}.

(** The extension test of the validator. *)
Definition allowed_name (filename : string) : bool :=
  existsb (String.eqb (Py.lower (Py.splitext_ext filename))) allowed_extensions.

(** The reason the validator gives for a content whose hash is already in
    one of the two catalogs. *)
Definition duplicate_reason (file_data : Py.bytes) (filename : string)
  : upload_error :=
  if max_file_size <? Py.len file_data then FileTooLarge
  else if Py.len file_data <? 100000 then FileTooSmall
  else if negb (allowed_name filename) then InvalidFileType
  else AlreadyUploaded.

(** *** Listing *)

(** SQL [LIKE]: [%] matches any run of characters, [_] any one character,
    letters match without regard to case. *)
Fixpoint like (fuel : nat) (pattern s : string) : bool :=
  match fuel with
  | O => false
  | S fuel' =>
      match pattern with
      | EmptyString => match s with EmptyString => true | _ => false end
      | String p pattern' =>
          if Ascii.eqb p "%" then
            like fuel' pattern' s ||
            match s with
            | EmptyString => false
            | String _ s' => like fuel' pattern s'
            end
          else
            match s with
            | EmptyString => false
            | String c s' =>
                (Ascii.eqb p "_" || Ascii.eqb (Py.lower_ascii p) (Py.lower_ascii c))
                && like fuel' pattern' s'
            end
      end
  end.

Definition sql_like (pattern : string) (column : option string) : bool :=
  match column with
  | None => false
  | Some s => like (S (String.length pattern + String.length s)) pattern s
  end.

(** [get_community_firmware_list(status=..., author=..., limit=...)]: the
    rows kept by the [WHERE] clause, cut by [LIMIT].  The order of the rows
    within the limit depends on the ratings table and is not modelled. *)
Definition get_community_firmware_list (st : store) (status author : string)
    (limit : nat) : list community_row :=
  firstn limit
    (List.filter
       (fun r =>
          (if String.eqb status "" then true else String.eqb (cf_status r) status) &&
          (if String.eqb author "" then true
           else sql_like ("%" +:+ author +:+ "%") (cf_author_name r) ||
                sql_like ("%" +:+ author +:+ "%") (cf_author_github r)))
       (community_firmware st)).

End Community.

(** ** The review and poll jobs of background_scheduler.py *)

Module Scheduler.

(** [confidence] is 0.0 or 0.8 and is kept in tenths. *)
Record review_result := {
  auto_approve : bool;
  auto_reject : bool;
  rejection_reason : option string;
  confidence : Z
}.

Definition no_decision : review_result :=
  {| auto_approve := false; auto_reject := false;
     rejection_reason := None; confidence := 0 |}.

Definition reject (reason : string) : review_result :=
  {| auto_approve := false; auto_reject := true;
     rejection_reason := Some reason; confidence := 0 |}.

Definition approve : review_result :=
  {| auto_approve := true; auto_reject := false;
     rejection_reason := None; confidence := 8 |}.

(** [not firmware.get(field)] for a text column. *)
Definition falsy (column : option string) : bool :=
  match column with
  | None => true
  | Some s => String.eqb s ""
  end.

Definition suspicious_keywords : list string :=
  ["hack"; "crack"; "exploit"; "backdoor"; "virus"].

Definition join_comma (l : list string) : string := String.concat ", " l.

(** The body of the [try] of [_automated_firmware_review]; comparing a
    NULL size and lowering a NULL description raise. *)
Definition review_body (st : Community.store) (firmware : Community.community_row)
  : result review_result :=
  file_size ← match Community.cf_file_size firmware with
              | Some n => Ok n
              | None => Raise "'<' not supported between instances of 'NoneType' and 'int'"
              end;
  if (file_size <? 100000) || (8 * 1024 * 1024 <? file_size)
  then Ok (reject "Invalid file size")
  else
    let missing_fields :=
      (if falsy (Some (Community.cf_chip_type firmware)) then ["chip_type"] else []) ++
      (if falsy (Community.cf_variant firmware) then ["variant"] else []) ++
      (if falsy (Community.cf_author_name firmware) then ["author_name"] else []) in
    match missing_fields with
    | _ :: _ => Ok (reject ("Missing required fields: " +:+ join_comma missing_fields))
    | [] =>
        description_raw ← match Community.cf_description firmware with
                          | Some text => Ok text
                          | None => Raise "'NoneType' object has no attribute 'lower'"
                          end;
        let description := Py.lower description_raw in
        let name := Py.lower (Community.cf_name firmware) in
        if existsb (fun keyword => Py.contains keyword description ||
                                   Py.contains keyword name) suspicious_keywords
        then Ok (reject "Suspicious content detected")
        else
          let author_firmware_count :=
            Py.len (Community.get_community_firmware_list st "approved"
                      (get (Community.cf_author_name firmware) "") 50) in
          if (500000 <? file_size) &&
             existsb (String.eqb (Community.cf_chip_type firmware)) ["ESP32"; "ESP8266"] &&
             (50 <? Z.of_nat (String.length description_raw)) &&
             (3 <=? author_firmware_count)
          then Ok approve
          else Ok no_decision
    end.

Definition _automated_firmware_review (st : Community.store)
    (firmware : Community.community_row) : review_result :=
  match review_body st firmware with
  | Ok r => r
  | Raise _ => no_decision
  end.

(** The branch [_review_community_firmware] enters on a review: the call
    of [_approve_community_firmware], the call of
    [_reject_community_firmware] with the reason, or neither.  What the
    call does is [review_one] below. *)
Inductive decision : Type :=
  | AutoApprove
  | AutoReject (reason : option string)
  | StayPending.

Definition review_decision (r : review_result) : decision :=
  if auto_approve r then AutoApprove
  else if auto_reject r then AutoReject (rejection_reason r)
  else StayPending.

(** *** The review job *)

(** [self._approve_community_firmware] and
    [self._reject_community_firmware]: class [BackgroundScheduler] has no
    base class and defines neither method, so the attribute lookup raises
    [AttributeError] before anything is written. *)
Definition _approve_community_firmware (st : Community.store)
    (firmware_id reviewed_by : string) : result Community.store :=
  Raise "'BackgroundScheduler' object has no attribute '_approve_community_firmware'".

Definition _reject_community_firmware (st : Community.store)
    (firmware_id reviewed_by : string) (reason : option string)
  : result Community.store :=
  Raise "'BackgroundScheduler' object has no attribute '_reject_community_firmware'".

(** The body of the inner [try]: the review, then the call of the branch,
    then the increment of [reviewed_count]. *)
Definition review_one (st : Community.store) (firmware : Community.community_row)
    (reviewed_count : Z) : result (Community.store * Z) :=
  match review_decision (_automated_firmware_review st firmware) with
  | AutoApprove =>
      st' ← _approve_community_firmware st (Community.cf_id firmware)
              "automated_review";
      Ok (st', reviewed_count + 1)
  | AutoReject reason =>
      st' ← _reject_community_firmware st (Community.cf_id firmware)
              "automated_review" reason;
      Ok (st', reviewed_count + 1)
  | StayPending => Ok (st, reviewed_count)
  end.

(** The loop over the pending entries; an exception of one turn is logged
    and the loop goes on with the next entry. *)
Fixpoint review_each (pending_firmware : list Community.community_row)
    (st : Community.store) (reviewed_count : Z) : Community.store * Z :=
  match pending_firmware with
  | [] => (st, reviewed_count)
  | firmware :: rest =>
      match review_one st firmware reviewed_count with
      | Ok (st', reviewed_count') => review_each rest st' reviewed_count'
      | Raise _ => review_each rest st reviewed_count
      end
  end.

(** [task_status['last_community_review']] without its timestamp. *)
Record review_status := {
  pending_count : Z;
  reviewed_count : Z
}.

Definition _review_community_firmware (st : Community.store)
  : Community.store * review_status :=
  let pending_firmware := Community.get_community_firmware_list st "pending" "" 50 in
  let '(st', reviewed) := review_each pending_firmware st 0 in
  (st', {| pending_count := Py.len pending_firmware; reviewed_count := reviewed |}).

(** *** The daily poll *)

(** What the job consults besides the state: the answers of the sources,
    the clock (as text and in microseconds), the name the system gives to
    the temporary file of a download, and the outcome of each download. *)
Record world := {
  net : Catalog.network;
  now_iso : string;
  now : Z;
  temp_of : string -> string;
  fetch : string -> Cache.download
}.

Definition with_catalog (s : Cache.state) (c : Catalog.db) : Cache.state :=
  {| Cache.rows := Cache.rows s; Cache.stats := Cache.stats s;
     Cache.files := Cache.files s; Cache.catalog := c |}.

Definition _precache_new_firmware (w : world) (s : Cache.state)
    (firmware_list : list Catalog.update) : Cache.state :=
  fold_left
    (fun s u =>
       (Cache.download_and_cache_firmware s (now w)
          (temp_of w (Catalog.u_id u)) (Catalog.u_id u)
          (Catalog.u_download_url u) (fetch w (Catalog.u_download_url u))).1.1)
    firmware_list s.

(** [_check_firmware_updates] without the bookkeeping of [task_status]. *)
Definition _check_firmware_updates (w : world) (s : Cache.state) : Cache.state :=
  let '(db1, update_results) :=
    Catalog.check_all_sources_for_updates (net w) (now_iso w) (Cache.catalog s) in
  let all_updates := Catalog.all_updates update_results in
  match all_updates with
  | [] => with_catalog s db1
  | _ :: _ =>
      let '(db2, saved_count) := Catalog.save_firmware_updates db1 all_updates in
      let s2 := with_catalog s db2 in
      if 0 <? saved_count
      then _precache_new_firmware w s2 (firstn 5 all_updates)
      else s2
  end.

(** A sample world: the sample answers of the sources, and downloads that
    all break off. *)
Definition sample_world : world :=
  {| net := Catalog.sample_network;
     now_iso := "2024-05-01T02:00:00.000000";
     now := 1714528800000000;
     temp_of := fun id => "/tmp/" +:+ id;
     fetch := fun _ => Cache.DownloadFails [] "Connection reset" |}.

(** The same clock and downloads with the listing that lacks a key. *)
Definition keyless_world : world :=
  {| net := Catalog.keyless_network;
     now_iso := now_iso sample_world;
     now := now sample_world;
     temp_of := temp_of sample_world;
     fetch := fetch sample_world |}.

End Scheduler.

(** * Further operations *)

(** ** Statistics of the cache: firmware_cache.py *)

Module CacheStats.
Import Cache.

(** The dictionary returned by [get_cache_stats]. *)
Record cache_stats := {
  cs_total_size : Z;
  cs_file_count : Z;
  cs_cache_hits : Z;
  cs_cache_misses : Z;
  cs_last_cleanup : option Z;
  cs_total_downloads : Z
}.

(** [SELECT SUM(download_count) FROM firmware_cache], with [or 0] for the
    NULL of an empty table. *)
Definition total_downloads (l : list cache_row) : Z :=
  fold_right (fun r acc => download_count r + acc) 0 l.

(** [SELECT last_cleanup FROM cache_stats ORDER BY id DESC LIMIT 1] *)
Definition last_cleanup (l : list stats_row) : option Z :=
  match rev l with
  | [] => None
  | row :: _ => Some (st_last_cleanup row)
  end.

Definition get_cache_stats (s : state) : cache_stats :=
  {| cs_total_size := _get_cache_size s;
     cs_file_count := bin_count (files s);
     cs_cache_hits := 0;
     cs_cache_misses := 0;
     cs_last_cleanup := last_cleanup (stats s);
     cs_total_downloads := total_downloads (rows s) |}.

(** The bytes the index accounts for: the sum of column [file_size]. *)
Definition recorded_bytes (l : list cache_row) : Z :=
  fold_right (fun r acc => get (file_size r) 0 + acc) 0 l.

(** A verified index entry for a file of two bytes named after [id]. *)
Definition entry (id : string) (count accessed : Z) : cache_row :=
  {| firmware_id := id; local_path := CacheFile (id +:+ ".bin");
     download_url := "http://host/" +:+ id +:+ ".bin";
     file_size := Some 2; md5_hash := ""; sha256_hash := "";
     download_count := count; last_accessed := accessed; cached_at := 0;
     verified := true |}.

(** A small cache written by hand: one entry whose file is there, and one
    whose file is gone. *)
Definition small_cache : state :=
  {| rows := [entry "kept" 3 10; entry "lost" 0 20];
     stats := [];
     files := {| cache_dir := {[ "kept.bin" := [xe9; x00] ]}; temp_dir := ∅ |};
     catalog := Catalog.empty_db |}.

(** Two entries of two bytes each, both with their files: one never
    served, one served three times. *)
Definition two_entries : state :=
  {| rows := [entry "old" 0 10; entry "new" 3 20];
     stats := [];
     files := {| cache_dir := {[ "old.bin" := [xe9; x00]; "new.bin" := [xe9; x01] ]};
                 temp_dir := ∅ |};
     catalog := Catalog.empty_db |}.

End CacheStats.

(** ** What a poll offers: firmware_manager.py *)

Module Polling.
Import Catalog.

(** The candidates one source lists when it is checked on its own against
    the catalog [d]. *)
Definition offered (net : network) (now_iso : string) (d : db)
    (kv : string * source_config) : list update :=
  match check_source net d now_iso kv.1 kv.2 with
  | Ok (Some updates) => updates
  | _ => []
  end.

(** The entry of a source in the result of a poll, and its history row. *)
Definition listed (net : network) (now_iso : string) (d : db)
    (kv : string * source_config) : string * source_result :=
  (kv.1, {| sr_updates := Py.len (offered net now_iso d kv);
            sr_firmware := offered net now_iso d kv |}).

Definition logged (net : network) (now_iso : string) (d : db)
    (kv : string * source_config) : history_row :=
  {| h_source := kv.1; h_found_updates := Py.len (offered net now_iso d kv);
     h_errors := None |}.

(** The classification a candidate carries. *)
Definition info_of (u : update) : firmware_info :=
  {| fi_chip_type := u_chip_type u; fi_variant := u_variant u;
     fi_features := u_features u; fi_compatibility := u_compatibility u |}.

(** The lowered name the classifier looks at. *)
Definition classified_name (filename : string) : string :=
  Py.lower (Py.replace ".bin" "" filename).

(** The characters of a hexadecimal digest. *)
Definition hex_char (c : ascii) : bool :=
  existsb (Ascii.eqb c)
    ["0"; "1"; "2"; "3"; "4"; "5"; "6"; "7"; "8"; "9";
     "a"; "b"; "c"; "d"; "e"; "f"]%char.

Fixpoint all_hex (s : string) : bool :=
  match s with
  | EmptyString => true
  | String c s' => hex_char c && all_hex s'
  end.

(** What every candidate of a poll satisfies: it carries its dedup key,
    the key is new to the catalog [d], and its classification is the one of
    its name. *)
Definition candidate (d : db) (config : source_config) (u : update) : Prop :=
  u_id u = _generate_firmware_id (u_name u) (u_version u) (channel config) /\
  _firmware_exists d (u_id u) = false /\
  u_channel u = channel config /\
  _parse_firmware_filename (u_name u) = Some (info_of u).

Definition github_candidate (d : db) (config : source_config) (u : update) : Prop :=
  candidate d config u /\
  u_source u = "github_releases" /\
  Py.endswith ".bin" (u_name u) = true.

Definition ota_candidate (d : db) (source_name : string) (config : source_config)
    (u : update) : Prop :=
  candidate d config u /\
  u_source u = source_name /\
  u_version u = "latest" /\
  chip_type config = Some (u_chip_type u).

(** The entry ["github_artifacts"] of the configuration. *)
Definition artifacts_config : source_config :=
  {| url := "https://api.github.com/repos/arendst/Tasmota/actions/artifacts";
     type := "github_api"; channel := "development"; chip_type := None |}.

(** The candidate of the sample GitHub listing. *)
Definition sensors_update : update :=
  {| u_id := sensors_id; u_name := "tasmota32-sensors.bin"; u_version := "v13.2.0";
     u_chip_type := "ESP32"; u_variant := "sensors"; u_channel := "stable";
     u_source := "github_releases";
     u_download_url :=
       "https://github.com/arendst/Tasmota/releases/download/v13.2.0/tasmota32-sensors.bin";
     u_size := 650000;
     u_published_at := Some "2023-10-16T09:00:00Z";
     u_changelog := Some "Release notes";
     u_features := ["All Sensors"; "DHT22"; "DS18B20"; "BMP280"];
     u_compatibility := [] |}.

End Polling.

(** ** Sequences of uploads: community_firmware.py *)

Module Uploads.
Import Community.

(** One call of [upload_firmware], with the official catalog and the
    clock it meets. *)
Record upload_request := {
  rq_official : Catalog.db;
  rq_now_iso : string;
  rq_file_data : Py.bytes;
  rq_filename : string;
  rq_metadata : metadata;
  rq_author : author_info
}.

Definition upload_all (secure_filename : string -> string) (st : store)
    (requests : list upload_request) : store :=
  fold_left
    (fun st q =>
       (upload_firmware secure_filename (rq_official q) st (rq_now_iso q)
          (rq_file_data q) (rq_filename q) (rq_metadata q) (rq_author q)).1)
    requests st.

(** What the table and the upload directory look like when uploads are
    their only writer. *)
Definition tidy (st : store) : Prop :=
  List.NoDup (map cf_id (community_firmware st)) /\
  List.NoDup (map cf_sha256_hash (community_firmware st)) /\
  forall r, In r (community_firmware st) ->
    cf_status r = "pending" /\
    cf_download_count r = 0 /\
    cf_report_count r = 0 /\
    (exists file_data,
        cf_sha256_hash r = Some (Hash.sha256_hexdigest file_data) /\
        cf_md5_hash r = Some (Hash.md5_hexdigest file_data) /\
        cf_file_size r = Some (Py.len file_data) /\
        100000 <= Py.len file_data <= max_file_size) /\
    (exists name,
        cf_local_path r = upload_dir_name +:+ "/" +:+ name /\
        Py.startswith (cf_id r) name = true /\
        upload_dir st !! name <> None).

(** A second image, one byte longer than the first. *)
Definition other_image : Py.bytes := esp_image 99997.

End Uploads.

(** ** Ratings and reports: community_firmware.py *)

Module Feedback.
Import Community.

(** A row of table [community_ratings], with the columns the insert
    fills.  [device_info] is the dictionary whose JSON text is stored. *)
Record rating_row := {
  rt_firmware_id : string;
  rt_user_identifier : string;
  rt_rating : Z;
  rt_review_text : option string;
  rt_device_info : option (list (string * string));
  rt_flash_success : option bool
}.

(** A row of table [firmware_reports]. *)
Record report_row := {
  rp_firmware_id : string;
  rp_reporter_identifier : string;
  rp_report_type : string;
  rp_report_reason : string;
  rp_additional_info : option string;
  rp_status : string
}.

(** The community database as the two operations see it.  The columns
    [rating] and [rating_count] of [community_firmware], which
    [community_row] leaves out, are kept by primary key in
    [rating_columns] as the pair (sum, count): [rating] is the REAL
    sum / count, [rating_count] is count.  A key that is absent stands for
    the defaults 0.0 and 0. *)
Record feedback := {
  fb_store : store;
  community_ratings : list rating_row;
  firmware_reports : list report_row;
  rating_columns : gmap string (Z * Z)
}.

(** The dictionary an operation returns. *)
Inductive answer : Type :=
  | Success (message : string)
  | Failure (error : string).

Definition _user_already_rated (fb : feedback) (firmware_id user_identifier : string)
  : bool :=
  existsb (fun r => String.eqb (rt_firmware_id r) firmware_id &&
                    String.eqb (rt_user_identifier r) user_identifier)
          (community_ratings fb).

(** The ratings of one firmware. *)
Definition ratings_of (l : list rating_row) (firmware_id : string) : list rating_row :=
  List.filter (fun r => String.eqb (rt_firmware_id r) firmware_id) l.

(** [SELECT SUM(rating)]: the numerator of [AVG(rating)]. *)
Definition rating_sum (l : list rating_row) : Z :=
  fold_right (fun r acc => rt_rating r + acc) 0 l.

Definition submit_firmware_rating (fb : feedback)
    (firmware_id user_identifier : string) (rating : Z)
    (review_text : option string) (device_info : option (list (string * string)))
    (flash_success : option bool) : feedback * answer :=
  if negb ((1 <=? rating) && (rating <=? 5))
  then (fb, Failure "Rating must be between 1 and 5")
  else if _user_already_rated fb firmware_id user_identifier
  then (fb, Failure "You have already rated this firmware")
  else
    let row :=
      {| rt_firmware_id := firmware_id;
         rt_user_identifier := user_identifier;
         rt_rating := rating;
         rt_review_text := review_text;
         rt_device_info :=
           match device_info with
           | Some (_ :: _ as d) => Some d
           | _ => None
           end;
         rt_flash_success := flash_success |} in
    let ratings' := community_ratings fb ++ [row] in
    let mine := ratings_of ratings' firmware_id in
    ({| fb_store := fb_store fb;
        community_ratings := ratings';
        firmware_reports := firmware_reports fb;
        rating_columns :=
          if existsb (fun r => String.eqb (cf_id r) firmware_id)
                     (community_firmware (fb_store fb))
          then <[firmware_id := (rating_sum mine, Py.len mine)]> (rating_columns fb)
          else rating_columns fb |},
     Success "Rating submitted successfully").

Definition valid_report_types : list string :=
  ["spam"; "malware"; "inappropriate"; "copyright"; "other"].

(** [SELECT COUNT( * ) FROM firmware_reports WHERE firmware_id = ? AND
    status = 'pending'] *)
Definition pending_reports (l : list report_row) (firmware_id : string) : Z :=
  Py.len (List.filter (fun r => String.eqb (rp_firmware_id r) firmware_id &&
                                String.eqb (rp_status r) "pending") l).

Definition set_report_count (firmware_id : string) (n : Z) (r : community_row)
  : community_row :=
  if String.eqb (cf_id r) firmware_id
  then {| cf_id := cf_id r; cf_name := cf_name r;
          cf_display_name := cf_display_name r;
          cf_description := cf_description r;
          cf_version := cf_version r;
          cf_chip_type := cf_chip_type r;
          cf_variant := cf_variant r;
          cf_author_name := cf_author_name r;
          cf_author_email := cf_author_email r;
          cf_author_github := cf_author_github r;
          cf_local_path := cf_local_path r;
          cf_file_size := cf_file_size r;
          cf_md5_hash := cf_md5_hash r;
          cf_sha256_hash := cf_sha256_hash r;
          cf_features := cf_features r;
          cf_compatibility := cf_compatibility r;
          cf_gpio_template := cf_gpio_template r;
          cf_source_code_url := cf_source_code_url r;
          cf_documentation_url := cf_documentation_url r;
          cf_license := cf_license r;
          cf_tags := cf_tags r;
          cf_status := cf_status r;
          cf_download_count := cf_download_count r;
          cf_report_count := n |}
  else r.

Definition report_firmware (fb : feedback)
    (firmware_id reporter_identifier report_type report_reason : string)
    (additional_info : option string) : feedback * answer :=
  if negb (existsb (String.eqb report_type) valid_report_types)
  then (fb, Failure ("Invalid report type. Must be one of: " +:+
                     String.concat ", " valid_report_types))
  else
    let reports' := firmware_reports fb ++
      [{| rp_firmware_id := firmware_id;
          rp_reporter_identifier := reporter_identifier;
          rp_report_type := report_type;
          rp_report_reason := report_reason;
          rp_additional_info := additional_info;
          rp_status := "pending" |}] in
    ({| fb_store :=
          {| community_firmware :=
               map (set_report_count firmware_id (pending_reports reports' firmware_id))
                   (community_firmware (fb_store fb));
             upload_dir := upload_dir (fb_store fb) |};
        community_ratings := community_ratings fb;
        firmware_reports := reports';
        rating_columns := rating_columns fb |},
     Success "Report submitted successfully").

(** The row of an entry under the reports [l]: untouched while no report
    of the entry is pending, otherwise with their number as report count. *)
Definition reported (l : list report_row) (r : community_row) : community_row :=
  if pending_reports l (cf_id r) =? 0 then r
  else set_report_count (cf_id r) (pending_reports l (cf_id r)) r.

(** Who rated what. *)
Definition rater (r : rating_row) : string * string :=
  (rt_firmware_id r, rt_user_identifier r).

(** A database without ratings and reports. *)
Definition fresh (st : store) : feedback :=
  {| fb_store := st; community_ratings := []; firmware_reports := [];
     rating_columns := ∅ |}.

(** Sequences of ratings and reports. *)
Inductive request : Type :=
  | Rate (firmware_id user_identifier : string) (rating : Z)
         (review_text : option string)
         (device_info : option (list (string * string)))
         (flash_success : option bool)
  | Report (firmware_id reporter_identifier report_type report_reason : string)
           (additional_info : option string).

Definition serve (fb : feedback) (q : request) : feedback :=
  match q with
  | Rate firmware_id user rating text info flashed =>
      (submit_firmware_rating fb firmware_id user rating text info flashed).1
  | Report firmware_id reporter type reason info =>
      (report_firmware fb firmware_id reporter type reason info).1
  end.

Definition serve_all (fb : feedback) (qs : list request) : feedback :=
  fold_left serve qs fb.

(** The invariant of the ratings over the table of [st]: one rating per
    firmware and user, every rating between 1 and 5, and the rating columns
    of an entry, once written, hold the sum and the number of its
    ratings. *)
Definition rated_soundly (st : store) (fb : feedback) : Prop :=
  map cf_id (community_firmware (fb_store fb)) = map cf_id (community_firmware st) /\
  List.NoDup (map rater (community_ratings fb)) /\
  (forall r, In r (community_ratings fb) -> 1 <= rt_rating r <= 5) /\
  (forall id sum count, rating_columns fb !! id = Some (sum, count) ->
     In id (map cf_id (community_firmware st)) /\
     ratings_of (community_ratings fb) id <> [] /\
     sum = rating_sum (ratings_of (community_ratings fb) id) /\
     count = Py.len (ratings_of (community_ratings fb) id)) /\
  (forall id, In id (map cf_id (community_firmware st)) ->
     ratings_of (community_ratings fb) id <> [] ->
     rating_columns fb !! id <> None).

(** The invariant of the reports over the table of [st]. *)
Definition reported_soundly (st : store) (fb : feedback) : Prop :=
  community_firmware (fb_store fb) =
    map (reported (firmware_reports fb)) (community_firmware st) /\
  upload_dir (fb_store fb) = upload_dir st /\
  forall p, In p (firmware_reports fb) ->
    In (rp_report_type p) valid_report_types /\ rp_status p = "pending".

End Feedback.

(** ** More jobs of background_scheduler.py *)

Module Jobs.

(** An entry of [task_status['errors']]. *)
Record error_record := {
  er_timestamp : string;
  er_task : string;
  er_error : string
}.

(** [_record_error]: append, then keep the last fifty. *)
Definition _record_error (errors : list error_record)
    (now_iso task_name error_message : string) : list error_record :=
  let errors' := errors ++
    [{| er_timestamp := now_iso; er_task := task_name;
        er_error := error_message |}] in
  if 50 <? Py.len errors'
  then skipn (length errors' - 50) errors'
  else errors'.

(** The errors of a run of failing tasks, each with its clock reading. *)
Definition record_all (errors : list error_record)
    (failures : list (string * string * string)) : list error_record :=
  fold_left (fun acc f => _record_error acc f.1.1 f.1.2 f.2) failures errors.

Definition as_record (f : string * string * string) : error_record :=
  {| er_timestamp := f.1.1; er_task := f.1.2; er_error := f.2 |}.

(** [dev_sources] of [_check_development_firmware]: the three development
    entries of [firmware_manager.sources], which lists them in the same
    order. *)
Definition dev_source_names : list string :=
  ["github_artifacts"; "ota_esp8266_dev"; "ota_esp32_dev"].

Definition dev_sources : list (string * Catalog.source_config) :=
  List.filter (fun kv => existsb (String.eqb kv.1) dev_source_names)
              Catalog.sources.

Definition ota_esp8266_dev_config : Catalog.source_config :=
  {| Catalog.url := "http://ota.tasmota.com/tasmota/";
     Catalog.type := "ota_server"; Catalog.channel := "development";
     Catalog.chip_type := Some "ESP8266" |}.

Definition ota_esp32_dev_config : Catalog.source_config :=
  {| Catalog.url := "http://ota.tasmota.com/tasmota32/";
     Catalog.type := "ota_server"; Catalog.channel := "development";
     Catalog.chip_type := Some "ESP32" |}.

(** The loop over the development sources; unlike the daily poll it
    writes no history row. *)
Fixpoint check_dev_sources (net : Catalog.network) (now_iso : string)
    (d : Catalog.db) (srcs : list (string * Catalog.source_config))
    (updates : list Catalog.update) : list Catalog.update :=
  match srcs with
  | [] => updates
  | (source_name, source_config) :: rest =>
      if String.eqb (Catalog.type source_config) "github_api"
      then check_dev_sources net now_iso d rest
             (updates ++ Catalog._check_github_source net d source_name source_config)
      else if String.eqb (Catalog.type source_config) "ota_server"
      then check_dev_sources net now_iso d rest
             (updates ++ Catalog._check_ota_source net d now_iso source_name
                           source_config)
      else check_dev_sources net now_iso d rest updates
  end.

Definition _check_development_firmware (net : Catalog.network) (now_iso : string)
    (d : Catalog.db) : Catalog.db :=
  match check_dev_sources net now_iso d dev_sources [] with
  | [] => d
  | (_ :: _) as updates => (Catalog.save_firmware_updates d updates).1
  end.

(** [task_status['last_cache_cleanup']] without its clock readings;
    [cache_size_mb] is [lc_total_size / 1024 / 1024] as a float, of which
    the numerator is kept. *)
Record last_cache_cleanup := {
  lc_total_size : Z;
  lc_file_count : Z
}.

Definition _cleanup_firmware_cache (now : Z) (s : Cache.state)
  : Cache.state * last_cache_cleanup :=
  let s' := Cache.cleanup_cache s now false in
  let cache_stats := CacheStats.get_cache_stats s' in
  (s', {| lc_total_size := CacheStats.cs_total_size cache_stats;
          lc_file_count := CacheStats.cs_file_count cache_stats |}).

End Jobs.

(** * Properties *)

(** ** Lists, strings and digests *)

Module ListFacts.

Example md5_abc :
  Hash.md5_hexdigest (Py.encode "abc") = "900150983cd24fb0d6963f7d28e17f72".
Proof. vm_compute. reflexivity. Qed.

Example sha256_abc :
  Hash.sha256_hexdigest (Py.encode "abc") =
  "ba7816bf8f01cfea414140de5dae2223b00361a396177a9cb410ff61f20015ad".
Proof. vm_compute. reflexivity. Qed.

Example md5_two_blocks :
  Hash.md5_hexdigest (repeat "a"%byte 100) = "36a92cc94a9e0fa21f625f8bfb007adf".
Proof. vm_compute. reflexivity. Qed.

Example sha256_two_blocks :
  Hash.sha256_hexdigest (repeat "a"%byte 100) =
  "2816597888e4a0d3a36b82b83316ab32680eb8f00f8cd3b904d681246d285a0e".
Proof. vm_compute. reflexivity. Qed.

Example splitext_samples :
  map Py.splitext_ext ["a/b.c/foo.tar.GZ"; ".bashrc"; "x.bin"; "a.b/c"; "..a.b"] =
  [".GZ"; ""; ".bin"; ""; ".b"].
Proof. reflexivity. Qed.

Example replace_samples :
  Py.replace ".bin" "" "tasmota32-sensors.bin" = "tasmota32-sensors" /\
  Py.replace "aa" "b" "aaaaa" = "bba".
Proof. split; reflexivity. Qed.

Lemma find_all_false {A} (p : A -> bool) (l : list A) :
  (forall x, In x l -> p x = false) -> List.find p l = None.
Proof.
  induction l as [|x l IH]; simpl; intros H; [reflexivity|].
  rewrite (H x) by now left. apply IH. intros y Hy. apply H. now right.
Qed.

Lemma bcontains_first_absent (p0 : byte) (p l : Py.bytes) :
  (forall b, In b l -> Byte.eqb p0 b = false) -> Py.bcontains (p0 :: p) l = false.
Proof.
  induction l as [|b l IH]; intros H; simpl; [reflexivity|].
  rewrite (H b) by now left. simpl. apply IH. intros b' Hb'. apply H. now right.
Qed.

End ListFacts.

(** ** The cache *)

Module CacheFacts.
Import Cache ListFacts.

Lemma length_append_nat (a b : string) :
  String.length (a +:+ b) = (String.length a + String.length b)%nat.
Proof. induction a as [|c a IH]; simpl; [reflexivity | now rewrite IH]. Qed.

Lemma append_bin_inj (a b : string) : a +:+ ".bin" = b +:+ ".bin" -> a = b.
Proof.
  revert b. induction a as [|c a IH]; intros [|d b] H; simpl in H.
  - reflexivity.
  - apply (f_equal String.length) in H. simpl in H.
    rewrite length_append_nat in H. simpl in H. lia.
  - apply (f_equal String.length) in H. simpl in H.
    rewrite length_append_nat in H. simpl in H. lia.
  - injection H as -> H. f_equal. now apply IH.
Qed.

Lemma NoDup_map_filter {A B} (f : A -> B) (p : A -> bool) (l : list A) :
  List.NoDup (map f l) -> List.NoDup (map f (List.filter p l)).
Proof.
  induction l as [|x l IH]; simpl; intros H; [constructor|].
  apply NoDup_cons_iff in H as [Hx Hl].
  destruct (p x); simpl; auto.
  apply NoDup_cons_iff. split; auto.
  intros Hin. apply Hx. apply in_map_iff in Hin as (y & Hy & Hin).
  apply filter_In in Hin as [Hin _]. apply in_map_iff. eauto.
Qed.

Lemma NoDup_map_inj_on {A B} (f : A -> B) (l : list A) x y :
  List.NoDup (map f l) -> In x l -> In y l -> f x = f y -> x = y.
Proof.
  induction l as [|z l IH]; simpl; intros H Hx Hy Hf; [contradiction|].
  apply NoDup_cons_iff in H as [Hz Hl].
  destruct Hx as [->|Hx], Hy as [->|Hy]; auto.
  - exfalso. apply Hz. rewrite Hf. now apply in_map.
  - exfalso. apply Hz. rewrite <- Hf. now apply in_map.
Qed.

Lemma cache_size_remove (s : state) name content :
  cache_dir (files s) !! name = Some content ->
  _get_cache_size (with_files s (remove (files s) (CacheFile name))) =
  _get_cache_size s - Py.len content.
Proof.
  intros H. unfold _get_cache_size. simpl.
  rewrite (map_fold_delete_L _ _ name content (cache_dir (files s))); auto.
  - lia.
  - intros. lia.
Qed.

(** Verification reads the size and the first bytes only. *)
Lemma verify_reads (d : disk) (p : path) :
  _verify_firmware_file d p =
  match read d p with
  | Some content => passes_verification content
  | None => false
  end.
Proof.
  unfold _verify_firmware_file, passes_verification, esp32_magic, esp8266_magic.
  destruct (read d p) as [content|]; [|reflexivity].
  rewrite Z.leb_antisym. destruct (Py.len content <? 100000) eqn:Hlen; simpl; [reflexivity|].
  assert (Hfirst : firstn 4 (firstn 16 content) = firstn 4 content).
  { rewrite firstn_firstn. reflexivity. }
  rewrite Hfirst.
  destruct (Py.beq (firstn 4 content) [xe9; x00; x00; x00]); simpl; [reflexivity|].
  destruct content; reflexivity.
Qed.

(** The ESP32 signature starts with the ESP8266 one. *)
Lemma esp32_is_esp8266 (content : Py.bytes) :
  esp32_magic content = true -> esp8266_magic content = true.
Proof.
  unfold esp32_magic, esp8266_magic. destruct content as [|b content]; simpl.
  - discriminate.
  - destruct (Byte.eqb b xe9); [reflexivity | discriminate].
Qed.

Lemma select_verified_some s id r :
  select_verified s id = Some r ->
  In r (rows s) /\ firmware_id r = id /\ verified r = true.
Proof.
  unfold select_verified. intros H. apply find_some in H as [Hin Hp].
  apply andb_true_iff in Hp as [Hid Hv]. apply String.eqb_eq in Hid. auto.
Qed.

Lemma select_verified_none s id r :
  select_verified s id = None -> In r (rows s) -> firmware_id r = id ->
  verified r = false.
Proof.
  unfold select_verified. intros H Hin Hid.
  apply (find_none _ _ H) in Hin. rewrite Hid, String.eqb_refl in Hin.
  simpl in Hin. exact Hin.
Qed.

Lemma row_ok_exists d r : row_ok d r -> exists_ d (local_path r) = true.
Proof.
  intros (Hp & _ & content & Hc & _). rewrite Hp. unfold exists_. simpl.
  now rewrite Hc.
Qed.

Lemma get_cached_hit s id r :
  consistent s -> In r (rows s) -> firmware_id r = id ->
  get_cached_firmware_path s id = (s, Some (CacheFile (id +:+ ".bin"))).
Proof.
  intros (Hnd & Hok & _) Hin Hid. unfold get_cached_firmware_path.
  destruct (select_verified s id) as [r'|] eqn:Hsel.
  - apply select_verified_some in Hsel as (Hin' & Hid' & _).
    rewrite (row_ok_exists _ _ (Hok _ Hin')).
    destruct (Hok _ Hin') as (Hp & _). rewrite Hp, Hid'. reflexivity.
  - pose proof (select_verified_none _ _ _ Hsel Hin Hid) as Hv.
    destruct (Hok _ Hin) as (_ & Hv' & _). congruence.
Qed.

Lemma get_cached_miss s id :
  ~ has_entry s id -> get_cached_firmware_path s id = (s, None).
Proof.
  intros Hno. unfold get_cached_firmware_path.
  destruct (select_verified s id) as [r'|] eqn:Hsel; [|reflexivity].
  apply select_verified_some in Hsel as (Hin' & Hid' & _).
  exfalso. apply Hno. exists r'. auto.
Qed.

Lemma has_entry_dec s id : has_entry s id \/ ~ has_entry s id.
Proof.
  destruct (existsb (fun r => String.eqb (firmware_id r) id) (rows s)) eqn:E.
  - left. apply existsb_exists in E as (r & Hin & Hid).
    apply String.eqb_eq in Hid. exists r. auto.
  - right. intros (r & Hin & Hid).
    assert (existsb (fun r => String.eqb (firmware_id r) id) (rows s) = true).
    { apply existsb_exists. exists r. split; auto. now apply String.eqb_eq. }
    congruence.
Qed.

Lemma get_cached_consistent s id :
  consistent s -> (get_cached_firmware_path s id).1 = s.
Proof.
  intros Hc. destruct (has_entry_dec s id) as [(r & Hin & Hid)|Hno].
  - now rewrite (get_cached_hit s id r).
  - now rewrite get_cached_miss.
Qed.

Lemma touch_id now id r : firmware_id (touch now id r) = firmware_id r.
Proof. unfold touch. destruct (String.eqb _ _); reflexivity. Qed.

Lemma touch_row_ok d now id r : row_ok d r -> row_ok d (touch now id r).
Proof.
  unfold row_ok, touch. destruct (String.eqb _ _); simpl; auto.
Qed.

Lemma consistent_touch s now id :
  consistent s -> consistent (_update_access_time s now id).
Proof.
  intros (Hnd & Hok & Horph & Htmp). unfold consistent, _update_access_time. simpl.
  split; [|split; [|split]].
  - rewrite map_map. erewrite map_ext; [exact Hnd|]. intros; apply touch_id.
  - intros r Hin. apply in_map_iff in Hin as (r0 & <- & Hin).
    apply touch_row_ok. auto.
  - intros name content Hf. destruct (Horph _ _ Hf) as (r & Hin & Hname).
    exists (touch now id r). split; [now apply in_map|].
    now rewrite touch_id.
  - exact Htmp.
Qed.


Lemma filter_absent s id :
  ~ has_entry s id ->
  List.filter (fun r => negb (String.eqb (firmware_id r) id)) (rows s) = rows s.
Proof.
  intros Hno. unfold has_entry in Hno.
  induction (rows s) as [|r l IH]; simpl; [reflexivity|].
  destruct (String.eqb (firmware_id r) id) eqn:E; simpl.
  - exfalso. apply Hno. exists r. split; [now left | now apply String.eqb_eq].
  - f_equal. apply IH. intros (r' & Hin & Hid). apply Hno. exists r'. split; auto. now right.
Qed.

(** The cached branch: the entry is there, so nothing is downloaded. *)
Lemma download_cached s now tmp id url net r :
  consistent s -> In r (rows s) -> firmware_id r = id ->
  download_and_cache_firmware s now tmp id url net =
  (_update_access_time s now id, Some (CacheFile (id +:+ ".bin")), [AccessBumped id]).
Proof.
  intros Hc Hin Hid. unfold download_and_cache_firmware.
  rewrite (get_cached_hit s id r Hc Hin Hid).
  destruct Hc as (_ & Hok & _). pose proof (row_ok_exists _ _ (Hok _ Hin)) as Hex.
  destruct (Hok _ Hin) as (Hp & _). rewrite Hp, Hid in Hex. now rewrite Hex.
Qed.

Lemma move_temp_cache d tmp name content :
  temp_dir d !! tmp = Some content ->
  move d (TempFile tmp) (CacheFile name) =
  {| cache_dir := <[name := content]> (cache_dir d);
     temp_dir := delete tmp (temp_dir d) |}.
Proof. intros H. unfold move. simpl. rewrite H. reflexivity. Qed.

Lemma download_completes s now tmp id url content :
  (get_cached_firmware_path s id).2 = None ->
  download_and_cache_firmware s now tmp id url (Downloaded content) =
  let s1 := (get_cached_firmware_path s id).1 in
  let temp_path := TempFile tmp in
  let cache_path := CacheFile (id +:+ ".bin") in
  if passes_verification content
  then (_update_firmware_local_path
          (_add_to_cache_db (with_files s1 (after_move s1 tmp id content)) now id
             cache_path url (Py.len content) (Hash.md5_hexdigest content)
             (Hash.sha256_hexdigest content)) id cache_path,
        Some cache_path,
        [TempCreated temp_path; Fetched url temp_path; Moved temp_path cache_path;
         Verified cache_path true; EntryRecorded id])
  else (with_files s1
          {| cache_dir := delete (id +:+ ".bin") (cache_dir (files s1));
             temp_dir := delete tmp (temp_dir (files s1)) |},
        None,
        [TempCreated temp_path; Fetched url temp_path; Moved temp_path cache_path;
         Verified cache_path false; Removed cache_path]).
Proof.
  intros Hmiss. unfold download_and_cache_firmware.
  destruct (get_cached_firmware_path s id) as [s1 cached]. simpl in Hmiss. subst cached.
  cbn zeta. cbn [fst snd with_files files write cache_dir temp_dir].
  rewrite (move_temp_cache _ tmp (id +:+ ".bin") content) by apply lookup_insert_eq.
  rewrite verify_reads. cbn [read cache_dir temp_dir with_files files remove].
  rewrite lookup_insert_eq, !delete_insert_eq.
  destruct (passes_verification content); reflexivity.
Qed.

(** A download that breaks off. *)
Lemma download_breaks s now tmp id url written e :
  (get_cached_firmware_path s id).2 = None ->
  download_and_cache_firmware s now tmp id url (DownloadFails written e) =
  let s1 := (get_cached_firmware_path s id).1 in
  (with_files s1
     {| cache_dir := cache_dir (files s1);
        temp_dir := delete tmp (temp_dir (files s1)) |},
   None, [TempCreated (TempFile tmp); Removed (TempFile tmp)]).
Proof.
  intros Hmiss. unfold download_and_cache_firmware.
  destruct (get_cached_firmware_path s id) as [s1 cached]. simpl in Hmiss. subst cached.
  cbn zeta. unfold exists_. cbn [fst snd with_files files write read move remove cache_dir temp_dir].
  rewrite lookup_insert_eq. cbn [with_files files remove cache_dir temp_dir].
  rewrite !delete_insert_eq. reflexivity.
Qed.

Lemma with_files_same s :
  temp_dir (files s) = ∅ ->
  forall tmp, with_files s {| cache_dir := cache_dir (files s);
                              temp_dir := delete tmp (temp_dir (files s)) |} = s.
Proof.
  intros Htmp tmp. destruct s as [rs sts [c t] cat]. simpl in *. subst t.
  unfold with_files. simpl. now rewrite delete_empty.
Qed.

Lemma no_entry_no_file s id :
  consistent s -> ~ has_entry s id -> cache_dir (files s) !! (id +:+ ".bin") = None.
Proof.
  intros (_ & _ & Horph & _) Hno.
  destruct (cache_dir (files s) !! (id +:+ ".bin")) as [content|] eqn:E; [|reflexivity].
  destruct (Horph _ _ E) as (r & Hin & Hname). apply append_bin_inj in Hname.
  exfalso. apply Hno. exists r. auto.
Qed.


Lemma rejected_state_same s id tmp :
  consistent s -> ~ has_entry s id ->
  with_files s {| cache_dir := delete (id +:+ ".bin") (cache_dir (files s));
                  temp_dir := delete tmp (temp_dir (files s)) |} = s.
Proof.
  intros Hc Hno. pose proof (no_entry_no_file s id Hc Hno) as Hnone.
  destruct Hc as (_ & _ & _ & Htmp).
  destruct s as [rs sts [c t] cat]. simpl in *. subst t.
  unfold with_files. simpl. now rewrite delete_empty, delete_id.
Qed.

Lemma consistent_recorded s now tmp id url content cat' :
  consistent s -> ~ has_entry s id ->
  consistent
    {| rows := rows (_add_to_cache_db (with_files s (after_move s tmp id content)) now id
                       (CacheFile (id +:+ ".bin")) url (Py.len content)
                       (Hash.md5_hexdigest content) (Hash.sha256_hexdigest content));
       stats := stats s;
       files := after_move s tmp id content;
       catalog := cat' |}.
Proof.
  intros Hc Hno. pose proof (no_entry_no_file s id Hc Hno) as Hnone.
  destruct Hc as (Hnd & Hok & Horph & Htmp).
  unfold consistent, _add_to_cache_db. cbn [rows files with_files with_rows].
  rewrite (filter_absent s id Hno).
  split; [|split; [|split]].
  - rewrite map_app. simpl.
    apply (Permutation_NoDup (Permutation_cons_append _ _)).
    constructor; [|exact Hnd].
    intros Hin. apply in_map_iff in Hin as (r & Hid & Hin). apply Hno. exists r. auto.
  - intros r Hin. apply in_app_iff in Hin as [Hin|[<-|[]]].
    + destruct (Hok _ Hin) as (Hp & Hv & c & Hf & Hs).
      split; [exact Hp|]. split; [exact Hv|]. exists c. split; [|exact Hs].
      unfold after_move. cbn [cache_dir]. rewrite lookup_insert_ne; [exact Hf|].
      intros Heq. apply append_bin_inj in Heq. apply Hno. exists r. auto.
    + split; [reflexivity|]. split; [reflexivity|]. exists content. split; [|reflexivity].
      unfold after_move. cbn [cache_dir firmware_id]. apply lookup_insert_eq.
  - intros name c Hf. unfold after_move in Hf. cbn [cache_dir] in Hf.
    destruct (decide (id +:+ ".bin" = name)) as [<-|Hne].
    + eexists. split; [apply in_app_iff; right; left; reflexivity|]. reflexivity.
    + rewrite lookup_insert_ne in Hf by exact Hne.
      destruct (Horph _ _ Hf) as (r & Hin & Hname). exists r. split; [|exact Hname].
      apply in_app_iff. now left.
  - unfold after_move. cbn [temp_dir]. rewrite Htmp. apply delete_empty.
Qed.

Lemma consistent_download s now tmp id url net :
  consistent s -> consistent (download_and_cache_firmware s now tmp id url net).1.1.
Proof.
  intros Hc. destruct (has_entry_dec s id) as [(r & Hin & Hid)|Hno].
  - rewrite (download_cached s now tmp id url net r Hc Hin Hid). simpl.
    now apply consistent_touch.
  - pose proof (get_cached_miss s id Hno) as Hget.
    destruct net as [written e|content].
    + rewrite download_breaks by now rewrite Hget.
      rewrite Hget. cbn [fst snd]. cbv zeta.
      pose proof Hc as (_ & _ & _ & Htmp). rewrite (with_files_same s Htmp).
      exact Hc.
    + rewrite download_completes by now rewrite Hget.
      rewrite Hget. cbn [fst snd]. cbv zeta.
      destruct (passes_verification content); cbn [fst snd].
      * unfold _update_firmware_local_path.
        apply (consistent_recorded s now tmp id url content); assumption.
      * now rewrite rejected_state_same.
Qed.

Lemma evict_one_spec s c :
  consistent s -> In c (rows s) ->
  consistent (evict_one s c) /\
  _get_cache_size (evict_one s c) = _get_cache_size s - get (file_size c) 0 /\
  ~ has_entry (evict_one s c) (firmware_id c) /\
  (forall r, In r (rows (evict_one s c)) <->
             In r (rows s) /\ firmware_id r <> firmware_id c) /\
  stats (evict_one s c) = stats s /\ catalog (evict_one s c) = catalog s.
Proof.
  intros Hc Hin. pose proof Hc as (Hnd & Hok & Horph & Htmp).
  destruct (Hok _ Hin) as (Hp & Hv & content & Hf & Hs).
  unfold evict_one. rewrite (row_ok_exists _ _ (Hok _ Hin)). rewrite Hp.
  assert (Hrows : forall r, In r (rows (_remove_from_cache_db
             (with_files s (remove (files s) (CacheFile (firmware_id c +:+ ".bin"))))
             (firmware_id c))) <-> In r (rows s) /\ firmware_id r <> firmware_id c).
  { intros r. unfold _remove_from_cache_db. cbn [rows with_rows with_files].
    rewrite filter_In. rewrite negb_true_iff.
    split; intros [H1 H2]; split; auto.
    - intros Heq. apply String.eqb_neq in H2. contradiction.
    - now apply String.eqb_neq. }
  split; [|split; [|split; [|split; [|split]]]].
  - unfold consistent, _remove_from_cache_db. cbn [rows files with_rows with_files remove].
    split; [|split; [|split]].
    + now apply NoDup_map_filter.
    + intros r Hr. apply filter_In in Hr as [Hr Hne].
      apply negb_true_iff, String.eqb_neq in Hne.
      destruct (Hok _ Hr) as (Hp' & Hv' & c' & Hf' & Hs').
      split; [exact Hp'|]. split; [exact Hv'|]. exists c'. split; [|exact Hs'].
      cbn [cache_dir]. rewrite lookup_delete_ne; [exact Hf'|].
      intros Heq. apply append_bin_inj in Heq. congruence.
    + intros name c' Hf'. cbn [cache_dir] in Hf'.
      destruct (decide (firmware_id c +:+ ".bin" = name)) as [<-|Hne].
      * rewrite lookup_delete_eq in Hf'. discriminate.
      * rewrite lookup_delete_ne in Hf' by exact Hne.
        destruct (Horph _ _ Hf') as (r & Hr & Hname). exists r. split; [|exact Hname].
        apply filter_In. split; [exact Hr|]. apply negb_true_iff, String.eqb_neq.
        intros Heq. apply Hne. now rewrite Hname, Heq.
    + exact Htmp.
  - rewrite Hs. cbn [get].
    change (_get_cache_size (_remove_from_cache_db ?x ?i)) with (_get_cache_size x).
    now apply cache_size_remove.
  - intros (r & Hr & Hid). apply Hrows in Hr as [_ Hne]. contradiction.
  - exact Hrows.
  - reflexivity.
  - reflexivity.
Qed.


Lemma insert_row_perm r l : Permutation (insert_row r l) (r :: l).
Proof.
  induction l as [|x l IH]; simpl; [reflexivity|].
  destruct (row_le x r); [|reflexivity].
  rewrite IH. apply perm_swap.
Qed.

Lemma order_rows_perm l : Permutation (order_rows l) l.
Proof.
  unfold order_rows.
  assert (H : forall acc, Permutation (fold_left (fun acc r => insert_row r acc) l acc) (acc ++ l)).
  { induction l as [|x l IH]; intros acc; simpl.
    - now rewrite app_nil_r.
    - rewrite IH, insert_row_perm. apply Permutation_middle. }
  apply (H []).
Qed.

Lemma candidates_in s cutoff c :
  In c (candidates s cutoff) <-> In c (rows s) /\ eligible cutoff c = true.
Proof.
  unfold candidates. rewrite <- filter_In.
  split; apply Permutation_in; [|symmetry]; apply order_rows_perm.
Qed.

Lemma candidates_nodup s cutoff :
  List.NoDup (map firmware_id (rows s)) ->
  List.NoDup (map firmware_id (candidates s cutoff)).
Proof.
  intros H. unfold candidates.
  eapply Permutation_NoDup.
  - apply Permutation_map. symmetry. apply order_rows_perm.
  - now apply NoDup_map_filter.
Qed.

(** The eviction loop keeps the cache consistent, accounts for the bytes it
    frees, and stops below the low-water mark or with no candidate left. *)
Lemma evict_spec cands :
  forall s cur rem cnt,
    consistent s ->
    (forall c, In c cands -> In c (rows s)) ->
    List.NoDup (map firmware_id cands) ->
    _get_cache_size s = cur - rem ->
    exists s' rem' cnt',
      evict cands s cur rem cnt = (s', rem', cnt') /\
      consistent s' /\
      (forall r, In r (rows s') -> In r (rows s)) /\
      stats s' = stats s /\ catalog s' = catalog s /\
      (below_low_water (_get_cache_size s') = true \/
       forall c, In c cands -> ~ has_entry s' (firmware_id c)).
Proof.
  induction cands as [|c rest IH]; intros s cur rem cnt Hc Hin Hnd Hsize.
  - exists s, rem, cnt. simpl.
    split; [reflexivity|]. split; [exact Hc|]. split; [auto|].
    split; [reflexivity|]. split; [reflexivity|]. right. intros c [].
  - simpl. destruct (below_low_water (cur - rem)) eqn:Hlow.
    + exists s, rem, cnt.
      split; [reflexivity|]. split; [exact Hc|]. split; [auto|].
      split; [reflexivity|]. split; [reflexivity|]. left. now rewrite Hsize.
    + assert (Hcin : In c (rows s)) by (apply Hin; now left).
      destruct (evict_one_spec s c Hc Hcin) as (Hc1 & Hsz1 & Hgone & Hrows & Hst & Hcat).
      simpl in Hnd. apply NoDup_cons_iff in Hnd as [Hnotin Hnd].
      destruct (IH (evict_one s c) cur (rem + get (file_size c) 0) (cnt + 1) Hc1)
        as (s' & rem' & cnt' & Hev & Hc' & Hsub & Hst' & Hcat' & Hend).
      * intros c' Hc'. apply Hrows. split; [apply Hin; now right|].
        intros Heq. apply Hnotin. rewrite <- Heq. now apply in_map.
      * exact Hnd.
      * rewrite Hsz1, Hsize. lia.
      * exists s', rem', cnt'. rewrite Hev.
        split; [reflexivity|]. split; [exact Hc'|].
        split; [intros r Hr; now apply Hrows, Hsub|].
        split; [congruence|]. split; [congruence|].
        destruct Hend as [Hlow'|Hall]; [now left|right].
        intros c' [<-|Hc'r]; [|now apply Hall].
        intros (r & Hr & Hid). apply Hgone. exists r. split; [now apply Hsub|exact Hid].
Qed.

Lemma cleanup_spec s now force :
  consistent s ->
  consistent (cleanup_cache s now force) /\
  (forall r, In r (rows (cleanup_cache s now force)) -> In r (rows s)) /\
  catalog (cleanup_cache s now force) = catalog s /\
  (force = true ->
   below_low_water (_get_cache_size (cleanup_cache s now force)) = true \/
   forall r, In r (rows s) -> eligible (cutoff_at now) r = true ->
             ~ has_entry (cleanup_cache s now force) (firmware_id r)).
Proof.
  intros Hc. unfold cleanup_cache.
  destruct (negb force && below_high_water (_get_cache_size s)) eqn:Hskip.
  - split; [exact Hc|]. split; [auto|]. split; [reflexivity|].
    intros ->. discriminate.
  - pose proof Hc as (Hnd & _).
    destruct (evict_spec (candidates s (cutoff_at now)) s (_get_cache_size s) 0 0 Hc)
      as (s' & rem' & cnt' & Hev & Hc' & Hsub & Hst & Hcat & Hend).
    + intros c Hin. now apply candidates_in in Hin.
    + now apply candidates_nodup.
    + lia.
    + fold (cutoff_at now). rewrite Hev.
      split; [|split; [|split]].
      * exact Hc'.
      * exact Hsub.
      * exact Hcat.
      * intros _. destruct Hend as [Hlow|Hall]; [left; exact Hlow|right].
        intros r Hr Hel. apply Hall. now apply candidates_in.
Qed.

Lemma consistent_init c : consistent (init c).
Proof.
  unfold consistent, init. simpl. split; [constructor|].
  split; [intros r []|]. split; [|reflexivity].
  intros name content H. rewrite lookup_empty in H. discriminate.
Qed.

Lemma consistent_run s o : consistent s -> consistent (run s o).
Proof.
  intros Hc. destruct o as [now tmp id url net|id|now force]; simpl.
  - now apply consistent_download.
  - now rewrite get_cached_consistent.
  - now apply cleanup_spec.
Qed.

Lemma consistent_run_all ops : forall s, consistent s -> consistent (run_all s ops).
Proof.
  induction ops as [|o ops IH]; intros s Hc; simpl; [exact Hc|].
  apply IH. now apply consistent_run.
Qed.

Lemma consistent_entry_iff_file s : consistent s -> entry_iff_file s.
Proof.
  intros (Hnd & Hok & Horph & _). split; [|split].
  - intros r Hin. now apply row_ok_exists, Hok.
  - intros name Hex. unfold exists_ in Hex. simpl in Hex.
    destruct (cache_dir (files s) !! name) as [content|] eqn:E; [|discriminate].
    destruct (Horph _ _ E) as (r & Hin & ->). exists r. split; [exact Hin|].
    now destruct (Hok _ Hin) as (Hp & _).
  - intros r1 r2 H1 H2 Hid. eapply NoDup_map_inj_on; eauto.
Qed.


(** C1: after any sequence of cache operations (download, lookup, cleanup)
    started on an empty cache, an entry is in the index if and only if the
    file at its [local_path] is on disk, and a firmware has at most one
    entry; the sequence is arbitrary, so this holds at every point between
    two operations.  From such a state, a download that returns a path
    leaves exactly one entry of the firmware, and its file exists; a
    download whose verification fails leaves neither an entry nor a file;
    and a cleanup keeps or removes an entry together with its file. *)
Theorem cache_entries_match_files (c : Catalog.db) (ops : list op) :
  let s := run_all (init c) ops in
  entry_iff_file s /\
  (forall now tmp id url net p,
      (download_and_cache_firmware s now tmp id url net).1.2 = Some p ->
      let s' := (download_and_cache_firmware s now tmp id url net).1.1 in
      exists r, In r (rows s') /\ firmware_id r = id /\ local_path r = p /\
                exists_ (files s') p = true /\
                forall r', In r' (rows s') -> firmware_id r' = id -> r' = r) /\
  (forall now tmp id url content,
      ~ has_entry s id -> passes_verification content = false ->
      let s' := (download_and_cache_firmware s now tmp id url (Downloaded content)).1.1 in
      ~ has_entry s' id /\
      exists_ (files s') (CacheFile (id +:+ ".bin")) = false /\
      exists_ (files s') (TempFile tmp) = false) /\
  (forall now force r,
      In r (rows s) ->
      let s' := cleanup_cache s now force in
      (In r (rows s') /\ exists_ (files s') (local_path r) = true) \/
      (~ has_entry s' (firmware_id r) /\ exists_ (files s') (local_path r) = false)).
Proof.
  intros s. assert (Hc : consistent s) by apply consistent_run_all, consistent_init.
  split; [now apply consistent_entry_iff_file|]. split; [|split].
  - intros now tmp id url net p Hres s'.
    assert (Hc' : consistent s') by now apply consistent_download.
    assert (Hentry : has_entry s' id /\ p = CacheFile (id +:+ ".bin")).
    { subst s'. destruct (has_entry_dec s id) as [(r & Hin & Hid)|Hno].
      - rewrite (download_cached s now tmp id url net r Hc Hin Hid) in *.
        simpl in *. split; [|congruence].
        exists (touch now id r). split; [now apply in_map|]. now rewrite touch_id.
      - pose proof (get_cached_miss s id Hno) as Hget.
        destruct net as [written e|content].
        + rewrite download_breaks in Hres by now rewrite Hget. discriminate.
        + rewrite download_completes in * by now rewrite Hget.
          cbv zeta in *. destruct (passes_verification content); [|discriminate].
          simpl in *. split; [|congruence].
          eexists. split; [apply in_app_iff; right; left; reflexivity|reflexivity]. }
    destruct Hentry as ((r & Hin & Hid) & ->). exists r.
    pose proof Hc' as (Hnd & Hok & _). destruct (Hok _ Hin) as (Hp & _).
    split; [exact Hin|]. split; [exact Hid|]. split; [now rewrite Hp, Hid|].
    split.
    + rewrite <- Hid, <- Hp. now apply row_ok_exists, Hok.
    + intros r' Hin' Hid'. eapply NoDup_map_inj_on; eauto. congruence.
  - intros now tmp id url content Hno Hbad s'.
    assert (Hs' : s' = s).
    { subst s'. pose proof (get_cached_miss s id Hno) as Hget.
      rewrite download_completes by now rewrite Hget.
      cbv zeta. rewrite Hbad, Hget. cbn [fst snd]. now apply rejected_state_same. }
    rewrite Hs'. split; [exact Hno|]. unfold exists_. simpl.
    rewrite (no_entry_no_file s id Hc Hno).
    destruct Hc as (_ & _ & _ & ->). now rewrite lookup_empty.
  - intros now force r Hin s'.
    destruct (cleanup_spec s now force Hc) as (Hc' & Hsub & _). fold s' in Hc', Hsub.
    destruct (has_entry_dec s' (firmware_id r)) as [(r' & Hin' & Hid')|Hno].
    + left. assert (r' = r) as ->.
      { destruct Hc as (Hnd & _). eapply NoDup_map_inj_on; eauto. }
      split; [exact Hin'|]. destruct Hc' as (_ & Hok & _). now apply row_ok_exists, Hok.
    + right. split; [exact Hno|].
      destruct Hc as (_ & Hok & _). destruct (Hok _ Hin) as (Hp & _). rewrite Hp.
      unfold exists_. simpl. now rewrite (no_entry_no_file s' _ Hc' Hno).
Qed.

(** On a cache written by its own operations, [cleanup_cache] with
    [force = true] returns a state in which either the bytes of the cache
    directory are at most 70% of the 2 GiB ceiling or every entry that was
    eligible (last access before the 30-day cutoff, or no download counted)
    is gone with its file; from 1.9 GiB or more the result is at most
    1.4 GiB, or all eligible entries are removed. *)
Lemma forced_cleanup_reaches_low_water (s : state) (now : Z) :
  consistent s ->
  exists s', cleanup_cache s now true = s' /\
    (10 * _get_cache_size s' <= 7 * max_cache_size \/
     forall r, In r (rows s) -> eligible (cutoff_at now) r = true ->
               ~ has_entry s' (firmware_id r) /\
               exists_ (files s') (local_path r) = false) /\
    (19 * (1024 * 1024 * 1024) <= 10 * _get_cache_size s ->
     10 * _get_cache_size s' <= 14 * (1024 * 1024 * 1024) \/
     forall r, In r (rows s) -> eligible (cutoff_at now) r = true ->
               ~ has_entry s' (firmware_id r)).
Proof.
  intros Hc. exists (cleanup_cache s now true). split; [reflexivity|].
  destruct (cleanup_spec s now true Hc) as (Hc' & Hsub & _ & Hend).
  specialize (Hend eq_refl).
  assert (Hlow : forall n, below_low_water n = true -> 10 * n <= 7 * max_cache_size).
  { intros n H. unfold below_low_water in H. apply Z.ltb_lt in H. lia. }
  split.
  - destruct Hend as [H|Hall]; [left; now apply Hlow|right].
    intros r Hin Hel. split; [now apply Hall|].
    destruct Hc as (_ & Hok & _). destruct (Hok _ Hin) as (Hp & _). rewrite Hp.
    unfold exists_. simpl. rewrite (no_entry_no_file _ _ Hc'); [reflexivity|].
    now apply Hall.
  - intros _. destruct Hend as [H|Hall]; [left|right; exact Hall].
    apply Hlow in H. unfold max_cache_size in H. lia.
Qed.


(** After a lookup that misses, the index holds no verified entry of the
    firmware and no row that was not there before. *)
Lemma lookup_miss_state s id :
  (get_cached_firmware_path s id).2 = None ->
  select_verified (get_cached_firmware_path s id).1 id = None /\
  (forall r, In r (rows (get_cached_firmware_path s id).1) -> In r (rows s)) /\
  files (get_cached_firmware_path s id).1 = files s.
Proof.
  unfold get_cached_firmware_path.
  destruct (select_verified s id) as [r|] eqn:Hsel.
  - destruct (exists_ (files s) (local_path r)); simpl; [discriminate|].
    intros _. split; [|split; [|reflexivity]].
    + unfold select_verified, _remove_from_cache_db. simpl.
      apply find_all_false. intros x Hx. apply filter_In in Hx as [_ Hx].
      apply negb_true_iff in Hx. now rewrite Hx.
    + intros x Hx. unfold _remove_from_cache_db in Hx. simpl in Hx.
      now apply filter_In in Hx.
  - simpl. auto.
Qed.

(** C3, amended: a download that completes is moved into the cache
    directory first and verified there (at least 100000 bytes, and the
    ESP32 signature E9 00 00 00 or a first byte E9); only when verification
    succeeds is an entry recorded and the path returned; when it fails the
    moved file is removed from the cache directory and nothing is
    recorded. *)
Theorem download_moves_then_verifies (s : state) (now : Z) (tmp id url : string)
    (content : Py.bytes) :
  (get_cached_firmware_path s id).2 = None ->
  let out := download_and_cache_firmware s now tmp id url (Downloaded content) in
  let temp_path := TempFile tmp in
  let cache_path := CacheFile (id +:+ ".bin") in
  let ok := passes_verification content in
  out.2 = [TempCreated temp_path; Fetched url temp_path; Moved temp_path cache_path;
           Verified cache_path ok;
           if ok then EntryRecorded id else Removed cache_path] /\
  (ok = true ->
   out.1.2 = Some cache_path /\
   read (files out.1.1) cache_path = Some content /\
   exists r, In r (rows out.1.1) /\ firmware_id r = id /\ verified r = true /\
             local_path r = cache_path /\ file_size r = Some (Py.len content)) /\
  (ok = false ->
   out.1.2 = None /\
   exists_ (files out.1.1) cache_path = false /\
   (forall r, In r (rows out.1.1) -> In r (rows s)) /\
   select_verified out.1.1 id = None).
Proof.
  intros Hmiss out temp_path cache_path ok. subst out.
  rewrite download_completes by exact Hmiss. cbv zeta. fold ok.
  destruct (lookup_miss_state s id Hmiss) as (Hnone & Hsub & Hfiles).
  destruct ok eqn:Hok; cbn [fst snd].
  - split; [reflexivity|]. split; [|discriminate]. intros _.
    split; [reflexivity|]. split.
    + unfold _update_firmware_local_path, _add_to_cache_db, after_move.
      cbn [files with_rows with_files read cache_dir cache_path]. apply lookup_insert_eq.
    + eexists. split.
      * unfold _update_firmware_local_path, _add_to_cache_db. cbn [rows with_rows].
        apply in_app_iff. right. left. reflexivity.
      * cbn. auto.
  - split; [reflexivity|]. split; [discriminate|]. intros _.
    split; [reflexivity|]. split; [|split].
    + unfold exists_. cbn [files with_files read cache_dir cache_path].
      now rewrite lookup_delete_eq.
    + exact Hsub.
    + exact Hnone.
Qed.

Lemma download_moves_then_verifies_witness :
  (get_cached_firmware_path (init Catalog.empty_db) "fw").2 = None /\
  (download_and_cache_firmware (init Catalog.empty_db) 0 "/tmp/tmp1.bin" "fw"
     "http://host/fw.bin" (Downloaded [xe9; x00])).2 =
  [TempCreated (TempFile "/tmp/tmp1.bin");
   Fetched "http://host/fw.bin" (TempFile "/tmp/tmp1.bin");
   Moved (TempFile "/tmp/tmp1.bin") (CacheFile "fw.bin");
   Verified (CacheFile "fw.bin") false;
   Removed (CacheFile "fw.bin")].
Proof.
  split; [reflexivity|].
  apply (download_moves_then_verifies (init Catalog.empty_db) 0 "/tmp/tmp1.bin" "fw"
           "http://host/fw.bin" [xe9; x00]).
  reflexivity.
Defined.

(** C3 as stated fails: a two-byte download is moved into the cache
    directory although its verification fails, and the move comes before
    the verification. *)
Lemma move_precedes_verification :
  let out := download_and_cache_firmware (init Catalog.empty_db) 0 "/tmp/tmp1.bin"
               "fw" "http://host/fw.bin" (Downloaded [x00; x01]) in
  out.2 = [TempCreated (TempFile "/tmp/tmp1.bin");
           Fetched "http://host/fw.bin" (TempFile "/tmp/tmp1.bin");
           Moved (TempFile "/tmp/tmp1.bin") (CacheFile "fw.bin");
           Verified (CacheFile "fw.bin") false;
           Removed (CacheFile "fw.bin")] /\
  out.1.2 = None /\
  verified_before_move false out.2 = false.
Proof. vm_compute. auto. Qed.

(** C4: a downloaded file of at least 100000 bytes whose header carries
    neither signature is refused: the call returns no path, the temporary
    file and the file in the cache directory are both gone, no row is added
    to the index and none of the firmware is verified; on a cache written by
    its own operations the state is exactly what it was. *)
Theorem wrong_header_leaves_nothing (s : state) (now : Z) (tmp id url : string)
    (content : Py.bytes) :
  (get_cached_firmware_path s id).2 = None ->
  100000 <= Py.len content ->
  esp32_magic content = false ->
  esp8266_magic content = false ->
  let out := download_and_cache_firmware s now tmp id url (Downloaded content) in
  out.1.2 = None /\
  exists_ (files out.1.1) (TempFile tmp) = false /\
  exists_ (files out.1.1) (CacheFile (id +:+ ".bin")) = false /\
  (forall r, In r (rows out.1.1) -> In r (rows s)) /\
  select_verified out.1.1 id = None /\
  (consistent s -> out.1.1 = s).
Proof.
  intros Hmiss Hlen H32 H8266 out. subst out.
  assert (Hbad : passes_verification content = false).
  { unfold passes_verification. rewrite H32, H8266. apply andb_false_r. }
  rewrite download_completes by exact Hmiss. cbv zeta. rewrite Hbad. cbn [fst snd].
  destruct (lookup_miss_state s id Hmiss) as (Hnone & Hsub & Hfiles).
  split; [reflexivity|]. split; [|split; [|split; [|split]]].
  - unfold exists_. cbn [files with_files read temp_dir]. now rewrite lookup_delete_eq.
  - unfold exists_. cbn [files with_files read cache_dir]. now rewrite lookup_delete_eq.
  - exact Hsub.
  - exact Hnone.
  - intros Hc. assert (Hno : ~ has_entry s id).
    { intros (r & Hin & Hid). rewrite (get_cached_hit s id r Hc Hin Hid) in Hmiss.
      discriminate. }
    rewrite (get_cached_miss s id Hno). cbn [fst]. now apply rejected_state_same.
Qed.

Lemma wrong_header_leaves_nothing_witness :
  (get_cached_firmware_path (init Catalog.empty_db) "fw").2 = None /\
  100000 <= Py.len zeros_100k /\
  esp32_magic zeros_100k = false /\
  esp8266_magic zeros_100k = false /\
  (download_and_cache_firmware (init Catalog.empty_db) 0 "/tmp/tmp1.bin" "fw"
     "http://host/fw.bin" (Downloaded zeros_100k)).1.2 = None /\
  exists_ (files (download_and_cache_firmware (init Catalog.empty_db) 0
                    "/tmp/tmp1.bin" "fw" "http://host/fw.bin"
                    (Downloaded zeros_100k)).1.1)
          (TempFile "/tmp/tmp1.bin") = false /\
  exists_ (files (download_and_cache_firmware (init Catalog.empty_db) 0
                    "/tmp/tmp1.bin" "fw" "http://host/fw.bin"
                    (Downloaded zeros_100k)).1.1)
          (CacheFile "fw.bin") = false.
Proof.
  assert (Hlen : 100000 <= Py.len zeros_100k) by (vm_compute; discriminate).
  split; [reflexivity|]. split; [exact Hlen|].
  split; [reflexivity|]. split; [reflexivity|].
  destruct (wrong_header_leaves_nothing (init Catalog.empty_db) 0 "/tmp/tmp1.bin" "fw"
              "http://host/fw.bin" zeros_100k eq_refl Hlen eq_refl eq_refl)
    as (H1 & H2 & H3 & _).
  auto.
Defined.

(** The sample cache holds its one file of 100000 bytes, and a forced
    cleanup of so small a cache stops at once and keeps it. *)
Example one_entry_cache_runs :
  map firmware_id (rows one_entry_cache) = ["fw1"] /\
  map file_size (rows one_entry_cache) = [Some 100000] /\
  _get_cache_size one_entry_cache = 100000 /\
  map firmware_id (rows (cleanup_cache one_entry_cache 7 true)) = ["fw1"].
Proof. vm_compute. auto. Qed.

(** *** A cache that lost a file *)

Lemma len_image n :
  0 <= n -> Py.len (xe9 :: repeat x00 (Z.to_nat n)) = 1 + n.
Proof.
  intros Hn. unfold Py.len. cbn [length]. rewrite repeat_length.
  rewrite Nat2Z.inj_succ, Z2Nat.id by exact Hn. lia.
Qed.

Lemma image_passes n :
  99999 <= n -> passes_verification (xe9 :: repeat x00 (Z.to_nat n)) = true.
Proof.
  intros Hn. unfold passes_verification. rewrite len_image by lia.
  replace (100000 <=? 1 + n) with true by (symmetry; apply Z.leb_le; lia).
  cbn [esp8266_magic andb]. apply orb_true_r.
Qed.

Lemma two_downloads_state first second :
  passes_verification first = true -> passes_verification second = true ->
  rows (two_downloads first second) =
    [recorded_row 10 "old" "http://host/old.bin" first;
     recorded_row 20 "new" "http://host/new.bin" second] /\
  cache_dir (files (two_downloads first second)) =
    <["new.bin" := second]> (<["old.bin" := first]> ∅).
Proof.
  intros H1 H2. unfold two_downloads, run_all. cbn [fold_left run].
  rewrite (download_completes (init Catalog.empty_db)) by reflexivity.
  cbv zeta. rewrite H1. cbn [fst snd].
  set (s1 := _update_firmware_local_path _ _ _).
  assert (Hmiss : (get_cached_firmware_path s1 "new").2 = None) by reflexivity.
  rewrite (download_completes s1) by exact Hmiss.
  cbv zeta. rewrite H2. cbn [fst snd].
  split; reflexivity.
Qed.

Section TwoDownloads.
Variables first second : Py.bytes.
Hypothesis first_passes : passes_verification first = true.
Hypothesis second_passes : passes_verification second = true.
Hypothesis first_len : Py.len first = 500000000.
Hypothesis second_len : Py.len second = 1600000000.

Lemma two_downloads_size :
  _get_cache_size (two_downloads first second) = 2100000000.
Proof.
  destruct (two_downloads_state first second first_passes second_passes) as [_ Hdir].
  unfold _get_cache_size. rewrite Hdir.
  rewrite map_fold_insert_L; [| intros; lia | reflexivity].
  rewrite map_fold_insert_L; [| intros; lia | reflexivity].
  rewrite map_fold_empty. lia.
Qed.

Lemma lose_file_dir :
  cache_dir (files (lose_file (two_downloads first second) "old.bin")) =
  <["new.bin" := second]> ∅.
Proof.
  destruct (two_downloads_state first second first_passes second_passes) as [_ Hdir].
  unfold lose_file. cbn [files with_files remove cache_dir]. rewrite Hdir.
  rewrite delete_insert_ne by discriminate.
  now rewrite delete_insert_eq, delete_empty.
Qed.

Lemma candidates_both (s : state) :
  rows s = [recorded_row 10 "old" "http://host/old.bin" first;
            recorded_row 20 "new" "http://host/new.bin" second] ->
  candidates s (30 - cache_retention_days * microseconds_per_day) =
  [recorded_row 10 "old" "http://host/old.bin" first;
   recorded_row 20 "new" "http://host/new.bin" second].
Proof. intros H. unfold candidates. rewrite H. reflexivity. Qed.

(** The forced cleanup of the cache that lost a file: the stale entry is
    dropped and its recorded size counted as freed, the loop stops, and the
    entry that has its file stays. *)
Lemma stale_cleanup_state :
  let s := lose_file (two_downloads first second) "old.bin" in
  let s' := cleanup_cache s 30 true in
  _get_cache_size s = 1600000000 /\
  rows s = [recorded_row 10 "old" "http://host/old.bin" first;
            recorded_row 20 "new" "http://host/new.bin" second] /\
  rows s' = [recorded_row 20 "new" "http://host/new.bin" second] /\
  cache_dir (files s') = <["new.bin" := second]> ∅.
Proof.
  destruct (two_downloads_state first second first_passes second_passes) as [Hrows _].
  pose proof lose_file_dir as Hdir.
  set (s := lose_file (two_downloads first second) "old.bin") in *.
  assert (Hrs : rows s = rows (two_downloads first second)) by reflexivity.
  rewrite Hrows in Hrs. clear Hrows.
  assert (Hsize : _get_cache_size s = 1600000000).
  { unfold _get_cache_size. rewrite Hdir.
    rewrite map_fold_insert_L; [| intros; lia | reflexivity].
    rewrite map_fold_empty. lia. }
  cbv zeta. split; [exact Hsize|]. split; [exact Hrs|].
  unfold cleanup_cache. rewrite Hsize. cbn [negb andb].
  rewrite (candidates_both s Hrs).
  cbn [evict]. change (below_low_water (1600000000 - 0)) with false. cbv iota.
  cbn [get file_size recorded_row]. rewrite first_len.
  change (below_low_water (1600000000 - (0 + 500000000))) with true. cbv iota.
  unfold evict_one. cbn [local_path firmware_id recorded_row].
  assert (Hgone : exists_ (files s) (CacheFile ("old" +:+ ".bin")) = false).
  { unfold exists_. cbn [read]. rewrite Hdir.
    now rewrite lookup_insert_ne by discriminate. }
  rewrite Hgone. unfold _remove_from_cache_db. rewrite Hrs.
  cbn [_record_cleanup_stats rows files with_rows]. rewrite Hdir.
  split; reflexivity.
Qed.

(** The forced cleanup of the cache with both files: both entries go, with
    their files. *)
Lemma full_cleanup_state :
  let s := two_downloads first second in
  let s' := cleanup_cache s 30 true in
  rows s' = [] /\ cache_dir (files s') = ∅.
Proof.
  destruct (two_downloads_state first second first_passes second_passes) as [Hrows Hdir].
  pose proof two_downloads_size as Hsize.
  set (s := two_downloads first second) in *.
  assert (Hone : evict_one s (recorded_row 10 "old" "http://host/old.bin" first) =
                 {| rows := [recorded_row 20 "new" "http://host/new.bin" second];
                    stats := stats s;
                    files := {| cache_dir := <["new.bin" := second]> ∅;
                                temp_dir := temp_dir (files s) |};
                    catalog := catalog s |}).
  { unfold evict_one. cbn [local_path firmware_id recorded_row].
    unfold exists_. cbn [read]. rewrite Hdir.
    rewrite lookup_insert_ne by discriminate. rewrite lookup_insert_eq.
    unfold _remove_from_cache_db, with_rows, with_files.
    cbn [rows stats files catalog remove cache_dir temp_dir]. rewrite Hrows, Hdir.
    rewrite delete_insert_ne by discriminate.
    rewrite delete_insert_eq, delete_empty. reflexivity. }
  set (s1 := {| rows := [recorded_row 20 "new" "http://host/new.bin" second];
                stats := stats s;
                files := {| cache_dir := <["new.bin" := second]> ∅;
                            temp_dir := temp_dir (files s) |};
                catalog := catalog s |}) in *.
  assert (Htwo : evict_one s1 (recorded_row 20 "new" "http://host/new.bin" second) =
                 {| rows := []; stats := stats s;
                    files := {| cache_dir := ∅; temp_dir := temp_dir (files s) |};
                    catalog := catalog s |}).
  { unfold evict_one. cbn [local_path firmware_id recorded_row].
    unfold exists_, s1. cbn [read files cache_dir]. rewrite lookup_insert_eq.
    unfold _remove_from_cache_db, with_rows, with_files.
    cbn [rows stats files catalog remove cache_dir temp_dir].
    rewrite delete_insert_eq, delete_empty. reflexivity. }
  cbv zeta. unfold cleanup_cache. rewrite Hsize. cbn [negb andb].
  rewrite (candidates_both s Hrows).
  cbn [evict]. change (below_low_water (2100000000 - 0)) with false. cbv iota.
  cbn [get file_size recorded_row]. rewrite first_len, second_len.
  change (below_low_water (2100000000 - (0 + 500000000))) with false. cbv iota.
  rewrite Hone, Htwo. split; reflexivity.
Qed.
Lemma full_cleanup_empties :
  let s := two_downloads first second in
  let s' := cleanup_cache s 30 true in
  consistent s /\
  19 * (1024 * 1024 * 1024) <= 10 * _get_cache_size s /\
  rows s' = [] /\ _get_cache_size s' = 0.
Proof.
  destruct full_cleanup_state as [Hrows Hdir]. cbv zeta.
  split; [apply consistent_run_all, consistent_init|].
  split; [rewrite two_downloads_size; lia|].
  split; [exact Hrows|].
  unfold _get_cache_size. rewrite Hdir. apply map_fold_empty.
Qed.

Lemma stale_cleanup_keeps_entry :
  let s := lose_file (two_downloads first second) "old.bin" in
  let s' := cleanup_cache s 30 true in
  map firmware_id (rows s) = ["old"; "new"] /\
  exists_ (files s) (CacheFile "old.bin") = false /\
  _get_cache_size s = 1600000000 /\
  _get_cache_size s' = 1600000000 /\
  7 * max_cache_size < 10 * _get_cache_size s' /\
  (exists r, In r (rows s) /\ eligible (cutoff_at 30) r = true /\
             has_entry s' (firmware_id r) /\
             exists_ (files s') (local_path r) = true) /\
  ~ (10 * _get_cache_size s' <= 7 * max_cache_size \/
     forall r, In r (rows s) -> eligible (cutoff_at 30) r = true ->
               ~ has_entry s' (firmware_id r) /\
               exists_ (files s') (local_path r) = false).
Proof.
  destruct stale_cleanup_state as (Hsize & Hrows & Hrows' & Hdir').
  pose proof lose_file_dir as Hdir.
  set (s := lose_file (two_downloads first second) "old.bin") in *.
  set (s' := cleanup_cache s 30 true) in *. cbv zeta.
  assert (Hsize' : _get_cache_size s' = 1600000000).
  { unfold _get_cache_size. rewrite Hdir'.
    rewrite map_fold_insert_L; [| intros; lia | reflexivity].
    rewrite map_fold_empty. lia. }
  assert (Hbig : 7 * max_cache_size < 10 * _get_cache_size s').
  { rewrite Hsize'. unfold max_cache_size. lia. }
  assert (Hkept : exists r, In r (rows s) /\ eligible (cutoff_at 30) r = true /\
             has_entry s' (firmware_id r) /\
             exists_ (files s') (local_path r) = true).
  { exists (recorded_row 20 "new" "http://host/new.bin" second).
    split; [rewrite Hrows; right; left; reflexivity|].
    split; [reflexivity|]. split.
    - eexists. split; [rewrite Hrows'; left; reflexivity|reflexivity].
    - unfold exists_. cbn [read local_path recorded_row]. rewrite Hdir'.
      now rewrite lookup_insert_eq. }
  split; [rewrite Hrows; reflexivity|].
  split; [unfold exists_; cbn [read]; rewrite Hdir;
          now rewrite lookup_insert_ne by discriminate|].
  split; [exact Hsize|]. split; [exact Hsize'|]. split; [exact Hbig|].
  split; [exact Hkept|].
  intros [Hlow|Hall]; [exact (Z.lt_irrefl _ (Z.lt_le_trans _ _ _ Hbig Hlow))|].
  destruct Hkept as (r & Hin & Hel & Hhas & _).
  now destruct (Hall r Hin Hel) as [Hno _].
Qed.
End TwoDownloads.

Lemma old_image_passes : passes_verification old_image = true.
Proof. apply image_passes. lia. Qed.

Lemma new_image_passes : passes_verification new_image = true.
Proof. apply image_passes. lia. Qed.

Lemma len_old_image : Py.len old_image = 500000000.
Proof. unfold old_image. rewrite len_image by lia. reflexivity. Qed.

Lemma len_new_image : Py.len new_image = 1600000000.
Proof. unfold new_image. rewrite len_image by lia. reflexivity. Qed.
(** C2, where the code departs from the claim.  On a cache that only its
    own operations have written the claim holds: the forced cleanup returns
    with at most 70% of the ceiling in the cache directory, or with every
    eligible entry and its file gone; the cache of two downloads, above
    1.9 GiB, is emptied.  On a cache that lost a file behind its back it
    does not: the loop adds the recorded size of the stale entry to
    [removed_size] although no file was removed, takes the cache to be
    below 70%, and stops with 1.6 GB on disk, above 70% of the ceiling,
    and an eligible entry and its file still there. *)
Theorem forced_cleanup_counts_lost_files :
  (forall s now,
      consistent s ->
      let s' := cleanup_cache s now true in
      10 * _get_cache_size s' <= 7 * max_cache_size \/
      forall r, In r (rows s) -> eligible (cutoff_at now) r = true ->
                ~ has_entry s' (firmware_id r) /\
                exists_ (files s') (local_path r) = false) /\
  (let s := full_cache in
   let s' := cleanup_cache s 30 true in
   consistent s /\
   19 * (1024 * 1024 * 1024) <= 10 * _get_cache_size s /\
   rows s' = [] /\ _get_cache_size s' = 0) /\
  (let s := stale_cache in
   let s' := cleanup_cache s 30 true in
   map firmware_id (rows s) = ["old"; "new"] /\
   exists_ (files s) (CacheFile "old.bin") = false /\
   _get_cache_size s = 1600000000 /\
   _get_cache_size s' = 1600000000 /\
   7 * max_cache_size < 10 * _get_cache_size s' /\
   (exists r, In r (rows s) /\ eligible (cutoff_at 30) r = true /\
              has_entry s' (firmware_id r) /\
              exists_ (files s') (local_path r) = true) /\
   ~ (10 * _get_cache_size s' <= 7 * max_cache_size \/
      forall r, In r (rows s) -> eligible (cutoff_at 30) r = true ->
                ~ has_entry s' (firmware_id r) /\
                exists_ (files s') (local_path r) = false)).
Proof.
  split; [|split].
  - intros s now Hc.
    destruct (forced_cleanup_reaches_low_water s now Hc) as (s' & <- & H & _).
    exact H.
  - exact (full_cleanup_empties old_image new_image old_image_passes
             new_image_passes len_old_image len_new_image).
  - exact (stale_cleanup_keeps_entry old_image new_image old_image_passes
             new_image_passes len_old_image len_new_image).
Qed.

End CacheFacts.

(** ** Community uploads *)

Module CommunityFacts.
Import Community ListFacts.

Section Uploads.
Variable secure_filename : string -> string.
Variable official : Catalog.db.

Lemma upload_of_invalid st now_iso file_data filename md author e :
  _validate_firmware_upload official st file_data filename md = Invalid e ->
  upload_firmware secure_filename official st now_iso file_data filename md author =
  (st, Rejected e).
Proof. intros H. unfold upload_firmware. now rewrite H. Qed.

Lemma existsb_absent st id :
  (forall r, In r (community_firmware st) -> cf_id r <> id) ->
  existsb (fun r => String.eqb (cf_id r) id) (community_firmware st) = false.
Proof.
  intros H. destruct (existsb _ _) eqn:E; [|reflexivity].
  apply existsb_exists in E as (r & Hin & Heq). apply String.eqb_eq in Heq.
  now apply H in Hin.
Qed.

(** The state and the answer of an upload that passes validation and whose
    identifier is free. *)
Lemma upload_of_valid st now_iso file_data filename md author chip :
  _validate_firmware_upload official st file_data filename md = Valid chip ->
  (forall r, In r (community_firmware st) ->
             cf_id r <> _generate_community_firmware_id filename md now_iso) ->
  upload_firmware secure_filename official st now_iso file_data filename md author =
  (let id := _generate_community_firmware_id filename md now_iso in
   let local_filename := id +:+ Py.lower (Py.splitext_ext (secure_filename filename)) in
   {| community_firmware := community_firmware st ++
        [upload_row id (secure_filename filename)
           (upload_dir_name +:+ "/" +:+ local_filename) chip file_data md author];
      upload_dir := <[local_filename := file_data]> (upload_dir st) |},
   Uploaded (_generate_community_firmware_id filename md now_iso)).
Proof.
  intros Hv Hfree. unfold upload_firmware. rewrite Hv. cbv zeta.
  unfold _save_community_firmware. cbn [community_firmware upload_dir cf_id upload_row].
  now rewrite (existsb_absent st _ Hfree).
Qed.

(** An answer [Uploaded] comes from a valid upload with a free identifier. *)
Lemma upload_inversion st now_iso file_data filename md author st' id :
  upload_firmware secure_filename official st now_iso file_data filename md author =
  (st', Uploaded id) ->
  exists chip,
    _validate_firmware_upload official st file_data filename md = Valid chip /\
    id = _generate_community_firmware_id filename md now_iso /\
    exists local_path,
      community_firmware st' = community_firmware st ++
        [upload_row id (secure_filename filename) local_path chip file_data md author].
Proof.
  unfold upload_firmware.
  destruct (_validate_firmware_upload official st file_data filename md) as [chip|e];
    [|discriminate].
  cbv zeta. unfold _save_community_firmware.
  cbn [community_firmware upload_dir cf_id upload_row].
  destruct (existsb _ _); [discriminate|].
  intros H. injection H as <- <-. exists chip. split; [reflexivity|].
  split; [reflexivity|]. eexists. reflexivity.
Qed.

Lemma valid_sizes st file_data filename md chip :
  _validate_firmware_upload official st file_data filename md = Valid chip ->
  100000 <= Py.len file_data <= max_file_size /\
  allowed_name filename = true /\
  _firmware_hash_exists official st (Hash.sha256_hexdigest file_data) = false /\
  _validate_firmware_binary file_data = Valid chip /\
  _scan_for_malware file_data = None.
Proof.
  unfold _validate_firmware_upload, allowed_name.
  destruct (max_file_size <? Py.len file_data) eqn:H1; [discriminate|].
  destruct (Py.len file_data <? 100000) eqn:H2; [discriminate|].
  destruct (existsb _ allowed_extensions) eqn:H3; simpl; [|discriminate].
  destruct (_firmware_hash_exists _ _ _) eqn:H4; [discriminate|].
  destruct (_validate_firmware_binary file_data) as [c|e] eqn:H5; [|discriminate].
  destruct (_scan_for_malware file_data) eqn:H6; [discriminate|].
  intros H. injection H as <-.
  apply Z.ltb_ge in H1, H2. repeat split; auto; lia.
Qed.

Lemma valid_of_checks st file_data filename md chip :
  100000 <= Py.len file_data <= max_file_size ->
  allowed_name filename = true ->
  _firmware_hash_exists official st (Hash.sha256_hexdigest file_data) = false ->
  _validate_firmware_binary file_data = Valid chip ->
  _scan_for_malware file_data = None ->
  _validate_firmware_upload official st file_data filename md = Valid chip.
Proof.
  intros [Hlo Hhi] Hext Hhash Hbin Hscan.
  unfold _validate_firmware_upload. unfold allowed_name in Hext.
  apply Z.ltb_ge in Hlo, Hhi. now rewrite Hhi, Hlo, Hext, Hhash, Hbin, Hscan.
Qed.

(** After an accepted upload the hash of its content is in the community
    table. *)
Lemma uploaded_hash_exists st now_iso file_data filename md author st' id :
  upload_firmware secure_filename official st now_iso file_data filename md author =
  (st', Uploaded id) ->
  _firmware_hash_exists official st' (Hash.sha256_hexdigest file_data) = true.
Proof.
  intros H. apply upload_inversion in H as (chip & _ & _ & lp & Hrows).
  unfold _firmware_hash_exists. destruct (existsb _ (Catalog.firmware official)); [reflexivity|].
  rewrite Hrows, existsb_app. apply orb_true_iff. right. simpl.
  now rewrite String.eqb_refl.
Qed.

(** A content whose hash is in a catalog is turned away by the validator,
    for the first reason that applies, and the store is left as it was. *)
Lemma upload_of_duplicate st now_iso file_data filename md author :
  _firmware_hash_exists official st (Hash.sha256_hexdigest file_data) = true ->
  upload_firmware secure_filename official st now_iso file_data filename md author =
  (st, Rejected (duplicate_reason file_data filename)).
Proof.
  intros Hdup.
  apply upload_of_invalid. unfold _validate_firmware_upload, duplicate_reason, allowed_name.
  destruct (max_file_size <? Py.len file_data); [reflexivity|].
  destruct (Py.len file_data <? 100000); [reflexivity|].
  destruct (existsb _ allowed_extensions); simpl; [|reflexivity].
  now rewrite Hdup.
Qed.

Lemma duplicate_reason_in_bounds file_data filename :
  100000 <= Py.len file_data <= max_file_size -> allowed_name filename = true ->
  duplicate_reason file_data filename = AlreadyUploaded.
Proof.
  intros [Hlo Hhi] Hext. unfold duplicate_reason.
  apply Z.ltb_ge in Hlo, Hhi. now rewrite Hhi, Hlo, Hext.
Qed.

(** C5, amended: a second upload of bytes whose SHA-256 hash is already in
    the official or the community catalog is always rejected, whatever its
    file name and metadata, and the rejection changes nothing: no file is
    written and no row is recorded.  The reason is the first check that
    fails: the size bounds, then the extension, then the duplicate check.
    So the upload is rejected as a duplicate whenever its size is within
    100000 bytes and 10 MiB and its name ends in .bin or .gz. *)
Theorem duplicate_upload_rejected st now_iso file_data filename md author :
  _firmware_hash_exists official st (Hash.sha256_hexdigest file_data) = true ->
  upload_firmware secure_filename official st now_iso file_data filename md author =
  (st, Rejected (duplicate_reason file_data filename)) /\
  (100000 <= Py.len file_data <= max_file_size -> allowed_name filename = true ->
   duplicate_reason file_data filename = AlreadyUploaded).
Proof.
  intros Hdup. split.
  - now apply upload_of_duplicate.
  - apply duplicate_reason_in_bounds.
Qed.

(** C6, amended: an upload that passes validation, and whose identifier is
    not taken, is written to the upload directory under its identifier and
    recorded with status pending.  The identifier is ["community_"] followed
    by the MD5 digest of file name, version and upload time: it is a
    function of those three and does not read the bytes. *)
Theorem upload_persists_pending st now_iso file_data filename md author chip :
  _validate_firmware_upload official st file_data filename md = Valid chip ->
  (forall r, In r (community_firmware st) ->
             cf_id r <> _generate_community_firmware_id filename md now_iso) ->
  exists st' row,
    upload_firmware secure_filename official st now_iso file_data filename md author =
    (st', Uploaded (_generate_community_firmware_id filename md now_iso)) /\
    upload_dir st' !! (_generate_community_firmware_id filename md now_iso +:+
                       Py.lower (Py.splitext_ext (secure_filename filename)))
      = Some file_data /\
    community_firmware st' = community_firmware st ++ [row] /\
    cf_id row = _generate_community_firmware_id filename md now_iso /\
    cf_status row = "pending" /\
    cf_sha256_hash row = Some (Hash.sha256_hexdigest file_data) /\
    _generate_community_firmware_id filename md now_iso =
      "community_" +:+
      Hash.md5_hexdigest
        (Py.encode (filename +:+ "_" +:+ get (m_version md) "custom" +:+ "_" +:+ now_iso)).
Proof.
  intros Hv Hfree. eexists. eexists.
  split; [apply (upload_of_valid st now_iso file_data filename md author chip Hv Hfree)|].
  cbv zeta. cbn [upload_dir community_firmware].
  split; [apply lookup_insert_eq|]. split; [reflexivity|]. repeat split.
Qed.

End Uploads.

(** *** Images that start with the ESP32 signature *)

Lemma len_esp_image m : Py.len (esp_image m) = 4 + Z.of_nat m.
Proof.
  unfold Py.len, esp_image. cbn [length]. rewrite repeat_length. lia.
Qed.

Lemma esp_image_bytes m b : In b (esp_image m) -> b = xe9 \/ b = x00.
Proof.
  unfold esp_image. intros [<-|[<-|[<-|[<-|H]]]]; auto.
  right. symmetry. now apply repeat_spec in H.
Qed.

Lemma esp_image_binary m : _validate_firmware_binary (esp_image m) = Valid "ESP32".
Proof.
  unfold _validate_firmware_binary. rewrite len_esp_image.
  replace (4 <=? 4 + Z.of_nat m) with true by (symmetry; apply Z.leb_le; lia).
  reflexivity.
Qed.

Lemma esp_image_clean m : _scan_for_malware (esp_image m) = None.
Proof.
  unfold _scan_for_malware. apply find_all_false. intros pattern Hin.
  unfold suspicious_patterns in Hin. cbn in Hin.
  repeat (destruct Hin as [<-|Hin];
          [apply bcontains_first_absent; intros b Hb;
           apply esp_image_bytes in Hb as [->| ->]; reflexivity|]).
  destruct Hin.
Qed.

Lemma esp_image_valid official m filename md :
  100000 <= 4 + Z.of_nat m <= max_file_size ->
  allowed_name filename = true ->
  _validate_firmware_upload official empty_store (esp_image m) filename md =
  Valid "ESP32" \/
  _validate_firmware_upload official empty_store (esp_image m) filename md =
  Invalid AlreadyUploaded.
Proof.
  intros Hlen Hext.
  destruct (_firmware_hash_exists official empty_store
              (Hash.sha256_hexdigest (esp_image m))) eqn:Hdup.
  - right. unfold _validate_firmware_upload. rewrite len_esp_image.
    unfold allowed_name in Hext. destruct Hlen as [Hlo Hhi].
    apply Z.ltb_ge in Hlo, Hhi. now rewrite Hhi, Hlo, Hext, Hdup.
  - left. apply valid_of_checks; auto.
    + now rewrite len_esp_image.
    + apply esp_image_binary.
    + apply esp_image_clean.
Qed.

Lemma esp_image_fresh m filename md :
  100000 <= 4 + Z.of_nat m <= max_file_size ->
  allowed_name filename = true ->
  _validate_firmware_upload Catalog.empty_db empty_store (esp_image m) filename md =
  Valid "ESP32".
Proof.
  intros Hlen Hext. apply valid_of_checks; auto.
  - now rewrite len_esp_image.
  - apply esp_image_binary.
  - apply esp_image_clean.
Qed.

Lemma esp_100k_image : Cache.esp_100k = esp_image 99996.
Proof. reflexivity. Qed.

Lemma first_id_computed :
  _generate_community_firmware_id "fw.bin" no_metadata "2024-05-01T10:00:00.000000" =
  first_id.
Proof. vm_compute. reflexivity. Qed.

Lemma esp_100k_valid :
  _validate_firmware_upload Catalog.empty_db empty_store Cache.esp_100k "fw.bin"
    no_metadata = Valid "ESP32".
Proof.
  rewrite esp_100k_image. apply esp_image_fresh; [|reflexivity].
  split; apply Z.leb_le; vm_compute; reflexivity.
Qed.

Lemma first_upload_accepted :
  upload_firmware keep_name Catalog.empty_db empty_store "2024-05-01T10:00:00.000000"
    Cache.esp_100k "fw.bin" no_metadata anonymous =
  (stored_once, Uploaded first_id).
Proof.
  rewrite (upload_of_valid keep_name Catalog.empty_db empty_store _ _ _ _ _ "ESP32"
             esp_100k_valid) by (intros r []).
  cbv zeta. rewrite first_id_computed. reflexivity.
Qed.

Lemma esp_100k_bounds : 100000 <= Py.len Cache.esp_100k <= max_file_size.
Proof. split; apply Z.leb_le; vm_compute; reflexivity. Qed.

Lemma first_upload_stored :
  _firmware_hash_exists Catalog.empty_db stored_once
    (Hash.sha256_hexdigest Cache.esp_100k) = true.
Proof.
  exact (uploaded_hash_exists keep_name Catalog.empty_db empty_store
           "2024-05-01T10:00:00.000000" Cache.esp_100k "fw.bin" no_metadata anonymous
           stored_once first_id first_upload_accepted).
Qed.

Lemma duplicate_upload_rejected_witness :
  _firmware_hash_exists Catalog.empty_db stored_once
    (Hash.sha256_hexdigest Cache.esp_100k) = true /\
  upload_firmware keep_name Catalog.empty_db stored_once
    "2024-05-02T08:30:00.000000" Cache.esp_100k "renamed.gz" no_metadata anonymous =
  (stored_once, Rejected AlreadyUploaded).
Proof.
  split; [exact first_upload_stored|].
  destruct (duplicate_upload_rejected keep_name Catalog.empty_db stored_once
              "2024-05-02T08:30:00.000000" Cache.esp_100k "renamed.gz" no_metadata
              anonymous first_upload_stored) as [Hup Hwhy].
  rewrite Hup, Hwhy; [reflexivity|exact esp_100k_bounds|reflexivity].
Defined.

(** C5 as stated fails: the bytes of an accepted upload, sent again under
    the name fw.txt, are rejected for the file type, not as a duplicate. *)
Lemma duplicate_with_other_extension :
  upload_firmware keep_name Catalog.empty_db empty_store "2024-05-01T10:00:00.000000"
    Cache.esp_100k "fw.bin" no_metadata anonymous =
  (stored_once, Uploaded first_id) /\
  upload_firmware keep_name Catalog.empty_db stored_once
    "2024-05-02T08:30:00.000000" Cache.esp_100k "fw.txt" no_metadata anonymous =
  (stored_once, Rejected InvalidFileType) /\
  InvalidFileType <> AlreadyUploaded.
Proof.
  split; [exact first_upload_accepted|]. split; [|discriminate].
  rewrite (upload_of_duplicate keep_name Catalog.empty_db _ _ _ _ _ _ first_upload_stored).
  apply (f_equal (pair _)). apply (f_equal Rejected). unfold duplicate_reason.
  destruct esp_100k_bounds as [Hlo Hhi]. apply Z.ltb_ge in Hlo, Hhi.
  now rewrite Hhi, Hlo.
Qed.

Lemma upload_persists_pending_witness :
  _validate_firmware_upload Catalog.empty_db empty_store Cache.esp_100k "fw.bin"
    no_metadata = Valid "ESP32" /\
  (forall r, In r (community_firmware empty_store) ->
     cf_id r <> _generate_community_firmware_id "fw.bin" no_metadata
                  "2024-05-01T10:00:00.000000") /\
  exists st' row,
    upload_firmware keep_name Catalog.empty_db empty_store "2024-05-01T10:00:00.000000"
      Cache.esp_100k "fw.bin" no_metadata anonymous =
    (st', Uploaded (_generate_community_firmware_id "fw.bin" no_metadata
                      "2024-05-01T10:00:00.000000")) /\
    community_firmware st' = [row] /\
    cf_status row = "pending".
Proof.
  assert (Hfree : forall r, In r (community_firmware empty_store) ->
     cf_id r <> _generate_community_firmware_id "fw.bin" no_metadata
                  "2024-05-01T10:00:00.000000") by (intros r []).
  split; [exact esp_100k_valid|]. split; [exact Hfree|].
  destruct (upload_persists_pending keep_name Catalog.empty_db empty_store
              "2024-05-01T10:00:00.000000" Cache.esp_100k "fw.bin" no_metadata
              anonymous "ESP32" esp_100k_valid Hfree)
    as (st' & row & Hup & _ & Hrows & _ & Hst & _).
  exists st', row. auto.
Defined.

Lemma second_id_computed :
  _generate_community_firmware_id "fw.bin" no_metadata "2024-05-01T10:00:01.000000" =
  "community_9999a1a9441995d1294b2721b6d3befd".
Proof. vm_compute. reflexivity. Qed.

Lemma esp_300k_valid :
  _validate_firmware_upload Catalog.empty_db empty_store esp_300k "fw.bin"
    no_metadata = Valid "ESP32".
Proof.
  unfold esp_300k. apply esp_image_fresh; [|reflexivity].
  split; apply Z.leb_le; vm_compute; reflexivity.
Qed.

Lemma upload_answer sf official st now_iso file_data filename md author chip :
  _validate_firmware_upload official st file_data filename md = Valid chip ->
  (forall r, In r (community_firmware st) ->
             cf_id r <> _generate_community_firmware_id filename md now_iso) ->
  (upload_firmware sf official st now_iso file_data filename md author).2 =
  Uploaded (_generate_community_firmware_id filename md now_iso).
Proof.
  intros Hv Hfree.
  now rewrite (upload_of_valid sf official st now_iso file_data filename md author chip Hv Hfree).
Qed.

Lemma empty_store_free id :
  forall r, In r (community_firmware empty_store) -> cf_id r <> id.
Proof. intros r []. Qed.

(** C6 as stated fails: the same bytes uploaded one second apart get two
    identifiers, and other bytes uploaded under the same name at the same
    time get the same identifier. *)
Lemma upload_id_ignores_content :
  (upload_firmware keep_name Catalog.empty_db empty_store "2024-05-01T10:00:00.000000"
     Cache.esp_100k "fw.bin" no_metadata anonymous).2 =
  Uploaded "community_08b707e2531fdf28800a45fe07dd00dd" /\
  (upload_firmware keep_name Catalog.empty_db empty_store "2024-05-01T10:00:01.000000"
     Cache.esp_100k "fw.bin" no_metadata anonymous).2 =
  Uploaded "community_9999a1a9441995d1294b2721b6d3befd" /\
  (upload_firmware keep_name Catalog.empty_db empty_store "2024-05-01T10:00:00.000000"
     esp_300k "fw.bin" no_metadata anonymous).2 =
  Uploaded "community_08b707e2531fdf28800a45fe07dd00dd" /\
  Cache.esp_100k <> esp_300k.
Proof.
  split; [|split; [|split]].
  - exact (eq_trans
             (upload_answer keep_name Catalog.empty_db empty_store
                "2024-05-01T10:00:00.000000" Cache.esp_100k "fw.bin" no_metadata
                anonymous "ESP32" esp_100k_valid (empty_store_free _))
             (f_equal Uploaded first_id_computed)).
  - exact (eq_trans
             (upload_answer keep_name Catalog.empty_db empty_store
                "2024-05-01T10:00:01.000000" Cache.esp_100k "fw.bin" no_metadata
                anonymous "ESP32" esp_100k_valid (empty_store_free _))
             (f_equal Uploaded second_id_computed)).
  - exact (eq_trans
             (upload_answer keep_name Catalog.empty_db empty_store
                "2024-05-01T10:00:00.000000" esp_300k "fw.bin" no_metadata
                anonymous "ESP32" esp_300k_valid (empty_store_free _))
             (f_equal Uploaded first_id_computed)).
  - intros H. apply (f_equal Py.len) in H. revert H. vm_compute. discriminate.
Qed.

End CommunityFacts.

(** ** Automated review *)

Module SchedulerFacts.
Import Community Scheduler CommunityFacts.

Lemma review_oversized st fw n :
  cf_file_size fw = Some n -> 8 * 1024 * 1024 < n ->
  _automated_firmware_review st fw = reject "Invalid file size".
Proof.
  intros Hsize Hbig. unfold _automated_firmware_review, review_body.
  rewrite Hsize. cbn [mbind result_bind].
  replace (8 * 1024 * 1024 <? n) with true by (symmetry; apply Z.ltb_lt; lia).
  now rewrite orb_true_r.
Qed.

Lemma len_nine_mib : Py.len nine_mib = 9 * 1024 * 1024.
Proof.
  unfold nine_mib. rewrite len_esp_image. rewrite Z2Nat.id by lia. lia.
Qed.

(** A file of nine mebibytes is accepted by the upload validator. *)
Lemma nine_mib_accepted :
  (upload_firmware keep_name Catalog.empty_db empty_store "2024-05-01T10:00:00.000000"
     nine_mib "fw.bin" no_metadata anonymous).2 = Uploaded first_id.
Proof.
  assert (Hv : _validate_firmware_upload Catalog.empty_db empty_store nine_mib "fw.bin"
                 no_metadata = Valid "ESP32").
  { unfold nine_mib. apply esp_image_fresh; [|reflexivity].
    rewrite Z2Nat.id by lia. unfold max_file_size. lia. }
  exact (eq_trans
           (upload_answer keep_name Catalog.empty_db empty_store
              "2024-05-01T10:00:00.000000" nine_mib "fw.bin" no_metadata
              anonymous "ESP32" Hv (empty_store_free _))
           (f_equal Uploaded first_id_computed)).
Qed.

(** A turn of the loop either leaves the entry alone or raises: no branch
    writes. *)
Lemma review_one_writes_nothing st firmware n :
  review_one st firmware n = Ok (st, n) \/ exists e, review_one st firmware n = Raise e.
Proof.
  unfold review_one.
  destruct (review_decision (_automated_firmware_review st firmware)) as [|reason|].
  - right. eexists. reflexivity.
  - right. eexists. reflexivity.
  - left. reflexivity.
Qed.

Lemma review_each_writes_nothing pending st n :
  review_each pending st n = (st, n).
Proof.
  induction pending as [|firmware rest IH]; [reflexivity|]. cbn [review_each].
  destruct (review_one_writes_nothing st firmware n) as [-> | [e ->]]; exact IH.
Qed.

Lemma review_job_writes_nothing st :
  _review_community_firmware st =
  (st, {| pending_count := Py.len (get_community_firmware_list st "pending" "" 50);
          reviewed_count := 0 |}).
Proof.
  unfold _review_community_firmware. now rewrite review_each_writes_nothing.
Qed.

(** The store after the upload of the file of nine mebibytes. *)
Lemma nine_mib_stored :
  (upload_firmware keep_name Catalog.empty_db empty_store "2024-05-01T10:00:00.000000"
     nine_mib "fw.bin" no_metadata anonymous).1 =
  {| community_firmware :=
       [upload_row
          (_generate_community_firmware_id "fw.bin" no_metadata "2024-05-01T10:00:00.000000")
          "fw.bin"
          (upload_dir_name +:+ "/" +:+
           (_generate_community_firmware_id "fw.bin" no_metadata
              "2024-05-01T10:00:00.000000" +:+ ".bin"))
          "ESP32" nine_mib no_metadata anonymous];
     upload_dir :=
       <[_generate_community_firmware_id "fw.bin" no_metadata
           "2024-05-01T10:00:00.000000" +:+ ".bin" := nine_mib]> ∅ |}.
Proof.
  assert (Hv : _validate_firmware_upload Catalog.empty_db empty_store nine_mib "fw.bin"
                 no_metadata = Valid "ESP32").
  { unfold nine_mib. apply esp_image_fresh; [|reflexivity].
    rewrite Z2Nat.id by lia. unfold max_file_size. lia. }
  exact (f_equal fst
           (upload_of_valid keep_name Catalog.empty_db empty_store
              "2024-05-01T10:00:00.000000" nine_mib "fw.bin" no_metadata
              anonymous "ESP32" Hv (empty_store_free _))).
Qed.

(** The pending entries of a table that holds one fresh upload. *)
Lemma fresh_upload_listed id name lp chip data md author dir :
  get_community_firmware_list
    {| community_firmware := [upload_row id name lp chip data md author];
       upload_dir := dir |} "pending" "" 50 =
  [upload_row id name lp chip data md author].
Proof. reflexivity. Qed.

(** C10, where the code departs from the claim.  The first half holds: the
    automated review answers every entry whose recorded size is above 8 MiB
    with auto_reject and the reason 'Invalid file size', while the upload
    validator accepts files of up to 10 MiB.  The second half does not:
    [_review_community_firmware] then calls [_reject_community_firmware],
    a method the class does not have; the exception is caught by the
    handler of the loop, nothing is written and nothing is counted as
    reviewed.  Evaluated on the file of nine mebibytes: the upload is
    accepted and stored as pending with its size, the review of the stored
    row is a rejection, and after the review job the row is still pending. *)
Theorem oversized_upload_stays_pending :
  (forall st fw n,
      cf_file_size fw = Some n -> 8 * 1024 * 1024 < n ->
      _automated_firmware_review st fw = reject "Invalid file size") /\
  (forall st,
      (_review_community_firmware st).1 = st /\
      reviewed_count (_review_community_firmware st).2 = 0) /\
  8 * 1024 * 1024 < Py.len nine_mib <= max_file_size /\
  (upload_firmware keep_name Catalog.empty_db empty_store "2024-05-01T10:00:00.000000"
     nine_mib "fw.bin" no_metadata anonymous).2 = Uploaded first_id /\
  (let st := (upload_firmware keep_name Catalog.empty_db empty_store
                "2024-05-01T10:00:00.000000" nine_mib "fw.bin" no_metadata
                anonymous).1 in
   map cf_id (community_firmware st) = [first_id] /\
   map cf_status (community_firmware st) = ["pending"] /\
   map cf_file_size (community_firmware st) = [Some (9 * 1024 * 1024)] /\
   (forall row, In row (community_firmware st) ->
      review_decision (_automated_firmware_review st row) =
      AutoReject (Some "Invalid file size")) /\
   _review_community_firmware st =
     (st, {| pending_count := 1; reviewed_count := 0 |}) /\
   map cf_status (community_firmware (_review_community_firmware st).1) =
     ["pending"]).
Proof.
  split; [exact review_oversized|].
  split; [intros st; now rewrite review_job_writes_nothing|].
  split; [rewrite len_nine_mib; unfold max_file_size; lia|].
  split; [exact nine_mib_accepted|].
  cbv zeta. rewrite review_job_writes_nothing, nine_mib_stored.
  rewrite fresh_upload_listed, first_id_computed.
  cbn [community_firmware map cf_id cf_status cf_file_size upload_row fst snd].
  rewrite len_nine_mib.
  split; [reflexivity|]. split; [reflexivity|]. split; [reflexivity|].
  split; [|split; reflexivity].
  intros row [<-|[]].
  erewrite review_oversized; [reflexivity|reflexivity|].
  rewrite len_nine_mib. lia.
Qed.

End SchedulerFacts.

(** ** The catalog *)

Module CatalogFacts.
Import Catalog ListFacts.

Lemma known_iff rows id :
  known rows id = true <-> exists r, In r rows /\ fw_id r = id.
Proof.
  unfold known. rewrite existsb_exists.
  split; intros (r & Hin & H); exists r; split; auto; now apply String.eqb_eq.
Qed.

Lemma known_insert rows row id :
  known (insert_or_replace row rows) id = true <->
  known rows id = true \/ fw_id row = id.
Proof.
  rewrite !known_iff. unfold insert_or_replace. split.
  - intros (r & Hin & Hid). apply in_app_iff in Hin as [Hin|[<-|[]]]; [left|now right].
    apply filter_In in Hin as [Hin _]. eauto.
  - intros [(r & Hin & Hid)|Hid].
    + destruct (String.eqb (fw_id r) (fw_id row)) eqn:E.
      * apply String.eqb_eq in E. exists row. split; [|congruence].
        apply in_app_iff. right. now left.
      * exists r. split; [|exact Hid]. apply in_app_iff. left.
        apply filter_In. split; [exact Hin|]. now rewrite E.
    + exists row. split; [|exact Hid]. apply in_app_iff. right. now left.
Qed.

Lemma known_save updates :
  forall rows n id,
    known (save_rows updates rows n).1 id = true <->
    known rows id = true \/ In id (map u_id updates).
Proof.
  induction updates as [|u updates IH]; intros rows n id; simpl.
  - tauto.
  - rewrite IH, known_insert. simpl. tauto.
Qed.

Lemma known_ids rows rows' id :
  map fw_id rows = map fw_id rows' -> known rows id = known rows' id.
Proof.
  intros H. unfold known.
  assert (E : forall l, existsb (fun r => String.eqb (fw_id r) id) l =
                        existsb (fun i => String.eqb i id) (map fw_id l)).
  { induction l as [|x l IHl]; simpl; [reflexivity | now rewrite IHl]. }
  now rewrite !E, H.
Qed.

Lemma parse_total filename : exists info, _parse_firmware_filename filename = Some info.
Proof.
  unfold _parse_firmware_filename.
  repeat match goal with
         | |- context [let '(_, _) := ?x in _] => destruct x
         end.
  eauto.
Qed.

(** *** A second look at a listing whose keys are all known *)

Lemma release_assets_known d config version published changelog assets :
  forall acc,
    (forall id, In id (asset_ids config version assets) -> _firmware_exists d id = true) ->
    release_assets d config version published changelog assets acc = Ok acc \/
    exists e, release_assets d config version published changelog assets acc = Raise e.
Proof.
  induction assets as [|a assets IH]; intros acc Hknown; simpl; [now left|].
  assert (Hrest : forall id, In id (asset_ids config version assets) ->
                             _firmware_exists d id = true).
  { intros id Hin. apply Hknown. unfold asset_ids. simpl. apply in_app_iff. now right. }
  destruct (a_name a) as [name|] eqn:Hname; cbn [item mbind result_bind]; [|right; eauto].
  destruct (Py.endswith ".bin" name) eqn:Hbin; [|now apply IH].
  destruct (parse_total name) as (info & ->).
  rewrite (Hknown (_generate_firmware_id name version (channel config))).
  - simpl. now apply IH.
  - unfold asset_ids. simpl. rewrite Hname, Hbin. now left.
Qed.

Lemma process_releases_known d config releases :
  forall acc,
    (forall id, In id (release_ids config releases) -> _firmware_exists d id = true) ->
    process_releases d config releases acc = Ok acc \/
    exists e, process_releases d config releases acc = Raise e.
Proof.
  induction releases as [|r releases IH]; intros acc Hknown; simpl; [now left|].
  assert (Hrest : forall id, In id (release_ids config releases) ->
                             _firmware_exists d id = true).
  { intros id Hin. apply Hknown. unfold release_ids. simpl. apply in_app_iff. now right. }
  destruct (r_draft r || r_prerelease r) eqn:Hskip; [now apply IH|].
  destruct (r_tag_name r) as [version|] eqn:Htag; cbn [item mbind result_bind]; [|right; eauto].
  destruct (r_published_at r) as [published|]; cbn [item mbind result_bind]; [|right; eauto].
  destruct (release_assets_known d config version published (get (r_body r) "")
              (get (r_assets r) []) acc) as [->|(e & ->)].
  - intros id Hin. apply Hknown. unfold release_ids. simpl.
    rewrite Hskip, Htag. apply in_app_iff. now left.
  - cbn [mbind result_bind]. now apply IH.
  - right. eauto.
Qed.

Lemma ota_files_known d name config now_iso chip files :
  chip_type config = Some chip ->
  forall acc,
    (forall id, In id (ota_ids config chip files) -> _firmware_exists d id = true) ->
    ota_files d name config now_iso files acc = Ok acc.
Proof.
  intros Hchip. induction files as [|f files IH]; intros acc Hknown; simpl; [reflexivity|].
  assert (Hrest : forall id, In id (ota_ids config chip files) ->
                             _firmware_exists d id = true).
  { intros id Hin. apply Hknown. unfold ota_ids. simpl. apply in_app_iff. now right. }
  destruct (_parse_firmware_filename (of_name f)) as [info|] eqn:Hparse; [|now apply IH].
  rewrite Hchip. cbn [item mbind result_bind].
  destruct (String.eqb (fi_chip_type info) chip) eqn:Hmatch; [|now apply IH].
  rewrite (Hknown (_generate_firmware_id (of_name f) "latest" (channel config))).
  - simpl. now apply IH.
  - unfold ota_ids. simpl. rewrite Hparse, Hmatch. now left.
Qed.


Lemma ota_files_no_chip d name config now_iso files :
  chip_type config = None ->
  forall acc,
    ota_files d name config now_iso files acc = Ok acc \/
    exists e, ota_files d name config now_iso files acc = Raise e.
Proof.
  intros Hchip. induction files as [|f files IH]; intros acc; simpl; [now left|].
  destruct (parse_total (of_name f)) as (info & ->).
  rewrite Hchip. cbn [item mbind result_bind]. right. eauto.
Qed.

(** *** A first look at a well-formed listing *)

Lemma release_assets_first d config version published changelog assets :
  Forall wf_asset assets ->
  forall acc, exists news,
    release_assets d config version published changelog assets acc = Ok (acc ++ news) /\
    forall id, In id (asset_ids config version assets) ->
               _firmware_exists d id = true \/ In id (map u_id news).
Proof.
  induction 1 as [|a assets (Hn & Hu & Hs) _ IH]; intros acc; simpl.
  - exists []. rewrite app_nil_r. split; [reflexivity|]. intros id [].
  - destruct (a_name a) as [name|] eqn:Hname; [|contradiction].
    destruct (a_browser_download_url a) as [address|]; [|contradiction].
    destruct (a_size a) as [size|]; [|contradiction].
    cbn [item mbind result_bind]. unfold asset_ids. simpl. try rewrite Hname.
    destruct (Py.endswith ".bin" name) eqn:Hbin.
    + destruct (parse_total name) as (info & ->).
      destruct (_firmware_exists d (_generate_firmware_id name version (channel config)))
        eqn:Hknown; cbn [negb item mbind result_bind].
      * destruct (IH acc) as (news & -> & Hids). exists news. split; [reflexivity|].
        intros id [<-|Hin]; [now left|]. now apply Hids.
      * match goal with
        | |- context [release_assets _ _ _ _ _ _ (acc ++ [?u])] =>
            destruct (IH (acc ++ [u])) as (news & -> & Hids); exists (u :: news)
        end.
        split; [now rewrite <- app_assoc|].
        intros id [<-|Hin]; [right; now left|].
        destruct (Hids id Hin); [now left|right; now right].
    + destruct (IH acc) as (news & -> & Hids). exists news. split; [reflexivity|].
      simpl. exact Hids.
Qed.

Lemma process_releases_first d config releases :
  Forall wf_release releases ->
  forall acc, exists news,
    process_releases d config releases acc = Ok (acc ++ news) /\
    forall id, In id (release_ids config releases) ->
               _firmware_exists d id = true \/ In id (map u_id news).
Proof.
  induction 1 as [|r releases Hwf _ IH]; intros acc; simpl.
  - exists []. rewrite app_nil_r. split; [reflexivity|]. intros id [].
  - unfold release_ids. simpl. fold (release_ids config releases).
    destruct (r_draft r || r_prerelease r) eqn:Hskip.
    + destruct (IH acc) as (news & -> & Hids). exists news. split; [reflexivity|].
      simpl. exact Hids.
    + destruct Hwf as [Hwf|(Ht & Hp & Ha)]; [congruence|].
      destruct (r_tag_name r) as [version|]; [|contradiction].
      destruct (r_published_at r) as [published|]; [|contradiction].
      cbn [item mbind result_bind].
      destruct (release_assets_first d config version published (get (r_body r) "")
                  (get (r_assets r) []) Ha acc) as (news1 & -> & Hids1).
      cbn [mbind result_bind].
      destruct (IH (acc ++ news1)) as (news2 & -> & Hids2).
      exists (news1 ++ news2). split; [now rewrite app_assoc|].
      intros id Hin. rewrite map_app. apply in_app_iff in Hin as [Hin|Hin].
      * destruct (Hids1 id Hin); [now left|right]. apply in_app_iff. now left.
      * destruct (Hids2 id Hin); [now left|right]. apply in_app_iff. now right.
Qed.

Lemma ota_files_first d name config now_iso chip files :
  chip_type config = Some chip ->
  forall acc, exists news,
    ota_files d name config now_iso files acc = Ok (acc ++ news) /\
    forall id, In id (ota_ids config chip files) ->
               _firmware_exists d id = true \/ In id (map u_id news).
Proof.
  intros Hchip. induction files as [|f files IH]; intros acc; simpl.
  - exists []. rewrite app_nil_r. split; [reflexivity|]. intros id [].
  - unfold ota_ids. simpl. fold (ota_ids config chip files).
    destruct (_parse_firmware_filename (of_name f)) as [info|].
    + rewrite Hchip. cbn [item mbind result_bind].
      destruct (String.eqb (fi_chip_type info) chip).
      * destruct (_firmware_exists d
                    (_generate_firmware_id (of_name f) "latest" (channel config)))
          eqn:Hknown; cbn [negb].
        -- destruct (IH acc) as (news & -> & Hids). exists news. split; [reflexivity|].
           intros id [<-|Hin]; [now left|]. now apply Hids.
        -- match goal with
           | |- context [ota_files _ _ _ _ _ (acc ++ [?u])] =>
               destruct (IH (acc ++ [u])) as (news & -> & Hids); exists (u :: news)
           end.
           split; [now rewrite <- app_assoc|].
           intros id [<-|Hin]; [right; now left|].
           destruct (Hids id Hin); [now left|right; now right].
      * destruct (IH acc) as (news & -> & Hids). exists news. split; [reflexivity|].
        simpl. exact Hids.
    + destruct (IH acc) as (news & -> & Hids). exists news. split; [reflexivity|].
      simpl. exact Hids.
Qed.

(** *** One source *)

(** The inner checks catch every exception: the dispatch never raises. *)
Lemma check_source_never_raises net d now_iso name config :
  exists o, check_source net d now_iso name config = Ok o.
Proof.
  unfold check_source.
  destruct (String.eqb (type config) "github_api"); [eauto|].
  destruct (String.eqb (type config) "ota_server"); eauto.
Qed.

Lemma check_source_known net d now_iso name config :
  (forall id, In id (source_ids net config) -> _firmware_exists d id = true) ->
  check_source net d now_iso name config = Ok (Some []) \/
  check_source net d now_iso name config = Ok None.
Proof.
  intros Hknown. unfold check_source, source_ids in *.
  destruct (String.eqb (type config) "github_api").
  - left. do 2 f_equal. unfold _check_github_source.
    destruct (github_get net (url config)) as [e|status data]; [reflexivity|].
    destruct (status =? 200); [|reflexivity]. simpl in Hknown.
    destruct (Py.contains "releases" (url config)).
    + unfold _process_github_releases.
      destruct (process_releases_known d config (firstn 10 data) [] Hknown)
        as [->|(e & ->)]; reflexivity.
    + destruct (Py.contains "artifacts" (url config)); reflexivity.
  - destruct (String.eqb (type config) "ota_server"); [|now right].
    left. do 2 f_equal. unfold _check_ota_source.
    destruct (ota_get net (url config)) as [e|status files]; [reflexivity|].
    destruct (status =? 200); [|reflexivity].
    destruct (chip_type config) as [chip|] eqn:Hchip.
    + now rewrite (ota_files_known d name config now_iso chip files Hchip [] Hknown).
    + destruct (ota_files_no_chip d name config now_iso files Hchip [])
        as [->|(e & ->)]; reflexivity.
Qed.

Lemma check_source_first net d now_iso name config :
  wf_network net ->
  exists o,
    check_source net d now_iso name config = Ok o /\
    forall id, In id (source_ids net config) ->
               _firmware_exists d id = true \/ In id (map u_id (get o [])).
Proof.
  intros Hwf. unfold check_source, source_ids.
  destruct (String.eqb (type config) "github_api").
  - eexists. split; [reflexivity|]. cbn [get]. unfold _check_github_source.
    destruct (github_get net (url config)) as [e|status data] eqn:Hget; [intros id []|].
    destruct (status =? 200); [|intros id []]. simpl.
    destruct (Py.contains "releases" (url config)); [|intros id []].
    unfold _process_github_releases.
    destruct (process_releases_first d config (firstn 10 data)
                (Forall_take _ 10%nat _ (Hwf _ _ _ Hget)) []) as (news & -> & Hids).
    exact Hids.
  - destruct (String.eqb (type config) "ota_server").
    + eexists. split; [reflexivity|]. cbn [get]. unfold _check_ota_source.
      destruct (ota_get net (url config)) as [e|status files]; [intros id []|].
      destruct (chip_type config) as [chip|] eqn:Hchip; [|intros id []].
      destruct (status =? 200); [|intros id []].
      destruct (ota_files_first d name config now_iso chip files Hchip [])
        as (news & -> & Hids).
      exact Hids.
    + exists None. split; [reflexivity|]. intros id [].
Qed.

End CatalogFacts.

(** ** The poll cycle *)

Module PollFacts.
Import Catalog CatalogFacts ListFacts.

Lemma dict_set_fresh {V} k (v : V) l :
  ~ In k (map fst l) -> dict_set k v l = l ++ [(k, v)].
Proof.
  induction l as [|[k' v'] l IH]; simpl; intros Hk; [reflexivity|].
  destruct (String.eqb k' k) eqn:E.
  - apply String.eqb_eq in E. exfalso. apply Hk. now left.
  - f_equal. apply IH. intros Hin. apply Hk. now right.
Qed.

Lemma dict_set_forall {V} (P : string * V -> Prop) k v l :
  Forall P l -> P (k, v) -> Forall P (dict_set k v l).
Proof.
  intros Hl Hv. induction Hl as [|[k' v'] l Hx Hl IH]; simpl.
  - now constructor.
  - destruct (String.eqb k' k); constructor; auto.
Qed.

Lemma quiet_all_updates res : quiet res -> all_updates res = [].
Proof.
  unfold quiet, all_updates. induction 1 as [|kv l Hkv _ IH]; simpl; [reflexivity|].
  now rewrite Hkv, IH.
Qed.

(** The dispatch never raises, so the list of errors never grows. *)
Lemma check_sources_errors net now_iso srcs :
  forall d res, errors (check_sources net now_iso srcs d res).2 = errors res.
Proof.
  induction srcs as [|[name config] srcs IH]; intros d res; simpl; [reflexivity|].
  destruct (check_source_never_raises net d now_iso name config) as ([ups|] & ->).
  - now rewrite IH.
  - now rewrite IH.
Qed.

(** A poll of sources whose keys are all in the catalog finds nothing. *)
Lemma check_sources_known net now_iso srcs :
  forall d res,
    (forall name config id, In (name, config) srcs -> In id (source_ids net config) ->
                            known (firmware d) id = true) ->
    quiet res ->
    firmware (check_sources net now_iso srcs d res).1 = firmware d /\
    quiet (check_sources net now_iso srcs d res).2.
Proof.
  induction srcs as [|[name config] srcs IH]; intros d res Hknown Hq; simpl; [auto|].
  assert (Hrest : forall name' config' id, In (name', config') srcs ->
            In id (source_ids net config') -> known (firmware d) id = true).
  { intros n c id Hin Hid. apply (Hknown n c id); [now right|exact Hid]. }
  destruct (check_source_known net d now_iso name config) as [-> | ->].
  - intros id Hin. apply (Hknown name config id); [now left|exact Hin].
  - refine (IH (_record_update_check d name (Py.len []) None) _ Hrest _).
    unfold quiet. cbn [res_sources].
    apply dict_set_forall; [exact Hq|reflexivity].
  - apply IH; [exact Hrest|exact Hq].
Qed.

(** A poll of well-formed listings offers every key that is not in the
    catalog yet. *)
Lemma check_sources_first net now_iso srcs :
  wf_network net ->
  forall d res,
    List.NoDup (map fst srcs) ->
    (forall k, In k (map fst srcs) -> ~ In k (map fst (res_sources res))) ->
    firmware (check_sources net now_iso srcs d res).1 = firmware d /\
    (forall u, In u (all_updates res) ->
               In u (all_updates (check_sources net now_iso srcs d res).2)) /\
    (forall name config id, In (name, config) srcs -> In id (source_ids net config) ->
       known (firmware d) id = true \/
       In id (map u_id (all_updates (check_sources net now_iso srcs d res).2))).
Proof.
  intros Hwf. induction srcs as [|[name config] srcs IH]; intros d res Hnd Hfresh; simpl.
  - split; [reflexivity|]. split; [auto|]. intros n c id [].
  - simpl in Hnd. apply NoDup_cons_iff in Hnd as [Hname Hnd].
    destruct (check_source_first net d now_iso name config Hwf) as (o & -> & Hids).
    destruct o as [ups|].
    + match goal with
      | |- context [check_sources _ _ _ ?d' ?res'] =>
          destruct (IH d' res' Hnd) as (Hfw & Hkeep & Hoffer)
      end.
      { intros k Hk. cbn [res_sources]. rewrite dict_set_fresh by (apply Hfresh; now left).
        rewrite map_app. simpl. intros Hin. apply in_app_iff in Hin as [Hin|[<-|[]]].
        - revert Hin. apply Hfresh. now right.
        - contradiction. }
      split; [exact Hfw|].
      assert (Hgrow : forall u, In u (all_updates res) \/ In u ups ->
                In u (all_updates (check_sources net now_iso srcs
                        (_record_update_check d name (Py.len ups) None)
                        {| total_updates := total_updates res + Py.len ups;
                           res_sources := dict_set name
                             {| sr_updates := Py.len ups; sr_firmware := ups |}
                             (res_sources res);
                           errors := errors res |}).2)).
      { intros u Hu. apply Hkeep. unfold all_updates. cbn [res_sources].
        rewrite dict_set_fresh by (apply Hfresh; now left).
        rewrite flat_map_app. simpl. rewrite app_nil_r. apply in_app_iff. exact Hu. }
      split; [intros u Hu; apply Hgrow; now left|].
      intros n c id [Heq|Hin] Hid.
      * injection Heq as <- <-. destruct (Hids id Hid) as [Hk|Hin]; [now left|right].
        cbn [get] in Hin. apply in_map_iff in Hin as (u & <- & Hu).
        apply in_map. apply Hgrow. now right.
      * exact (Hoffer n c id Hin Hid).
    + destruct (IH d res Hnd) as (Hfw & Hkeep & Hoffer).
      { intros k Hk. apply Hfresh. now right. }
      split; [exact Hfw|]. split; [exact Hkeep|].
      intros n c id [Heq|Hin] Hid.
      * injection Heq as <- <-. destruct (Hids id Hid) as [Hk|[]]. now left.
      * exact (Hoffer n c id Hin Hid).
Qed.

Lemma sources_distinct : List.NoDup (map fst sources).
Proof.
  unfold sources. simpl.
  repeat (constructor; [simpl; intros H; repeat (destruct H as [H|H]; [discriminate|]); exact H|]).
  constructor.
Qed.

Import Scheduler.

Lemma lookup_keeps_catalog s id :
  Cache.catalog (Cache.get_cached_firmware_path s id).1 = Cache.catalog s.
Proof.
  unfold Cache.get_cached_firmware_path.
  destruct (Cache.select_verified s id) as [r|]; [|reflexivity].
  destruct (Cache.exists_ _ _); reflexivity.
Qed.

Lemma set_local_path_id id p r : fw_id (Cache.set_local_path id p r) = fw_id r.
Proof. unfold Cache.set_local_path. destruct (String.eqb _ _); reflexivity. Qed.

(** A download changes no key of the catalog: it only fills [local_path]. *)
Lemma download_keeps_ids s now tmp id address answer :
  map fw_id (firmware (Cache.catalog
    (Cache.download_and_cache_firmware s now tmp id address answer).1.1)) =
  map fw_id (firmware (Cache.catalog s)).
Proof.
  unfold Cache.download_and_cache_firmware.
  pose proof (lookup_keeps_catalog s id) as Hcat.
  destruct (Cache.get_cached_firmware_path s id) as [s1 cached]. simpl in Hcat.
  rewrite <- Hcat.
  destruct cached as [p|];
    [destruct (Cache.exists_ (Cache.files s1) p); [reflexivity|]|];
    (destruct answer as [written e|content];
     [ match goal with
       | |- context [if ?b then _ else _] => destruct b; reflexivity
       end
     | match goal with
       | |- context [if ?b then _ else _] => destruct b; [|reflexivity]
       end;
       cbn [fst snd Cache.catalog Cache._update_firmware_local_path firmware];
       rewrite map_map; apply map_ext; intros r; apply set_local_path_id ]).
Qed.

Lemma precache_keeps_known w l :
  forall s id,
    known (firmware (Cache.catalog (_precache_new_firmware w s l))) id =
    known (firmware (Cache.catalog s)) id.
Proof.
  unfold _precache_new_firmware.
  induction l as [|u l IH]; intros s id; simpl; [reflexivity|].
  rewrite IH. apply known_ids. apply download_keeps_ids.
Qed.

Lemma precache_keeps_catalog_keys w l :
  forall s,
    map fw_id (firmware (Cache.catalog (_precache_new_firmware w s l))) =
    map fw_id (firmware (Cache.catalog s)).
Proof.
  unfold _precache_new_firmware.
  induction l as [|u l IH]; intros s; simpl; [reflexivity|].
  rewrite IH. apply download_keeps_ids.
Qed.

(** After one poll every key the sources offer is in the catalog. *)
Lemma poll_learns_all w s :
  wf_network (net w) ->
  forall name config id,
    In (name, config) sources -> In id (source_ids (net w) config) ->
    known (firmware (Cache.catalog (_check_firmware_updates w s))) id = true.
Proof.
  intros Hwf name config id Hsrc Hid. unfold _check_firmware_updates.
  unfold check_all_sources_for_updates.
  destruct (check_sources_first (net w) (now_iso w) sources Hwf (Cache.catalog s)
              {| total_updates := 0; res_sources := []; errors := [] |}
              sources_distinct) as (Hfw & _ & Hoffer).
  { intros k _ []. }
  specialize (Hoffer name config id Hsrc Hid).
  destruct (check_sources (net w) (now_iso w) sources (Cache.catalog s) _) as [db1 res].
  cbn [fst snd] in *.
  destruct (all_updates res) as [|u ups] eqn:Hall.
  - cbn [with_catalog Cache.catalog]. destruct Hoffer as [Hk|[]].
    unfold known in *. now rewrite Hfw.
  - unfold save_firmware_updates.
    pose proof (known_save (u :: ups) (firmware db1) 0 id) as Hsave.
    destruct (save_rows (u :: ups) (firmware db1) 0) as [rows' count].
    cbn [fst] in Hsave.
    assert (Hk : known rows' id = true).
    { apply Hsave. destruct Hoffer as [Hk|Hin]; [left|now right].
      unfold known in *. now rewrite Hfw. }
    destruct (0 <? count).
    + now rewrite precache_keeps_known.
    + exact Hk.
Qed.

(** A poll over a catalog that knows every offered key changes nothing but
    the history of checks. *)
Lemma poll_of_known w s :
  (forall name config id,
      In (name, config) sources -> In id (source_ids (net w) config) ->
      known (firmware (Cache.catalog s)) id = true) ->
  all_updates (check_all_sources_for_updates (net w) (now_iso w) (Cache.catalog s)).2 = [] /\
  _check_firmware_updates w s =
    with_catalog s (check_all_sources_for_updates (net w) (now_iso w) (Cache.catalog s)).1 /\
  firmware (Cache.catalog (_check_firmware_updates w s)) = firmware (Cache.catalog s).
Proof.
  intros Hknown. unfold _check_firmware_updates, check_all_sources_for_updates.
  destruct (check_sources_known (net w) (now_iso w) sources (Cache.catalog s)
              {| total_updates := 0; res_sources := []; errors := [] |} Hknown)
    as (Hfw & Hq); [constructor|].
  apply quiet_all_updates in Hq.
  destruct (check_sources (net w) (now_iso w) sources (Cache.catalog s) _) as [db1 res].
  cbn [fst snd] in *. rewrite Hq. auto.
Qed.

(** C7, amended: when the answers of the sources are the same at the second
    poll, and the release listing carries the keys the GitHub API documents
    (a condition the claim does not state and needs), the second
    poll-and-save cycle finds no candidate (every dedup key it
    computes is already in the catalog, so each candidate is skipped before
    insertion) and leaves the rows of the catalog, and the cache, as the
    first cycle left them. *)
Theorem repoll_adds_no_rows (w w' : world) (s : Cache.state) :
  net w' = net w ->
  wf_network (net w) ->
  all_updates (check_all_sources_for_updates (net w') (now_iso w')
                 (Cache.catalog (_check_firmware_updates w s))).2 = [] /\
  firmware (Cache.catalog (_check_firmware_updates w' (_check_firmware_updates w s))) =
  firmware (Cache.catalog (_check_firmware_updates w s)) /\
  Cache.rows (_check_firmware_updates w' (_check_firmware_updates w s)) =
  Cache.rows (_check_firmware_updates w s) /\
  Cache.files (_check_firmware_updates w' (_check_firmware_updates w s)) =
  Cache.files (_check_firmware_updates w s).
Proof.
  intros Hnet Hwf.
  destruct (poll_of_known w' (_check_firmware_updates w s)) as (Hnone & Hstate & Hfw).
  { rewrite Hnet. intros name config id. now apply poll_learns_all. }
  split; [exact Hnone|]. split; [exact Hfw|]. rewrite Hstate. split; reflexivity.
Qed.

Lemma sample_network_wf : wf_network sample_network.
Proof.
  intros address status data H. unfold sample_network in H. cbn [github_get] in H.
  destruct (String.eqb address (url releases_config)); [|discriminate].
  injection H as <- <-. constructor; [|constructor].
  right. cbn. split; [discriminate|]. split; [discriminate|].
  constructor; [|constructor]. repeat split; discriminate.
Qed.

Lemma repoll_adds_no_rows_witness :
  net sample_world = net sample_world /\
  wf_network (net sample_world) /\
  firmware (Cache.catalog (_check_firmware_updates sample_world
              (_check_firmware_updates sample_world (Cache.init empty_db)))) =
  firmware (Cache.catalog (_check_firmware_updates sample_world (Cache.init empty_db))).
Proof.
  split; [reflexivity|]. split; [exact sample_network_wf|].
  apply (repoll_adds_no_rows sample_world sample_world (Cache.init empty_db) eq_refl
           sample_network_wf).
Defined.

(** C7 as stated fails: the listings of [keyless_world] are the same at both
    polls, yet the second poll adds a row.  At the first poll the release
    source raises on the missing key of tasmota.bin and offers nothing,
    while the OTA server offers tasmota.bin under the same dedup key; at the
    second poll that key is known, the asset is skipped before its keys are
    read, and tasmota-lite.bin is offered and saved. *)
Lemma keyless_listing_gains_row :
  map fw_name (firmware (Cache.catalog
    (_check_firmware_updates keyless_world (Cache.init empty_db)))) =
  ["tasmota.bin"] /\
  map fw_name (firmware (Cache.catalog
    (_check_firmware_updates keyless_world
       (_check_firmware_updates keyless_world (Cache.init empty_db))))) =
  ["tasmota.bin"; "tasmota-lite.bin"] /\
  ~ (forall (w w' : world) (s : Cache.state),
       net w' = net w ->
       firmware (Cache.catalog (_check_firmware_updates w' (_check_firmware_updates w s))) =
       firmware (Cache.catalog (_check_firmware_updates w s))).
Proof.
  assert (H1 : map fw_name (firmware (Cache.catalog
            (_check_firmware_updates keyless_world (Cache.init empty_db)))) =
          ["tasmota.bin"]) by (vm_compute; reflexivity).
  assert (H2 : map fw_name (firmware (Cache.catalog
            (_check_firmware_updates keyless_world
               (_check_firmware_updates keyless_world (Cache.init empty_db))))) =
          ["tasmota.bin"; "tasmota-lite.bin"]) by (vm_compute; reflexivity).
  split; [exact H1|]. split; [exact H2|].
  intros H.
  pose proof (eq_trans (eq_sym H2)
                (eq_trans (f_equal (map fw_name)
                             (H keyless_world keyless_world (Cache.init empty_db) eq_refl))
                          H1)) as Hne.
  discriminate Hne.
Qed.

(** The sample poll runs: the first cycle stores the two builds that the
    sources list, the second stores nothing more. *)
Example sample_poll_twice :
  map fw_name (firmware (Cache.catalog
    (_check_firmware_updates sample_world (Cache.init empty_db)))) =
  ["tasmota32-sensors.bin"; "tasmota32-lite.bin"] /\
  map fw_name (firmware (Cache.catalog
    (_check_firmware_updates sample_world
       (_check_firmware_updates sample_world (Cache.init empty_db))))) =
  ["tasmota32-sensors.bin"; "tasmota32-lite.bin"].
Proof. vm_compute. auto. Qed.

Lemma sensors_id_computed :
  _generate_firmware_id "tasmota32-sensors.bin" "v13.2.0" "stable" = sensors_id.
Proof. vm_compute. reflexivity. Qed.

Lemma sensors_classified :
  _parse_firmware_filename "tasmota32-sensors.bin" =
  Some {| fi_chip_type := "ESP32"; fi_variant := "sensors";
          fi_features := ["All Sensors"; "DHT22"; "DS18B20"; "BMP280"];
          fi_compatibility := [] |}.
Proof. vm_compute. reflexivity. Qed.

Lemma insert_unknown row rows :
  known rows (fw_id row) = false -> insert_or_replace row rows = rows ++ [row].
Proof.
  intros Hnew. unfold insert_or_replace. f_equal.
  induction rows as [|r rows IH]; simpl in *; [reflexivity|].
  apply orb_false_iff in Hnew as [Hr Hrest]. rewrite Hr. simpl. f_equal. now apply IH.
Qed.

(** C8: when the release source lists tasmota32-sensors.bin under the tag
    v13.2.0 and the catalog does not hold its dedup key yet, the poller
    yields exactly one candidate and saving it adds exactly one row, with
    chip type ESP32, variant sensors, channel stable and verified set. *)
Theorem sensors_build_catalogued (network_answers : network) (d : db)
    (published_at changelog address : string) :
  github_get network_answers (url releases_config) =
    Http 200 [sensors_release published_at changelog address] ->
  _firmware_exists d sensors_id = false ->
  exists row,
    _check_github_source network_answers d "github_releases" releases_config =
      [{| u_id := sensors_id; u_name := "tasmota32-sensors.bin"; u_version := "v13.2.0";
          u_chip_type := "ESP32"; u_variant := "sensors"; u_channel := "stable";
          u_source := "github_releases"; u_download_url := address; u_size := 650000;
          u_published_at := Some published_at; u_changelog := Some changelog;
          u_features := ["All Sensors"; "DHT22"; "DS18B20"; "BMP280"];
          u_compatibility := [] |}] /\
    save_firmware_updates d
      (_check_github_source network_answers d "github_releases" releases_config) =
      ({| firmware := firmware d ++ [row]; update_history := update_history d |}, 1) /\
    fw_id row = sensors_id /\
    fw_name row = "tasmota32-sensors.bin" /\
    fw_version row = "v13.2.0" /\
    fw_chip_type row = "ESP32" /\
    fw_variant row = "sensors" /\
    fw_channel row = "stable" /\
    fw_verified row = true /\
    fw_size row = 650000 /\
    fw_status row = "available".
Proof.
  intros Hget Hnew.
  assert (Hcheck : _check_github_source network_answers d "github_releases" releases_config =
      [{| u_id := sensors_id; u_name := "tasmota32-sensors.bin"; u_version := "v13.2.0";
          u_chip_type := "ESP32"; u_variant := "sensors"; u_channel := "stable";
          u_source := "github_releases"; u_download_url := address; u_size := 650000;
          u_published_at := Some published_at; u_changelog := Some changelog;
          u_features := ["All Sensors"; "DHT22"; "DS18B20"; "BMP280"];
          u_compatibility := [] |}]).
  { unfold _check_github_source. rewrite Hget.
    change (200 =? 200) with true. cbv iota.
    change (Py.contains "releases" (url releases_config)) with true. cbv iota.
    unfold _process_github_releases, sensors_release, sensors_asset.
    cbn [firstn process_releases r_draft r_prerelease orb r_tag_name r_published_at
         r_body r_assets get item mbind result_bind release_assets a_name
         a_browser_download_url a_size].
    change (Py.endswith ".bin" "tasmota32-sensors.bin") with true. cbv iota.
    rewrite sensors_classified. cbn [channel releases_config].
    rewrite sensors_id_computed, Hnew.
    cbn [negb item mbind result_bind app fi_chip_type fi_variant fi_features
         fi_compatibility release_assets process_releases].
    reflexivity. }
  eexists. split; [exact Hcheck|]. rewrite Hcheck.
  split.
  - unfold save_firmware_updates. cbn [save_rows].
    rewrite insert_unknown by exact Hnew. reflexivity.
  - cbn. repeat split.
Qed.

Lemma sensors_build_catalogued_witness :
  github_get sample_network (url releases_config) =
    Http 200 [sensors_release "2023-10-16T09:00:00Z" "Release notes"
                "https://github.com/arendst/Tasmota/releases/download/v13.2.0/tasmota32-sensors.bin"] /\
  _firmware_exists empty_db sensors_id = false /\
  exists row,
    (save_firmware_updates empty_db
       (_check_github_source sample_network empty_db "github_releases" releases_config)).1 =
      {| firmware := [row]; update_history := [] |} /\
    fw_chip_type row = "ESP32" /\ fw_variant row = "sensors" /\
    fw_channel row = "stable" /\ fw_verified row = true.
Proof.
  split; [reflexivity|]. split; [reflexivity|].
  destruct (sensors_build_catalogued sample_network empty_db "2023-10-16T09:00:00Z"
              "Release notes"
              "https://github.com/arendst/Tasmota/releases/download/v13.2.0/tasmota32-sensors.bin"
              eq_refl eq_refl)
    as (row & _ & Hsave & _ & _ & _ & Hchip & Hvariant & Hchannel & Hverified & _).
  exists row. rewrite Hsave. auto.
Defined.

(** C9, what the code does: whatever the sources answer, the list of errors
    of the aggregated check stays empty, because the per-source checks
    catch every exception themselves.  When every request fails, the result
    lists each source with zero candidates and no error, and the history of
    checks records no error either.  When two sources answer and four fail,
    the two keep their candidates and the four count zero. *)
Theorem failing_sources_leave_no_error_record :
  (forall network_answers now_iso d,
      errors (check_all_sources_for_updates network_answers now_iso d).2 = []) /\
  (check_all_sources_for_updates dead_network "2024-05-01T02:00:00.000000" empty_db).2 =
  {| total_updates := 0;
     res_sources :=
       [("github_releases", {| sr_updates := 0; sr_firmware := [] |});
        ("github_artifacts", {| sr_updates := 0; sr_firmware := [] |});
        ("ota_esp8266", {| sr_updates := 0; sr_firmware := [] |});
        ("ota_esp32", {| sr_updates := 0; sr_firmware := [] |});
        ("ota_esp8266_dev", {| sr_updates := 0; sr_firmware := [] |});
        ("ota_esp32_dev", {| sr_updates := 0; sr_firmware := [] |})];
     errors := [] |} /\
  Forall (fun h => h_errors h = None)
    (update_history
       (check_all_sources_for_updates dead_network "2024-05-01T02:00:00.000000"
          empty_db).1) /\
  map (fun kv : string * source_result => (kv.1, sr_updates kv.2))
    (res_sources
       (check_all_sources_for_updates sample_network "2024-05-01T02:00:00.000000"
          empty_db).2) =
  [("github_releases", 1); ("github_artifacts", 0); ("ota_esp8266", 0);
   ("ota_esp32", 1); ("ota_esp8266_dev", 0); ("ota_esp32_dev", 0)].
Proof.
  split; [|split; [|split]].
  - intros network_answers now_iso d. unfold check_all_sources_for_updates.
    apply check_sources_errors.
  - vm_compute. reflexivity.
  - vm_compute. repeat constructor.
  - vm_compute. reflexivity.
Qed.

End PollFacts.

(** * Properties of the further operations *)

From Stdlib Require Import Sorted.

(** ** More on the cache *)

Module CacheMoreFacts.
Import Cache CacheStats ListFacts CacheFacts.

(** *** Lookup *)

(** X1. A lookup repairs the index and is idempotent.  A path is
    returned only when the file is there, and then nothing changes; when no
    path is returned, no verified entry of the firmware is left (a stale one
    is deleted), no file is touched and the entries of other firmware stay;
    asking again gives the same answer and changes nothing. *)
Theorem lookup_repairs_index (s : state) (id : string) :
  let out := get_cached_firmware_path s id in
  (forall p, out.2 = Some p -> out.1 = s /\ exists_ (files s) p = true) /\
  (out.2 = None ->
   select_verified out.1 id = None /\
   files out.1 = files s /\
   (forall r, In r (rows out.1) -> In r (rows s)) /\
   (forall r, In r (rows s) -> firmware_id r <> id -> In r (rows out.1))) /\
  get_cached_firmware_path out.1 id = out.
Proof.
  cbv zeta. unfold get_cached_firmware_path.
  destruct (select_verified s id) as [r|] eqn:Hsel.
  - destruct (exists_ (files s) (local_path r)) eqn:Hex; cbn [fst snd].
    + split; [|split].
      * intros p [= <-]. split; [reflexivity|exact Hex].
      * discriminate.
      * rewrite Hsel, Hex. reflexivity.
    + assert (Hnone : select_verified (_remove_from_cache_db s id) id = None).
      { unfold select_verified, _remove_from_cache_db. simpl.
        apply find_all_false. intros x Hx. apply filter_In in Hx as [_ Hx].
        apply negb_true_iff in Hx. now rewrite Hx. }
      split; [|split].
      * discriminate.
      * intros _. split; [exact Hnone|]. split; [reflexivity|]. split.
        -- intros x Hx. unfold _remove_from_cache_db in Hx. simpl in Hx.
           now apply filter_In in Hx.
        -- intros x Hx Hne. unfold _remove_from_cache_db. simpl.
           apply filter_In. split; [exact Hx|].
           now apply negb_true_iff, String.eqb_neq.
      * rewrite Hnone. reflexivity.
  - cbn [fst snd]. split; [|split].
    + discriminate.
    + intros _. split; [exact Hsel|]. auto.
    + rewrite Hsel. reflexivity.
Qed.

(** The lookup of "lost" in the small cache finds a verified entry without
    its file, deletes it and leaves the entry of "kept". *)
Example lookup_of_lost_entry :
  (get_cached_firmware_path small_cache "lost").2 = None /\
  map firmware_id (rows (get_cached_firmware_path small_cache "lost").1) = ["kept"] /\
  (get_cached_firmware_path small_cache "kept").2 = Some (CacheFile "kept.bin").
Proof. vm_compute. repeat split. Qed.

(** *** A hit *)

(** X2. A download of a firmware whose lookup succeeds never consults
    the network: whatever the transfer would have delivered, the cached path
    is returned, no file and no catalog row changes, and in the index only
    the entries of this firmware change: their download count grows by one
    and their access time becomes the clock. *)
Theorem cached_hit_skips_network (s : state) (now : Z) (tmp id url : string)
    (net : download) (p : path) :
  (get_cached_firmware_path s id).2 = Some p ->
  let out := download_and_cache_firmware s now tmp id url net in
  out.1.2 = Some p /\
  out.2 = [AccessBumped id] /\
  files out.1.1 = files s /\
  catalog out.1.1 = catalog s /\
  stats out.1.1 = stats s /\
  Forall2 (fun r r' =>
             if String.eqb (firmware_id r) id
             then firmware_id r' = firmware_id r /\
                  local_path r' = local_path r /\
                  download_url r' = download_url r /\
                  file_size r' = file_size r /\
                  md5_hash r' = md5_hash r /\
                  sha256_hash r' = sha256_hash r /\
                  cached_at r' = cached_at r /\
                  verified r' = verified r /\
                  download_count r' = download_count r + 1 /\
                  last_accessed r' = now
             else r' = r)
          (rows s) (rows out.1.1).
Proof.
  intros Hhit. cbv zeta.
  unfold download_and_cache_firmware.
  unfold get_cached_firmware_path in *.
  destruct (select_verified s id) as [r|] eqn:Hsel; [|discriminate].
  destruct (exists_ (files s) (local_path r)) eqn:Hex; [|discriminate].
  cbn [fst snd] in Hhit. injection Hhit as <-.
  rewrite Hex. cbn [fst snd].
  split; [reflexivity|]. split; [reflexivity|]. split; [reflexivity|].
  split; [reflexivity|]. split; [reflexivity|].
  unfold _update_access_time. cbn [rows with_rows].
  induction (rows s) as [|x l IH]; simpl; constructor; [|exact IH].
  unfold touch. destruct (String.eqb (firmware_id x) id); [|reflexivity].
  cbn. repeat split; reflexivity.
Qed.

Lemma cached_hit_skips_network_witness :
  (get_cached_firmware_path small_cache "kept").2 = Some (CacheFile "kept.bin") /\
  (download_and_cache_firmware small_cache 30 "/tmp/t.bin" "kept" "http://other/"
     (DownloadFails [] "unreachable")).1.2 = Some (CacheFile "kept.bin").
Proof.
  split; [reflexivity|].
  exact (proj1 (cached_hit_skips_network small_cache 30 "/tmp/t.bin" "kept"
                  "http://other/" (DownloadFails [] "unreachable")
                  (CacheFile "kept.bin") eq_refl)).
Defined.

(** *** A transfer that breaks off *)

(** X3. When the transfer raises, whatever part of the file had been
    written, no path is returned, the temporary file is removed, the cache
    directory, the catalog and the index are as the lookup left them, and a
    consistent cache is exactly as before. *)
Theorem broken_download_leaves_no_trace (s : state) (now : Z) (tmp id url : string)
    (written : Py.bytes) (e : string) :
  (get_cached_firmware_path s id).2 = None ->
  let out := download_and_cache_firmware s now tmp id url (DownloadFails written e) in
  out.1.2 = None /\
  exists_ (files out.1.1) (TempFile tmp) = false /\
  cache_dir (files out.1.1) = cache_dir (files s) /\
  rows out.1.1 = rows (get_cached_firmware_path s id).1 /\
  catalog out.1.1 = catalog s /\
  (consistent s -> out.1.1 = s).
Proof.
  intros Hmiss. cbv zeta. rewrite (download_breaks _ _ _ _ _ _ _ Hmiss). cbv zeta.
  destruct (lookup_miss_state s id Hmiss) as (_ & _ & Hfiles).
  cbn [fst snd files with_files rows cache_dir catalog].
  split; [reflexivity|]. split.
  { unfold exists_, read. cbn [temp_dir]. now rewrite lookup_delete_eq. }
  split; [now rewrite Hfiles|]. split; [reflexivity|]. split.
  { unfold get_cached_firmware_path.
    destruct (select_verified s id); [|reflexivity].
    destruct (exists_ (files s) (local_path c)); reflexivity. }
  intros Hc. rewrite (get_cached_consistent s id Hc).
  apply with_files_same. apply Hc.
Qed.

Lemma broken_download_leaves_no_trace_witness :
  (get_cached_firmware_path small_cache "lost").2 = None /\
  (download_and_cache_firmware small_cache 30 "/tmp/t.bin" "lost" "http://host/lost.bin"
     (DownloadFails [xe9] "Connection reset")).1.2 = None.
Proof.
  split; [reflexivity|].
  exact (proj1 (broken_download_leaves_no_trace small_cache 30 "/tmp/t.bin" "lost"
                  "http://host/lost.bin" [xe9] "Connection reset" eq_refl)).
Defined.

(** *** Statistics *)

Lemma substring_all (b : string) : substring 0 (String.length b) b = b.
Proof. induction b as [|c b IH]; simpl; [reflexivity | now rewrite IH]. Qed.

Lemma substring_tail (a b : string) :
  substring (String.length a) (String.length b) (a +:+ b) = b.
Proof. induction a as [|c a IH]; simpl; [apply substring_all | exact IH]. Qed.

Lemma endswith_bin (id : string) : Py.endswith ".bin" (id +:+ ".bin") = true.
Proof.
  pose proof (substring_tail id ".bin") as H.
  unfold Py.endswith. rewrite length_append_nat.
  change (String.length ".bin") with 4%nat in *.
  replace (4 <=? String.length id + 4)%nat with true
    by (symmetry; apply Nat.leb_le; lia).
  replace (String.length id + 4 - 4)%nat with (String.length id) by lia.
  rewrite H. reflexivity.
Qed.

(** A directory that holds exactly the files of the rows [l], each under
    the name of its firmware and with the recorded size, has as many files
    as [l] has rows and as many bytes as [l] records. *)
Lemma dir_matches_rows (l : list cache_row) :
  forall m : gmap string Py.bytes,
    List.NoDup (map firmware_id l) ->
    (forall r, In r l -> exists content,
        m !! (firmware_id r +:+ ".bin") = Some content /\
        file_size r = Some (Py.len content)) ->
    (forall name content, m !! name = Some content ->
        exists r, In r l /\ name = firmware_id r +:+ ".bin") ->
    map_fold (fun _ content acc => Py.len content + acc) 0 m = recorded_bytes l /\
    size m = length l.
Proof.
  induction l as [|r l IH]; intros m Hnd Hrows Hfiles.
  - assert (Hm : m = ∅).
    { apply map_empty. intros i. destruct (m !! i) as [c|] eqn:Hi; [|reflexivity].
      destruct (Hfiles _ _ Hi) as (r & [] & _). }
    subst m. split; [apply map_fold_empty | apply map_size_empty].
  - simpl in Hnd. apply NoDup_cons_iff in Hnd as [Hr Hnd].
    destruct (Hrows r (or_introl eq_refl)) as (content & Hc & Hsize).
    destruct (IH (delete (firmware_id r +:+ ".bin") m) Hnd) as [Hbytes Hcount].
    + intros x Hx. destruct (Hrows x (or_intror Hx)) as (c' & Hc' & Hs').
      exists c'. split; [|exact Hs'].
      rewrite lookup_delete_ne; [exact Hc'|].
      intros Heq. apply append_bin_inj in Heq. apply Hr. rewrite Heq.
      now apply in_map.
    + intros name c' Hlook.
      destruct (decide (firmware_id r +:+ ".bin" = name)) as [<-|Hne].
      * rewrite lookup_delete_eq in Hlook. discriminate.
      * rewrite lookup_delete_ne in Hlook by exact Hne.
        destruct (Hfiles _ _ Hlook) as (x & [<-|Hx] & Hname); [congruence|].
        exists x. split; assumption.
    + split.
      * rewrite (map_fold_delete_L _ _ (firmware_id r +:+ ".bin") content m);
          [|intros; lia|exact Hc].
        rewrite Hbytes. simpl. rewrite Hsize. reflexivity.
      * rewrite map_size_delete_Some in Hcount by (rewrite Hc; eauto).
        simpl. rewrite <- Hcount.
        assert (size m <> 0%nat); [|lia].
        intros Hz. apply map_size_empty_iff in Hz. subst m.
        rewrite lookup_empty in Hc. discriminate.
Qed.

Lemma consistent_counts (s : state) :
  consistent s ->
  _get_cache_size s = recorded_bytes (rows s) /\
  bin_count (files s) = Py.len (rows s).
Proof.
  intros (Hnd & Hok & Horph & _).
  destruct (dir_matches_rows (rows s) (cache_dir (files s)) Hnd) as [Hbytes Hcount].
  - intros r Hr. destruct (Hok r Hr) as (_ & _ & Hfile). exact Hfile.
  - exact Horph.
  - split; [exact Hbytes|].
    unfold bin_count, Py.len. rewrite map_filter_id; [now rewrite Hcount|].
    intros name content Hlook. destruct (Horph _ _ Hlook) as (r & _ & ->).
    simpl. apply endswith_bin.
Qed.

(** X4. On a cache that only its own operations have written, the
    statistics agree with the index: [total_size] is the sum of the
    recorded sizes and [file_count] the number of entries.  Hits and misses
    are never counted: both are reported as 0. *)
Theorem stats_agree_with_index (c : Catalog.db) (ops : list op) :
  let s := run_all (init c) ops in
  cs_total_size (get_cache_stats s) = recorded_bytes (rows s) /\
  cs_file_count (get_cache_stats s) = Py.len (rows s) /\
  cs_total_downloads (get_cache_stats s) = total_downloads (rows s) /\
  cs_cache_hits (get_cache_stats s) = 0 /\
  cs_cache_misses (get_cache_stats s) = 0.
Proof.
  cbv zeta.
  destruct (consistent_counts (run_all (init c) ops)) as [Hbytes Hcount].
  { apply consistent_run_all, consistent_init. }
  unfold get_cache_stats. cbn. auto.
Qed.

(** *** Eviction *)

(** The eviction loop removes a prefix of its candidates and nothing
    else, and its two counters count that prefix. *)
Lemma evict_prefix (cands : list cache_row) :
  forall s cur rem cnt,
    consistent s ->
    (forall c, In c cands -> In c (rows s)) ->
    List.NoDup (map firmware_id cands) ->
    exists k : nat,
      (forall r, In r (rows (evict cands s cur rem cnt).1.1) <->
                 In r (rows s) /\ ~ In r (firstn k cands)) /\
      (evict cands s cur rem cnt).1.2 = rem + recorded_bytes (firstn k cands) /\
      (evict cands s cur rem cnt).2 = cnt + Z.of_nat k.
Proof.
  induction cands as [|c rest IH]; intros s cur rem cnt Hc Hin Hnd.
  - exists 0%nat. simpl. split; [|split; lia]. intros r. tauto.
  - simpl. destruct (below_low_water (cur - rem)) eqn:Hlow.
    + exists 0%nat. simpl. split; [|split; lia]. intros r. tauto.
    + assert (Hcin : In c (rows s)) by (apply Hin; now left).
      destruct (evict_one_spec s c Hc Hcin) as (Hc1 & _ & _ & Hrows & _).
      simpl in Hnd. apply NoDup_cons_iff in Hnd as [Hnotin Hnd].
      destruct (IH (evict_one s c) cur (rem + get (file_size c) 0) (cnt + 1) Hc1)
        as (k & Hk & Hrem & Hcnt).
      * intros c' Hc'. apply Hrows. split; [apply Hin; now right|].
        intros Heq. apply Hnotin. rewrite <- Heq. now apply in_map.
      * exact Hnd.
      * exists (S k). rewrite Hrem, Hcnt. split; [|split].
        -- intros r. rewrite Hk, Hrows. simpl. split.
           ++ intros [[Hr Hne] Hnot]. split; [exact Hr|].
              intros [<-|Hr']; [now apply Hne | now apply Hnot].
           ++ intros [Hr Hnot]. split; [split; [exact Hr|]|].
              ** intros Heq. apply Hnot. left. symmetry.
                 destruct Hc as (Hnds & _).
                 exact (NoDup_map_inj_on firmware_id (rows s) r c Hnds Hr Hcin Heq).
              ** intros Hr'. apply Hnot. now right.
        -- simpl. lia.
        -- lia.
Qed.

Lemma row_le_total (a b : cache_row) : row_le a b = false -> row_le b a = true.
Proof.
  unfold row_le. intros H.
  apply orb_false_iff in H as [H1 H2]. apply Z.ltb_ge in H1.
  apply andb_false_iff in H2.
  apply orb_true_iff.
  destruct (Z.eq_dec (last_accessed a) (last_accessed b)) as [Heq|Hne].
  - right. destruct H2 as [H2|H2].
    + apply Z.eqb_neq in H2. contradiction.
    + apply Z.leb_gt in H2. apply andb_true_iff. split.
      * apply Z.eqb_eq. lia.
      * apply Z.leb_le. lia.
  - left. apply Z.ltb_lt. lia.
Qed.

Lemma row_le_trans (a b c : cache_row) :
  row_le a b = true -> row_le b c = true -> row_le a c = true.
Proof.
  unfold row_le. intros H1 H2.
  apply orb_true_iff in H1. apply orb_true_iff in H2. apply orb_true_iff.
  destruct H1 as [H1|H1], H2 as [H2|H2];
    rewrite ?andb_true_iff, ?Z.ltb_lt, ?Z.eqb_eq, ?Z.leb_le in *; lia.
Qed.

Lemma insert_row_sorted (r : cache_row) (l : list cache_row) :
  StronglySorted (fun a b => row_le a b = true) l ->
  StronglySorted (fun a b => row_le a b = true) (insert_row r l).
Proof.
  induction 1 as [|x l Hl IH Hx]; simpl.
  - constructor; constructor.
  - destruct (row_le x r) eqn:Hle.
    + constructor; [exact IH|].
      apply List.Forall_forall. intros y Hy.
      apply (Permutation_in _ (insert_row_perm r l)) in Hy.
      destruct Hy as [<-|Hy]; [exact Hle|].
      rewrite List.Forall_forall in Hx. now apply Hx.
    + constructor; [constructor; assumption|].
      constructor; [now apply row_le_total|].
      apply List.Forall_forall. intros y Hy. rewrite List.Forall_forall in Hx.
      apply (row_le_trans r x y); [now apply row_le_total | now apply Hx].
Qed.

Lemma order_rows_sorted (l : list cache_row) :
  StronglySorted (fun a b => row_le a b = true) (order_rows l).
Proof.
  unfold order_rows.
  assert (H : forall acc, StronglySorted (fun a b => row_le a b = true) acc ->
                StronglySorted (fun a b => row_le a b = true)
                  (fold_left (fun acc r => insert_row r acc) l acc)).
  { induction l as [|x l IH]; intros acc Hacc; simpl; [exact Hacc|].
    apply IH. now apply insert_row_sorted. }
  apply H. constructor.
Qed.

(** In a sorted list every row of a prefix is before every row of the
    rest. *)
Lemma sorted_prefix (l : list cache_row) :
  StronglySorted (fun a b => row_le a b = true) l ->
  forall k x y, In x (firstn k l) -> In y (skipn k l) -> row_le x y = true.
Proof.
  induction 1 as [|a l Hl IH Ha]; intros k x y Hx Hy.
  - destruct k; contradiction.
  - destruct k as [|k]; simpl in Hx, Hy; [contradiction|].
    destruct Hx as [<-|Hx].
    + rewrite List.Forall_forall in Ha. apply Ha.
      rewrite <- (firstn_skipn k l). apply in_or_app. now right.
    + now apply (IH k).
Qed.

(** What a cleanup that runs does to the index: it removes a prefix of the
    candidates in their order. *)
Lemma cleanup_prefix (s : state) (now : Z) (force : bool) :
  consistent s ->
  exists k : nat,
    forall r, In r (rows (cleanup_cache s now force)) <->
              In r (rows s) /\ ~ In r (firstn k (candidates s (cutoff_at now))).
Proof.
  intros Hc. unfold cleanup_cache.
  destruct (negb force && below_high_water (_get_cache_size s)).
  - exists 0%nat. intros r. simpl. tauto.
  - fold (cutoff_at now).
    destruct (evict_prefix (candidates s (cutoff_at now)) s (_get_cache_size s) 0 0 Hc)
      as (k & Hk & _).
    + intros c Hin. now apply candidates_in in Hin.
    + apply candidates_nodup, Hc.
    + exists k.
      destruct (evict (candidates s (cutoff_at now)) s (_get_cache_size s) 0 0)
        as [[s' rem'] cnt']. exact Hk.
Qed.

(** X5. An entry that was served at least once and accessed within the
    retention window of thirty days survives every cleanup, forced or not
    and whatever the size of the cache, together with its file. *)
Theorem cleanup_spares_entries_in_use (s : state) (now : Z) (force : bool)
    (r : cache_row) :
  consistent s ->
  In r (rows s) ->
  download_count r <> 0 ->
  now - 30 * (86400 * 1000000) <= last_accessed r ->
  In r (rows (cleanup_cache s now force)) /\
  exists_ (files (cleanup_cache s now force)) (local_path r) = true.
Proof.
  intros Hc Hr Hcount Hrecent.
  assert (Hin : In r (rows (cleanup_cache s now force))).
  { destruct (cleanup_prefix s now force Hc) as (k & Hk).
    apply Hk. split; [exact Hr|]. intros Hcand.
    assert (Hel : In r (candidates s (cutoff_at now))).
    { rewrite <- (firstn_skipn k). apply in_or_app. now left. }
    apply candidates_in in Hel as [_ Hel].
    unfold eligible, cutoff_at, cache_retention_days, microseconds_per_day in Hel.
    apply orb_true_iff in Hel as [Hel|Hel].
    - apply Z.ltb_lt in Hel. lia.
    - apply Z.eqb_eq in Hel. contradiction. }
  split; [exact Hin|].
  destruct (cleanup_spec s now force Hc) as ((_ & Hok & _) & _).
  apply row_ok_exists. now apply Hok.
Qed.

(** X6. Eviction follows the order of the query: a candidate that
    survives a cleanup protects every entry that comes strictly after it
    (accessed later, or at the same time with more downloads); in other
    words an entry is evicted only after all the candidates before it. *)
Theorem eviction_takes_oldest_first (s : state) (now : Z) (force : bool)
    (a b : cache_row) :
  consistent s ->
  In a (rows s) -> In b (rows s) ->
  eligible (cutoff_at now) a = true ->
  last_accessed a < last_accessed b \/
  (last_accessed a = last_accessed b /\ download_count a < download_count b) ->
  In a (rows (cleanup_cache s now force)) ->
  In b (rows (cleanup_cache s now force)).
Proof.
  intros Hc Ha Hb Hel Hlt Hkept.
  destruct (cleanup_prefix s now force Hc) as (k & Hk).
  rewrite Hk in Hkept. rewrite Hk. destruct Hkept as [_ Hkeep].
  split; [exact Hb|]. intros Hbk.
  assert (Hcand : In a (candidates s (cutoff_at now))) by (apply candidates_in; auto).
  rewrite <- (firstn_skipn k) in Hcand. apply in_app_or in Hcand as [Hin|Hin];
    [contradiction|].
  pose proof (sorted_prefix _ (order_rows_sorted _) k b a Hbk Hin) as Hle.
  unfold row_le in Hle. apply orb_true_iff in Hle.
  rewrite andb_true_iff, Z.ltb_lt, Z.eqb_eq, Z.leb_le in Hle. lia.
Qed.

Lemma two_entries_consistent : consistent two_entries.
Proof.
  split; [|split; [|split]].
  - simpl. constructor; [|constructor; [|constructor]]; simpl; intuition discriminate.
  - intros r [<-|[<-|[]]]; (split; [reflexivity|]); (split; [reflexivity|]).
    + exists [xe9; x00]. split; reflexivity.
    + exists [xe9; x01]. split; reflexivity.
  - intros name content Hlook. cbn [two_entries files cache_dir rows] in *.
    apply lookup_insert_Some in Hlook as [[<- _]|[_ Hlook]].
    + exists (entry "old" 0 10). split; [now left|reflexivity].
    + apply lookup_singleton_Some in Hlook as [<- _].
      exists (entry "new" 3 20). split; [right; now left|reflexivity].
  - reflexivity.
Qed.

Lemma two_entries_cleanup (now : Z) (force : bool) :
  rows (cleanup_cache two_entries now force) = rows two_entries.
Proof.
  assert (Hsize : _get_cache_size two_entries = 4) by (vm_compute; reflexivity).
  unfold cleanup_cache. rewrite Hsize.
  destruct (negb force && below_high_water 4); [reflexivity|].
  unfold candidates.
  destruct (List.filter _ (rows two_entries)) as [|c l]; [reflexivity|].
  destruct (order_rows (c :: l)) as [|c' l'] eqn:Hord.
  - reflexivity.
  - simpl. reflexivity.
Qed.

Lemma cleanup_spares_entries_in_use_witness :
  consistent two_entries /\
  In (entry "new" 3 20) (rows two_entries) /\
  download_count (entry "new" 3 20) <> 0 /\
  30 - 30 * (86400 * 1000000) <= last_accessed (entry "new" 3 20) /\
  In (entry "new" 3 20) (rows (cleanup_cache two_entries 30 true)).
Proof.
  assert (Hin : In (entry "new" 3 20) (rows two_entries)) by (right; now left).
  assert (Hcount : download_count (entry "new" 3 20) <> 0) by discriminate.
  assert (Hrecent : 30 - 30 * (86400 * 1000000) <= last_accessed (entry "new" 3 20))
    by (simpl; lia).
  split; [exact two_entries_consistent|]. split; [exact Hin|].
  split; [exact Hcount|]. split; [exact Hrecent|].
  exact (proj1 (cleanup_spares_entries_in_use two_entries 30 true (entry "new" 3 20)
                  two_entries_consistent Hin Hcount Hrecent)).
Defined.

Lemma eviction_takes_oldest_first_witness :
  consistent two_entries /\
  In (entry "old" 0 10) (rows two_entries) /\
  In (entry "new" 3 20) (rows two_entries) /\
  eligible (cutoff_at 30) (entry "old" 0 10) = true /\
  In (entry "old" 0 10) (rows (cleanup_cache two_entries 30 true)) /\
  In (entry "new" 3 20) (rows (cleanup_cache two_entries 30 true)).
Proof.
  assert (Ha : In (entry "old" 0 10) (rows two_entries)) by now left.
  assert (Hb : In (entry "new" 3 20) (rows two_entries)) by (right; now left).
  assert (Hel : eligible (cutoff_at 30) (entry "old" 0 10) = true) by reflexivity.
  assert (Hkept : In (entry "old" 0 10) (rows (cleanup_cache two_entries 30 true)))
    by (rewrite two_entries_cleanup; exact Ha).
  split; [exact two_entries_consistent|]. split; [exact Ha|]. split; [exact Hb|].
  split; [exact Hel|]. split; [exact Hkept|].
  apply (eviction_takes_oldest_first two_entries 30 true (entry "old" 0 10)
           (entry "new" 3 20) two_entries_consistent Ha Hb Hel).
  - left. simpl. lia.
  - exact Hkept.
Defined.

(** *** The cleanup job *)

Lemma last_cleanup_app (l : list stats_row) (row : stats_row) :
  last_cleanup (l ++ [row]) = Some (st_last_cleanup row).
Proof. unfold last_cleanup. rewrite rev_app_distr. reflexivity. Qed.

(** X7. The scheduled cleanup of a consistent cache.  Below 80 % of the
    limit it changes nothing and writes no statistics row; from 80 % on it
    appends exactly one row, stamped with the clock.  Either way the cache
    stays consistent, and the file count and the size it reports and
    records are those of the index after the cleanup. *)
Theorem cleanup_job_reports_index (now : Z) (s : state) :
  consistent s ->
  let out := Jobs._cleanup_firmware_cache now s in
  consistent out.1 /\
  Jobs.lc_file_count out.2 = Py.len (rows out.1) /\
  Jobs.lc_total_size out.2 = recorded_bytes (rows out.1) /\
  (10 * recorded_bytes (rows s) < 8 * max_cache_size -> out.1 = s) /\
  (8 * max_cache_size <= 10 * recorded_bytes (rows s) ->
   stats out.1 = stats s ++
     [{| st_total_size := recorded_bytes (rows out.1);
         st_file_count := Py.len (rows out.1);
         st_last_cleanup := now |}] /\
   cs_last_cleanup (get_cache_stats out.1) = Some now).
Proof.
  intros Hc. cbv zeta. unfold Jobs._cleanup_firmware_cache. cbn [fst snd].
  destruct (cleanup_spec s now false Hc) as (Hc' & _).
  destruct (consistent_counts _ Hc') as [Hbytes Hcount].
  destruct (consistent_counts _ Hc) as [Hbytes0 _].
  split; [exact Hc'|]. split; [exact Hcount|]. split; [exact Hbytes|].
  unfold cleanup_cache in *. rewrite Hbytes0 in *. cbn [negb andb] in *.
  unfold below_high_water in *. split.
  - intros Hlow. apply Z.ltb_lt in Hlow. now rewrite Hlow.
  - intros Hhigh. apply Z.ltb_ge in Hhigh. rewrite Hhigh in *.
    destruct (evict_spec (candidates s (cutoff_at now)) s (recorded_bytes (rows s)) 0 0 Hc)
      as (s' & rem' & cnt' & Hev & _ & _ & Hst & _).
    + intros c Hin. now apply candidates_in in Hin.
    + apply candidates_nodup, Hc.
    + lia.
    + fold (cutoff_at now) in *. rewrite Hev in *.
      unfold _record_cleanup_stats in *. cbn [rows stats files] in *.
      unfold get_cache_stats. cbn [cs_last_cleanup stats].
      rewrite last_cleanup_app. cbn [st_last_cleanup].
      split; [|reflexivity].
      rewrite Hst. f_equal.
      change (_get_cache_size s' = recorded_bytes (rows s')) in Hbytes.
      now rewrite Hbytes, Hcount.
Qed.

Lemma cleanup_job_reports_index_witness :
  consistent two_entries /\
  Jobs.lc_file_count (Jobs._cleanup_firmware_cache 30 two_entries).2 =
    Py.len (rows (Jobs._cleanup_firmware_cache 30 two_entries).1).
Proof.
  split; [exact two_entries_consistent|].
  exact (proj1 (proj2 (cleanup_job_reports_index 30 two_entries two_entries_consistent))).
Defined.

(** *** A download that completes *)

(** X8. A download that completes and passes verification records the
    address and the two digests of the content, replaces whatever entry the
    firmware had, starts the entry with no download and the clock as access
    time, so that it is a candidate for eviction at once, and points every
    catalog row of the firmware at the cached file while the other catalog
    rows stay as they are. *)
Theorem completed_download_recorded (s : state) (now : Z) (tmp id url : string)
    (content : Py.bytes) :
  (get_cached_firmware_path s id).2 = None ->
  passes_verification content = true ->
  let out := download_and_cache_firmware s now tmp id url (Downloaded content) in
  (exists r,
      rows out.1.1 =
        List.filter (fun x => negb (String.eqb (firmware_id x) id)) (rows s) ++ [r] /\
      firmware_id r = id /\
      download_url r = url /\
      md5_hash r = Hash.md5_hexdigest content /\
      sha256_hash r = Hash.sha256_hexdigest content /\
      download_count r = 0 /\
      last_accessed r = now /\
      forall cutoff, eligible cutoff r = true) /\
  map Catalog.fw_id (Catalog.firmware (catalog out.1.1)) =
    map Catalog.fw_id (Catalog.firmware (catalog s)) /\
  (forall c, In c (Catalog.firmware (catalog out.1.1)) -> Catalog.fw_id c = id ->
     Catalog.fw_local_path c =
       Some ("/opt/app/data/firmware_cache/" +:+ id +:+ ".bin")) /\
  (forall c, In c (Catalog.firmware (catalog s)) -> Catalog.fw_id c <> id ->
     In c (Catalog.firmware (catalog out.1.1))).
Proof.
  intros Hmiss Hok. cbv zeta.
  rewrite (download_completes _ _ _ _ _ _ Hmiss). cbv zeta. rewrite Hok.
  cbn [fst snd].
  assert (Hcat : catalog (get_cached_firmware_path s id).1 = catalog s).
  { unfold get_cached_firmware_path.
    destruct (select_verified s id) as [r|]; [|reflexivity].
    destruct (exists_ (files s) (local_path r)); reflexivity. }
  assert (Hrows : List.filter (fun x => negb (String.eqb (firmware_id x) id))
                    (rows (get_cached_firmware_path s id).1) =
                  List.filter (fun x => negb (String.eqb (firmware_id x) id)) (rows s)).
  { unfold get_cached_firmware_path.
    destruct (select_verified s id) as [r|]; [|reflexivity].
    destruct (exists_ (files s) (local_path r)); [reflexivity|].
    unfold _remove_from_cache_db. cbn [fst rows with_rows].
    induction (rows s) as [|x l IH]; simpl; [reflexivity|].
    destruct (negb (String.eqb (firmware_id x) id)) eqn:Hx; simpl.
    - rewrite Hx. now rewrite IH.
    - exact IH. }
  unfold _update_firmware_local_path, _add_to_cache_db.
  cbn [rows catalog with_rows with_files Catalog.firmware]. rewrite Hcat, Hrows.
  split; [|split; [|split]].
  - eexists. split; [reflexivity|]. cbn.
    repeat (split; [reflexivity|]). intros cutoff. unfold eligible. cbn.
    apply orb_true_r.
  - rewrite map_map. apply map_ext. intros c. unfold set_local_path.
    destruct (String.eqb (Catalog.fw_id c) id); reflexivity.
  - intros c Hin Hid. apply in_map_iff in Hin as (c0 & <- & _).
    unfold set_local_path in *.
    destruct (String.eqb (Catalog.fw_id c0) id) eqn:Hc0; [reflexivity|].
    apply String.eqb_neq in Hc0. contradiction.
  - intros c Hin Hne. apply in_map_iff. exists c. split; [|exact Hin].
    unfold set_local_path. apply String.eqb_neq in Hne. now rewrite Hne.
Qed.

Lemma completed_download_recorded_witness :
  (get_cached_firmware_path (init Catalog.empty_db) "fw1").2 = None /\
  passes_verification esp_100k = true /\
  map Catalog.fw_id (Catalog.firmware (catalog
    (download_and_cache_firmware (init Catalog.empty_db) 5 "/tmp/tmp1.bin" "fw1"
       "http://host/fw1.bin" (Downloaded esp_100k)).1.1)) =
  map Catalog.fw_id (Catalog.firmware (catalog (init Catalog.empty_db))).
Proof.
  assert (Hok : passes_verification esp_100k = true) by (vm_compute; reflexivity).
  split; [reflexivity|]. split; [exact Hok|].
  exact (proj1 (proj2 (completed_download_recorded (init Catalog.empty_db) 5
                         "/tmp/tmp1.bin" "fw1" "http://host/fw1.bin" esp_100k
                         eq_refl Hok))).
Defined.

End CacheMoreFacts.

(** ** More on the catalog *)

Module CatalogMoreFacts.
Import Catalog Polling ListFacts CatalogFacts PollFacts.

(** *** The checks read the catalog only through its firmware rows *)

Lemma release_assets_db d d' config version published changelog assets :
  firmware d = firmware d' ->
  forall acc,
    release_assets d config version published changelog assets acc =
    release_assets d' config version published changelog assets acc.
Proof.
  intros Hd. induction assets as [|a assets IH]; intros acc; simpl; [reflexivity|].
  destruct (a_name a) as [name|]; cbn [item mbind result_bind]; [|reflexivity].
  destruct (Py.endswith ".bin" name); [|apply IH].
  destruct (_parse_firmware_filename name); [|apply IH].
  unfold _firmware_exists. rewrite Hd.
  destruct (known (firmware d') _); cbn [negb]; [apply IH|].
  destruct (a_browser_download_url a); cbn [item mbind result_bind]; [|reflexivity].
  destruct (a_size a); cbn [item mbind result_bind]; [|reflexivity].
  apply IH.
Qed.

Lemma process_releases_db d d' config releases :
  firmware d = firmware d' ->
  forall acc,
    process_releases d config releases acc = process_releases d' config releases acc.
Proof.
  intros Hd. induction releases as [|r releases IH]; intros acc; simpl; [reflexivity|].
  destruct (r_draft r || r_prerelease r); [apply IH|].
  destruct (r_tag_name r); cbn [item mbind result_bind]; [|reflexivity].
  destruct (r_published_at r); cbn [item mbind result_bind]; [|reflexivity].
  rewrite (release_assets_db d d' _ _ _ _ _ Hd).
  destruct (release_assets d' _ _ _ _ _ _); cbn [mbind result_bind]; [apply IH|reflexivity].
Qed.

Lemma ota_files_db d d' name config now_iso files :
  firmware d = firmware d' ->
  forall acc,
    ota_files d name config now_iso files acc = ota_files d' name config now_iso files acc.
Proof.
  intros Hd. induction files as [|f files IH]; intros acc; simpl; [reflexivity|].
  destruct (_parse_firmware_filename (of_name f)); [|apply IH].
  destruct (chip_type config); cbn [item mbind result_bind]; [|reflexivity].
  destruct (String.eqb _ _); [|apply IH].
  unfold _firmware_exists. rewrite Hd.
  destruct (known (firmware d') _); cbn [negb]; apply IH.
Qed.

Lemma check_source_db net d d' now_iso name config :
  firmware d = firmware d' ->
  check_source net d now_iso name config = check_source net d' now_iso name config.
Proof.
  intros Hd. unfold check_source, _check_github_source, _check_ota_source,
    _process_github_releases.
  destruct (String.eqb (type config) "github_api").
  - destruct (github_get net (url config)); [reflexivity|].
    destruct (status =? 200); [|reflexivity].
    destruct (Py.contains "releases" (url config)); [|reflexivity].
    now rewrite (process_releases_db d d' _ _ Hd).
  - destruct (String.eqb (type config) "ota_server"); [|reflexivity].
    destruct (ota_get net (url config)); [reflexivity|].
    destruct (status =? 200); [|reflexivity].
    now rewrite (ota_files_db d d' _ _ _ _ Hd).
Qed.

Lemma offered_db net now_iso d d' kv :
  firmware d = firmware d' -> offered net now_iso d kv = offered net now_iso d' kv.
Proof. intros Hd. unfold offered. now rewrite (check_source_db _ d d' _ _ _ Hd). Qed.

(** *** The aggregated check in closed form *)

Lemma len_app {A} (l1 l2 : list A) : Py.len (l1 ++ l2) = Py.len l1 + Py.len l2.
Proof. unfold Py.len. rewrite length_app. lia. Qed.

Lemma check_sources_closed net now_iso srcs :
  forall d res,
    List.NoDup (map fst srcs) ->
    (forall k, In k (map fst srcs) -> ~ In k (map fst (res_sources res))) ->
    (forall kv, In kv srcs ->
       type kv.2 = "github_api" \/ type kv.2 = "ota_server") ->
    check_sources net now_iso srcs d res =
    ({| firmware := firmware d;
        update_history := update_history d ++ map (logged net now_iso d) srcs |},
     {| total_updates :=
          total_updates res + Py.len (flat_map (offered net now_iso d) srcs);
        res_sources := res_sources res ++ map (listed net now_iso d) srcs;
        errors := errors res |}).
Proof.
  induction srcs as [|[name config] rest IH]; intros d res Hnd Hfresh Htypes.
  - simpl. rewrite !app_nil_r. destruct d, res; simpl.
    change (Py.len []) with 0. now rewrite Z.add_0_r.
  - simpl in Hnd. apply NoDup_cons_iff in Hnd as [Hname Hnd].
    assert (Hoff : check_source net d now_iso name config =
                   Ok (Some (offered net now_iso d (name, config)))).
    { unfold offered. cbn [fst snd].
      destruct (Htypes (name, config) (or_introl eq_refl)) as [Ht|Ht];
        cbn [snd] in Ht; unfold check_source; rewrite Ht; reflexivity. }
    cbn [check_sources]. rewrite Hoff.
    set (d1 := _record_update_check d name
                 (Py.len (offered net now_iso d (name, config))) None).
    assert (Hsame : forall kv, offered net now_iso d1 kv = offered net now_iso d kv).
    { intros kv. apply offered_db. reflexivity. }
    assert (Hlog : map (logged net now_iso d1) rest = map (logged net now_iso d) rest).
    { apply map_ext. intros kv. unfold logged. now rewrite Hsame. }
    assert (Hlist : map (listed net now_iso d1) rest = map (listed net now_iso d) rest).
    { apply map_ext. intros kv. unfold listed. now rewrite Hsame. }
    assert (Hflat : flat_map (offered net now_iso d1) rest =
                    flat_map (offered net now_iso d) rest).
    { apply flat_map_ext. exact Hsame. }
    rewrite IH.
    + rewrite Hlog, Hlist, Hflat.
      cbn [firmware update_history total_updates res_sources errors
           _record_update_check d1].
      rewrite dict_set_fresh by (apply Hfresh; now left).
      cbn [flat_map map]. rewrite len_app, <- !app_assoc.
      unfold logged at 2. unfold listed at 2. cbn [fst snd app].
      f_equal. f_equal. lia.
    + exact Hnd.
    + intros k Hk. cbn [res_sources].
      rewrite dict_set_fresh by (apply Hfresh; now left).
      rewrite map_app. intros Hin. apply in_app_iff in Hin as [Hin|Hin].
      * apply (Hfresh k); [now right|exact Hin].
      * simpl in Hin. destruct Hin as [<-|[]]. contradiction.
    + intros kv Hkv. apply Htypes. now right.
Qed.

Lemma flat_map_map {A B C} (f : B -> list C) (g : A -> B) (l : list A) :
  flat_map f (map g l) = flat_map (fun x => f (g x)) l.
Proof. induction l as [|x l IH]; simpl; [reflexivity | now rewrite IH]. Qed.

Lemma sources_typed kv :
  In kv sources -> type kv.2 = "github_api" \/ type kv.2 = "ota_server".
Proof.
  intros Hin. simpl in Hin.
  repeat (destruct Hin as [<-|Hin]; [simpl; auto|]). contradiction.
Qed.

Lemma poll_closed net now_iso d :
  check_all_sources_for_updates net now_iso d =
  ({| firmware := firmware d;
      update_history := update_history d ++ map (logged net now_iso d) sources |},
   {| total_updates := Py.len (flat_map (offered net now_iso d) sources);
      res_sources := map (listed net now_iso d) sources;
      errors := [] |}).
Proof.
  unfold check_all_sources_for_updates.
  rewrite check_sources_closed.
  - reflexivity.
  - exact sources_distinct.
  - intros k _ [].
  - exact sources_typed.
Qed.

Lemma poll_all_updates net now_iso d :
  all_updates (check_all_sources_for_updates net now_iso d).2 =
  flat_map (offered net now_iso d) sources.
Proof.
  rewrite poll_closed. unfold all_updates. cbn [snd res_sources].
  rewrite flat_map_map. reflexivity.
Qed.

(** X9. A poll reports every source on its own.  The result lists the
    six sources in the order of the configuration; the listing of a source
    is what that source offers against the catalog as it was before the
    poll, whatever the other sources answer; [total_updates] is the number
    of candidates listed; the poll itself adds no firmware row, and it
    appends one history row per source with the number found. *)
Theorem poll_reports_each_source (net : network) (now_iso : string) (d : db) :
  let out := check_all_sources_for_updates net now_iso d in
  res_sources out.2 =
    map (fun kv => (kv.1, {| sr_updates := Py.len (offered net now_iso d kv);
                             sr_firmware := offered net now_iso d kv |})) sources /\
  total_updates out.2 = Py.len (all_updates out.2) /\
  firmware out.1 = firmware d /\
  update_history out.1 =
    update_history d ++
    map (fun kv => {| h_source := kv.1;
                      h_found_updates := Py.len (offered net now_iso d kv);
                      h_errors := None |}) sources.
Proof.
  cbv zeta. rewrite poll_all_updates. rewrite poll_closed. cbn [fst snd].
  repeat split.
Qed.

(** *** Candidates *)

Lemma info_eta (info : firmware_info) :
  {| fi_chip_type := fi_chip_type info; fi_variant := fi_variant info;
     fi_features := fi_features info; fi_compatibility := fi_compatibility info |} = info.
Proof. destruct info; reflexivity. Qed.

Lemma release_assets_inv d config version published changelog assets :
  forall acc res,
    release_assets d config version published changelog assets acc = Ok res ->
    List.Forall (github_candidate d config) acc ->
    List.Forall (github_candidate d config) res.
Proof.
  induction assets as [|a assets IH]; intros acc res Hres Hacc; simpl in Hres.
  - now injection Hres as <-.
  - destruct (a_name a) as [name|]; cbn [item mbind result_bind] in Hres;
      [|discriminate].
    destruct (Py.endswith ".bin" name) eqn:Hbin; [|now apply (IH acc)].
    destruct (_parse_firmware_filename name) as [info|] eqn:Hinfo; [|now apply (IH acc)].
    destruct (_firmware_exists d (_generate_firmware_id name version (channel config)))
      eqn:Hknown; cbn [negb] in Hres; [now apply (IH acc)|].
    destruct (a_browser_download_url a); cbn [item mbind result_bind] in Hres;
      [|discriminate].
    destruct (a_size a); cbn [item mbind result_bind] in Hres; [|discriminate].
    apply (IH _ _ Hres). apply List.Forall_app. split; [exact Hacc|].
    constructor; [|constructor].
    unfold github_candidate, candidate, info_of. cbn.
    rewrite info_eta. auto 10.
Qed.

Lemma process_releases_inv d config releases :
  forall acc res,
    process_releases d config releases acc = Ok res ->
    List.Forall (github_candidate d config) acc ->
    List.Forall (github_candidate d config) res.
Proof.
  induction releases as [|r releases IH]; intros acc res Hres Hacc; simpl in Hres.
  - now injection Hres as <-.
  - destruct (r_draft r || r_prerelease r); [now apply (IH acc)|].
    destruct (r_tag_name r) as [version|]; cbn [item mbind result_bind] in Hres;
      [|discriminate].
    destruct (r_published_at r) as [published|]; cbn [item mbind result_bind] in Hres;
      [|discriminate].
    destruct (release_assets d config version published (get (r_body r) "")
                (get (r_assets r) []) acc) as [acc'|] eqn:Hassets;
      cbn [mbind result_bind] in Hres; [|discriminate].
    apply (IH acc' res Hres).
    now apply (release_assets_inv _ _ _ _ _ _ _ _ Hassets).
Qed.

Lemma ota_files_inv d name config now_iso files :
  forall acc res,
    ota_files d name config now_iso files acc = Ok res ->
    List.Forall (ota_candidate d name config) acc ->
    List.Forall (ota_candidate d name config) res.
Proof.
  induction files as [|f files IH]; intros acc res Hres Hacc; simpl in Hres.
  - now injection Hres as <-.
  - destruct (_parse_firmware_filename (of_name f)) as [info|] eqn:Hinfo;
      [|now apply (IH acc)].
    destruct (chip_type config) as [chip|] eqn:Hchip;
      cbn [item mbind result_bind] in Hres; [|discriminate].
    destruct (String.eqb (fi_chip_type info) chip) eqn:Hsame; [|now apply (IH acc)].
    apply String.eqb_eq in Hsame.
    destruct (_firmware_exists d
                (_generate_firmware_id (of_name f) "latest" (channel config)))
      eqn:Hknown; cbn [negb] in Hres; [now apply (IH acc)|].
    apply (IH _ _ Hres). apply List.Forall_app. split; [exact Hacc|].
    constructor; [|constructor].
    unfold ota_candidate, candidate, info_of. cbn.
    rewrite info_eta, Hsame. auto 10.
Qed.

Lemma offered_spec net now_iso d name config u :
  In u (offered net now_iso d (name, config)) ->
  (type config = "github_api" /\ github_candidate d config u) \/
  (type config = "ota_server" /\ ota_candidate d name config u).
Proof.
  unfold offered, check_source. cbn [fst snd].
  destruct (String.eqb (type config) "github_api") eqn:Hgit.
  - apply String.eqb_eq in Hgit. intros Hin. left. split; [exact Hgit|].
    unfold _check_github_source, _process_github_releases, _process_github_artifacts in Hin.
    destruct (github_get net (url config)) as [e|status data]; [contradiction|].
    destruct (status =? 200); [|contradiction].
    destruct (Py.contains "releases" (url config)).
    + destruct (process_releases d config (firstn 10 data) []) as [res|] eqn:Hres;
        [|contradiction].
      pose proof (process_releases_inv _ _ _ _ _ Hres (List.Forall_nil _)) as Hall.
      rewrite List.Forall_forall in Hall. now apply Hall.
    + destruct (Py.contains "artifacts" (url config)); contradiction.
  - destruct (String.eqb (type config) "ota_server") eqn:Hota; [|contradiction].
    apply String.eqb_eq in Hota. intros Hin. right. split; [exact Hota|].
    unfold _check_ota_source in Hin.
    destruct (ota_get net (url config)) as [e|status files]; [contradiction|].
    destruct (status =? 200); [|contradiction].
    destruct (ota_files d name config now_iso files []) as [res|] eqn:Hres;
      [|contradiction].
    pose proof (ota_files_inv _ _ _ _ _ _ _ Hres (List.Forall_nil _)) as Hall.
    rewrite List.Forall_forall in Hall. now apply Hall.
Qed.

(** X10. Every candidate of a poll is new and carries its own key: its
    identifier is the digest of its name, version and channel, no catalog
    row has that identifier, and its chip and variant are those the
    classifier reads off its name.  A candidate of a GitHub source is named
    like a binary and tagged ["github_releases"]; a candidate of an OTA
    source has the version ["latest"], the name of the source as its tag
    and the chip of the source. *)
Theorem poll_candidates_are_new (net : network) (now_iso : string) (d : db)
    (u : update) :
  In u (all_updates (check_all_sources_for_updates net now_iso d).2) ->
  _firmware_exists d (u_id u) = false /\
  _parse_firmware_filename (u_name u) =
    Some {| fi_chip_type := u_chip_type u; fi_variant := u_variant u;
            fi_features := u_features u; fi_compatibility := u_compatibility u |} /\
  exists name config,
    In (name, config) sources /\
    u_id u = _generate_firmware_id (u_name u) (u_version u) (channel config) /\
    u_channel u = channel config /\
    ((type config = "github_api" /\ u_source u = "github_releases" /\
      Py.endswith ".bin" (u_name u) = true) \/
     (type config = "ota_server" /\ u_source u = name /\ u_version u = "latest" /\
      chip_type config = Some (u_chip_type u))).
Proof.
  rewrite poll_all_updates. intros Hin.
  apply in_flat_map in Hin as ([name config] & Hsrc & Hin).
  destruct (offered_spec _ _ _ _ _ _ Hin)
    as [(Ht & (Hid & Hnew & Hch & Hinfo) & Hs & Hbin)
       |(Ht & (Hid & Hnew & Hch & Hinfo) & Hs & Hv & Hchip)].
  - split; [exact Hnew|]. split; [exact Hinfo|].
    exists name, config. split; [exact Hsrc|]. split; [exact Hid|].
    split; [exact Hch|]. left. auto.
  - split; [exact Hnew|]. split; [exact Hinfo|].
    exists name, config. split; [exact Hsrc|]. split; [exact Hid|].
    split; [exact Hch|]. right. auto.
Qed.

Lemma sensors_update_listed :
  In sensors_update
     (all_updates (check_all_sources_for_updates sample_network
                     "2024-05-01T02:00:00.000000" empty_db).2).
Proof. vm_compute. left. reflexivity. Qed.

Lemma poll_candidates_are_new_witness :
  In sensors_update
     (all_updates (check_all_sources_for_updates sample_network
                     "2024-05-01T02:00:00.000000" empty_db).2) /\
  _firmware_exists empty_db (u_id sensors_update) = false.
Proof.
  split; [exact sensors_update_listed|].
  exact (proj1 (poll_candidates_are_new sample_network "2024-05-01T02:00:00.000000"
                  empty_db sensors_update sensors_update_listed)).
Defined.

Lemma github_without_releases net d name config :
  Py.contains "releases" (url config) = false ->
  _check_github_source net d name config = [].
Proof.
  intros Hurl. unfold _check_github_source, _process_github_artifacts. rewrite Hurl.
  destruct (github_get net (url config)) as [e|status data]; [reflexivity|].
  destruct (status =? 200); [|reflexivity].
  destruct (Py.contains "artifacts" (url config)); reflexivity.
Qed.

(** X11. A GitHub source whose address does not mention "releases"
    never offers a candidate, whatever GitHub answers: an address that
    mentions "artifacts" is handed to a method the class does not define,
    and the exception is swallowed; any other address yields the empty
    list. *)
Theorem only_release_listings_are_read (net : network) (d : db) (name : string)
    (config : source_config) :
  Py.contains "releases" (url config) = false ->
  _check_github_source net d name config = [].
Proof. apply github_without_releases. Qed.

Lemma only_release_listings_are_read_witness :
  Py.contains "releases" (url artifacts_config) = false /\
  In ("github_artifacts", artifacts_config) sources /\
  _check_github_source sample_network empty_db "github_artifacts" artifacts_config = [].
Proof.
  split; [reflexivity|]. split; [right; left; reflexivity|].
  exact (only_release_listings_are_read sample_network empty_db "github_artifacts"
           artifacts_config eq_refl).
Defined.

(** *** Saving *)

Lemma insert_or_replace_in row rows r :
  In r (insert_or_replace row rows) <->
  (In r rows /\ fw_id r <> fw_id row) \/ r = row.
Proof.
  unfold insert_or_replace. rewrite in_app_iff, filter_In, negb_true_iff.
  simpl. split.
  - intros [[Hin Hne]|[<-|[]]]; [left|now right].
    split; [exact Hin|]. now apply String.eqb_neq.
  - intros [[Hin Hne]| ->]; [left|right; now left].
    split; [exact Hin|]. now apply String.eqb_neq.
Qed.

Lemma insert_or_replace_nodup row rows :
  List.NoDup (map fw_id rows) ->
  List.NoDup (map fw_id (insert_or_replace row rows)).
Proof.
  intros Hnd. unfold insert_or_replace. rewrite map_app. simpl.
  apply List.NoDup_app.
  - now apply CacheFacts.NoDup_map_filter.
  - constructor; [intros []|constructor].
  - intros id Hin [<-|[]]. apply in_map_iff in Hin as (r & Hid & Hr).
    apply filter_In in Hr as [_ Hne].
    apply negb_true_iff, String.eqb_neq in Hne. contradiction.
Qed.

Lemma save_rows_spec updates :
  forall rows n,
    List.NoDup (map fw_id rows) ->
    List.NoDup (map fw_id (save_rows updates rows n).1) /\
    (save_rows updates rows n).2 = n + Py.len updates /\
    (forall r, In r rows -> ~ In (fw_id r) (map u_id updates) ->
               In r (save_rows updates rows n).1) /\
    (forall r, In r (save_rows updates rows n).1 ->
               (In r rows /\ ~ In (fw_id r) (map u_id updates)) \/
               exists u, In u updates /\ r = row_of_update u).
Proof.
  induction updates as [|u updates IH]; intros rows n Hnd.
  - simpl. split; [exact Hnd|]. split; [unfold Py.len; simpl; lia|].
    split; [auto|]. intros r Hr. left. split; [exact Hr|]. intros [].
  - cbn [save_rows].
    destruct (IH (insert_or_replace (row_of_update u) rows) (n + 1)
                (insert_or_replace_nodup _ _ Hnd)) as (Hnd' & Hcount & Hkeep & Hfrom).
    split; [exact Hnd'|]. split; [|split].
    + rewrite Hcount. unfold Py.len. simpl length. lia.
    + intros r Hr Hnot. apply Hkeep.
      * apply insert_or_replace_in. left. split; [exact Hr|].
        intros Heq. apply Hnot. left. now rewrite Heq.
      * intros Hin. apply Hnot. now right.
    + intros r Hr. destruct (Hfrom r Hr) as [[Hin Hnot]|(u' & Hu' & ->)].
      * apply insert_or_replace_in in Hin as [[Hin Hne]| ->].
        -- left. split; [exact Hin|]. intros [Heq|Hin']; [|now apply Hnot].
           apply Hne. now rewrite <- Heq.
        -- right. exists u. split; [now left|reflexivity].
      * right. exists u'. split; [now right|reflexivity].
Qed.

(** X12. Saving candidates keeps the identifiers of the catalog
    unique.  Every candidate is in the catalog afterwards; the rows of
    other identifiers stay untouched; a row whose identifier is saved again
    is replaced by a fresh one, which loses the path of its cached file and
    its download count; the history is not touched; and the count returned
    is the number of candidates handed in, replaced rows and repeated
    candidates included. *)
Theorem saving_keeps_keys_unique (d : db) (updates : list update) :
  List.NoDup (map fw_id (firmware d)) ->
  let out := save_firmware_updates d updates in
  List.NoDup (map fw_id (firmware out.1)) /\
  out.2 = Py.len updates /\
  update_history out.1 = update_history d /\
  (forall u, In u updates -> _firmware_exists out.1 (u_id u) = true) /\
  (forall r, In r (firmware d) -> ~ In (fw_id r) (map u_id updates) ->
             In r (firmware out.1)) /\
  (forall r, In r (firmware out.1) -> In (fw_id r) (map u_id updates) ->
             fw_local_path r = None /\ fw_download_count r = 0 /\
             fw_status r = "available" /\
             fw_verified r = String.eqb (fw_source r) "github_releases").
Proof.
  intros Hnd. cbv zeta. unfold save_firmware_updates.
  destruct (save_rows_spec updates (firmware d) 0 Hnd) as (Hnd' & Hcount & Hkeep & Hfrom).
  pose proof (known_save updates (firmware d) 0) as Hknown.
  destruct (save_rows updates (firmware d) 0) as [rows n]. cbn [fst snd] in *.
  split; [exact Hnd'|]. split; [lia|]. split; [reflexivity|].
  split; [|split; [exact Hkeep|]].
  - intros u Hu. unfold _firmware_exists. cbn [firmware].
    apply Hknown. right. now apply in_map.
  - intros r Hr Hid. destruct (Hfrom r Hr) as [[_ Hnot]|(u & _ & ->)];
      [contradiction|]. cbn. auto.
Qed.

Lemma saving_keeps_keys_unique_witness :
  List.NoDup (map fw_id (firmware empty_db)) /\
  (save_firmware_updates empty_db [sensors_update; sensors_update]).2 = 2 /\
  map fw_id (firmware (save_firmware_updates empty_db
                         [sensors_update; sensors_update]).1) = [sensors_id].
Proof.
  assert (Hnd : List.NoDup (map fw_id (firmware empty_db))) by constructor.
  split; [exact Hnd|]. split; [|reflexivity].
  exact (proj1 (proj2 (saving_keeps_keys_unique empty_db
                         [sensors_update; sensors_update] Hnd))).
Defined.

(** *** The classifier *)

Lemma startswith_tail (p q s : string) :
  Py.startswith (p +:+ q) s = true -> Py.contains q s = true.
Proof.
  revert s. induction p as [|a p IH]; intros s H.
  - change ("" +:+ q) with q in H. destruct s; cbn [Py.contains]; now rewrite H.
  - change (String a p +:+ q) with (String a (p +:+ q)) in H.
    destruct s as [|b s]; [discriminate|]. cbn [Py.startswith] in H.
    destruct (Ascii.eqb a b); [|discriminate].
    cbn [Py.contains]. rewrite (IH s H). apply orb_true_r.
Qed.

Lemma contains_tail (p q s : string) :
  Py.contains (p +:+ q) s = true -> Py.contains q s = true.
Proof.
  induction s as [|b s IH]; intros H.
  - simpl in H. rewrite orb_false_r in H. now apply startswith_tail in H.
  - cbn [Py.contains] in H. apply orb_true_iff in H as [H|H].
    + now apply startswith_tail in H.
    + cbn [Py.contains]. rewrite (IH H). apply orb_true_r.
Qed.

(** X13. The chip is read off the lowered name: a file is classed
    ESP32 exactly when its name, lowered and without ".bin", mentions
    "tasmota32" or "esp32", and ESP8266 otherwise; the separate test for
    "tasmota-esp32" never decides anything.  The classifier accepts every
    name. *)
Theorem chip_is_read_off_the_name (filename : string) :
  exists info,
    _parse_firmware_filename filename = Some info /\
    (fi_chip_type info = "ESP32" \/ fi_chip_type info = "ESP8266") /\
    (fi_chip_type info = "ESP32" <->
     Py.contains "tasmota32" (classified_name filename) = true \/
     Py.contains "esp32" (classified_name filename) = true).
Proof.
  unfold _parse_firmware_filename, classified_name.
  set (name := Py.lower (Py.replace ".bin" "" filename)).
  destruct (Py.contains "tasmota32" name) eqn:H32;
    destruct (Py.contains "esp32" name) eqn:Hesp; cbn [orb];
    try (destruct (Py.contains "tasmota-esp32" name) eqn:Hdash;
         [apply (contains_tail "tasmota-" "esp32") in Hdash; congruence|]);
    repeat match goal with
           | |- context [let '(_, _) := ?x in _] => destruct x
           end;
    eexists; (split; [reflexivity|]); cbn [fi_chip_type];
    (split; [auto|]); split; auto; try discriminate;
    intros [?|?]; discriminate.
Qed.

(** *** Identifiers *)

Lemma hex_bytes_cons (b : Z) (l : list Z) :
  Hash.hex_bytes (b :: l) =
  String (Hash.hex_digit (Z.shiftr b 4))
         (String (Hash.hex_digit (Z.land b 15)) (Hash.hex_bytes l)).
Proof. reflexivity. Qed.

Lemma hex_bytes_length (l : list Z) :
  String.length (Hash.hex_bytes l) = (2 * length l)%nat.
Proof.
  induction l as [|b l IH]; [reflexivity|].
  rewrite hex_bytes_cons. cbn [String.length]. rewrite IH. simpl. lia.
Qed.

Lemma le_bytes_length n x : length (Hash.le_bytes n x) = n.
Proof. revert x. induction n as [|n IH]; intros x; simpl; [reflexivity|now rewrite IH]. Qed.

Lemma le_bytes_range n x : List.Forall (fun b => 0 <= b < 256) (Hash.le_bytes n x).
Proof.
  revert x. induction n as [|n IH]; intros x; simpl; constructor; [|apply IH].
  change 255 with (Z.ones 8). rewrite Z.land_ones by lia.
  apply Z.mod_pos_bound. lia.
Qed.

Lemma hex_digit_char n : 0 <= n < 16 -> hex_char (Hash.hex_digit n) = true.
Proof.
  intros H. rewrite <- (Z2Nat.id n) by lia.
  assert (Hk : (Z.to_nat n < 16)%nat) by lia.
  revert Hk. generalize (Z.to_nat n). clear. intros k Hk.
  do 16 (destruct k as [|k]; [reflexivity|]). lia.
Qed.

Lemma hex_bytes_chars (l : list Z) :
  List.Forall (fun b => 0 <= b < 256) l -> all_hex (Hash.hex_bytes l) = true.
Proof.
  induction 1 as [|b l Hb _ IH]; [reflexivity|].
  rewrite hex_bytes_cons. cbn [all_hex]. rewrite IH.
  rewrite !hex_digit_char; [reflexivity| |].
  - change 15 with (Z.ones 4). rewrite Z.land_ones by lia.
    apply Z.mod_pos_bound. lia.
  - rewrite Z.shiftr_div_pow2 by lia. change (2 ^ 4) with 16.
    split; [apply Z.div_pos; lia|apply Z.div_lt_upper_bound; lia].
Qed.

Lemma md5_hexdigest_shape (msg : Py.bytes) :
  String.length (Hash.md5_hexdigest msg) = 32%nat /\
  all_hex (Hash.md5_hexdigest msg) = true.
Proof.
  unfold Hash.md5_hexdigest, Hash.md5_digest.
  destruct (Hash.absorb _ _ _ _) as [[[a b] c] d0].
  split.
  - rewrite hex_bytes_length, !length_app, !le_bytes_length. reflexivity.
  - apply hex_bytes_chars. repeat (apply List.Forall_app; split); apply le_bytes_range.
Qed.

(** X14. The identifiers of the two catalogs have fixed shapes and
    never clash: an official identifier is thirty-two lower-case
    hexadecimal digits, a community identifier is "community_" followed by
    thirty-two such digits. *)
Theorem identifiers_never_clash (name version channel filename now_iso : string)
    (md : Community.metadata) :
  String.length (_generate_firmware_id name version channel) = 32%nat /\
  all_hex (_generate_firmware_id name version channel) = true /\
  (exists digest,
      Community._generate_community_firmware_id filename md now_iso =
        "community_" +:+ digest /\
      String.length digest = 32%nat /\ all_hex digest = true) /\
  _generate_firmware_id name version channel <>
  Community._generate_community_firmware_id filename md now_iso.
Proof.
  unfold _generate_firmware_id, Community._generate_community_firmware_id.
  split; [apply md5_hexdigest_shape|]. split; [apply md5_hexdigest_shape|]. split.
  - eexists. split; [reflexivity|]. apply md5_hexdigest_shape.
  - intros Heq. apply (f_equal String.length) in Heq.
    rewrite CacheFacts.length_append_nat in Heq.
    rewrite !(proj1 (md5_hexdigest_shape _)) in Heq. simpl in Heq. lia.
Qed.

End CatalogMoreFacts.

(** ** More on the jobs *)

Module JobsFacts.
Import Catalog Polling Jobs ListFacts CatalogFacts PollFacts CatalogMoreFacts.

(** *** The development poll *)

Lemma dev_sources_listed :
  dev_sources =
  [("github_artifacts", artifacts_config);
   ("ota_esp8266_dev", ota_esp8266_dev_config);
   ("ota_esp32_dev", ota_esp32_dev_config)].
Proof. reflexivity. Qed.

Lemma dev_updates net now_iso d :
  check_dev_sources net now_iso d dev_sources [] =
  _check_ota_source net d now_iso "ota_esp8266_dev" ota_esp8266_dev_config ++
  _check_ota_source net d now_iso "ota_esp32_dev" ota_esp32_dev_config.
Proof.
  rewrite dev_sources_listed. cbn [check_dev_sources].
  change (String.eqb (type artifacts_config) "github_api") with true.
  change (String.eqb (type ota_esp8266_dev_config) "github_api") with false.
  change (String.eqb (type ota_esp8266_dev_config) "ota_server") with true.
  change (String.eqb (type ota_esp32_dev_config) "github_api") with false.
  change (String.eqb (type ota_esp32_dev_config) "ota_server") with true.
  cbv iota.
  rewrite (github_without_releases net d "github_artifacts" artifacts_config eq_refl).
  reflexivity.
Qed.

Lemma ota_source_learned net d now_iso name config chip id :
  type config = "ota_server" -> chip_type config = Some chip ->
  In id (source_ids net config) ->
  known (firmware d) id = true \/
  In id (map u_id (_check_ota_source net d now_iso name config)).
Proof.
  intros Ht Hchip. unfold source_ids, _check_ota_source. rewrite Ht, Hchip.
  change (String.eqb "ota_server" "github_api") with false.
  change (String.eqb "ota_server" "ota_server") with true. cbv iota.
  destruct (ota_get net (url config)) as [e|status files]; [intros []|].
  destruct (status =? 200); [|intros []].
  destruct (ota_files_first d name config now_iso chip files Hchip [])
    as (news & -> & Hids).
  intros Hin. exact (Hids id Hin).
Qed.

Lemma ota_source_settled net d now_iso name config chip :
  chip_type config = Some chip ->
  (forall id, In id (ota_ids config chip
                       match ota_get net (url config) with
                       | Http 200 files => files
                       | _ => []
                       end) -> known (firmware d) id = true) ->
  _check_ota_source net d now_iso name config = [].
Proof.
  intros Hchip Hknown. unfold _check_ota_source.
  destruct (ota_get net (url config)) as [e|status files]; [reflexivity|].
  destruct (status =? 200) eqn:Hs; [|reflexivity].
  apply Z.eqb_eq in Hs. subst status.
  now rewrite (ota_files_known d name config now_iso chip files Hchip []).
Qed.

Lemma ota_source_ids net config chip :
  type config = "ota_server" -> chip_type config = Some chip ->
  source_ids net config =
  ota_ids config chip match ota_get net (url config) with
                      | Http 200 files => files
                      | _ => []
                      end.
Proof.
  intros Ht Hchip. unfold source_ids. rewrite Ht, Hchip.
  change (String.eqb "ota_server" "github_api") with false.
  change (String.eqb "ota_server" "ota_server") with true. cbv iota.
  destruct (ota_get net (url config)) as [e|status files]; [reflexivity|].
  destruct (status =? 200) eqn:Hs.
  - apply Z.eqb_eq in Hs. now subst status.
  - destruct status as [|p|p]; try reflexivity.
    repeat (destruct p as [p|p|]; try reflexivity). discriminate.
Qed.

(** X15. The development poll settles after one run.  It adds to the
    catalog every file the two development OTA servers list for their chip,
    writes no history row, and a second run against the same answers finds
    nothing and leaves the catalog exactly as it is; the source
    ["github_artifacts"] never contributes. *)
Theorem development_poll_settles (net : network) (now_iso now_iso' : string) (d : db) :
  let d1 := _check_development_firmware net now_iso d in
  update_history d1 = update_history d /\
  (forall name config id,
      In (name, config) dev_sources -> In id (source_ids net config) ->
      known (firmware d1) id = true) /\
  (forall id, known (firmware d) id = true -> known (firmware d1) id = true) /\
  _check_github_source net d "github_artifacts" artifacts_config = [] /\
  _check_development_firmware net now_iso' d1 = d1.
Proof.
  cbv zeta.
  assert (Hknown : forall id,
             known (firmware (_check_development_firmware net now_iso d)) id = true <->
             known (firmware d) id = true \/
             In id (map u_id (check_dev_sources net now_iso d dev_sources []))).
  { intros id. unfold _check_development_firmware.
    destruct (check_dev_sources net now_iso d dev_sources []) as [|u l] eqn:Hups.
    - simpl. tauto.
    - unfold save_firmware_updates.
      pose proof (known_save (u :: l) (firmware d) 0 id) as Hsave.
      destruct (save_rows (u :: l) (firmware d) 0) as [rows n]. exact Hsave. }
  assert (Hlearned : forall name config id,
             In (name, config) dev_sources -> In id (source_ids net config) ->
             known (firmware (_check_development_firmware net now_iso d)) id = true).
  { intros name config id Hsrc Hid. apply Hknown. rewrite dev_updates, map_app, in_app_iff.
    rewrite dev_sources_listed in Hsrc.
    destruct Hsrc as [[= <- <-]|[[= <- <-]|[[= <- <-]|[]]]].
    - unfold source_ids in Hid. simpl in Hid.
      destruct (github_get net _); [contradiction|].
      rewrite andb_false_r in Hid. contradiction.
    - destruct (ota_source_learned net d now_iso "ota_esp8266_dev" ota_esp8266_dev_config
                  "ESP8266" id
                  eq_refl eq_refl Hid); auto.
    - destruct (ota_source_learned net d now_iso "ota_esp32_dev" ota_esp32_dev_config
                  "ESP32" id
                  eq_refl eq_refl Hid); auto. }
  split; [|split; [exact Hlearned|split; [|split]]].
  - unfold _check_development_firmware.
    destruct (check_dev_sources net now_iso d dev_sources []) as [|u l]; [reflexivity|].
    unfold save_firmware_updates.
    destruct (save_rows (u :: l) (firmware d) 0). reflexivity.
  - intros id Hid. apply Hknown. now left.
  - exact (github_without_releases net d "github_artifacts" artifacts_config eq_refl).
  - set (d1 := _check_development_firmware net now_iso d) in *.
    unfold _check_development_firmware at 1. rewrite dev_updates.
    rewrite (ota_source_settled net d1 now_iso' "ota_esp8266_dev" ota_esp8266_dev_config
               "ESP8266" eq_refl).
    + rewrite (ota_source_settled net d1 now_iso' "ota_esp32_dev" ota_esp32_dev_config
                 "ESP32" eq_refl);
        [reflexivity|].
      intros id Hid. apply (Hlearned "ota_esp32_dev" ota_esp32_dev_config).
      * rewrite dev_sources_listed. right. right. now left.
      * now rewrite (ota_source_ids net ota_esp32_dev_config "ESP32" eq_refl eq_refl).
    + intros id Hid. apply (Hlearned "ota_esp8266_dev" ota_esp8266_dev_config).
      * rewrite dev_sources_listed. right. now left.
      * now rewrite (ota_source_ids net ota_esp8266_dev_config "ESP8266" eq_refl eq_refl).
Qed.

(** *** The error log *)

Lemma record_error_tail errors now_iso task message :
  _record_error errors now_iso task message =
  skipn (length errors + 1 - 50)
        (errors ++ [{| er_timestamp := now_iso; er_task := task;
                       er_error := message |}]).
Proof.
  unfold _record_error. cbv zeta. unfold Py.len. rewrite length_app. simpl length.
  destruct (50 <? Z.of_nat (length errors + 1)) eqn:Hlong; [reflexivity|].
  apply Z.ltb_ge in Hlong.
  replace (length errors + 1 - 50)%nat with 0%nat by lia. reflexivity.
Qed.

Lemma skipn_tail_app {A} (j : nat) (l m : list A) :
  (j <= length l)%nat -> skipn j l ++ m = skipn j (l ++ m).
Proof.
  intros Hj. rewrite List.skipn_app.
  replace (j - length l)%nat with 0%nat by lia. reflexivity.
Qed.

Lemma record_all_tail failures :
  forall errors,
    failures <> [] \/ (length errors <= 50)%nat ->
    record_all errors failures =
    skipn (length (errors ++ map as_record failures) - 50)
          (errors ++ map as_record failures).
Proof.
  induction failures as [|f failures IH]; intros errors Hstart.
  - destruct Hstart as [Hne|Hlen]; [contradiction|].
    simpl. rewrite app_nil_r.
    replace (length errors - 50)%nat with 0%nat by lia. reflexivity.
  - cbn [record_all fold_left].
    change (fold_left _ failures ?e) with (record_all e failures).
    rewrite record_error_tail.
    change {| er_timestamp := f.1.1; er_task := f.1.2; er_error := f.2 |}
      with (as_record f).
    set (l := errors ++ [as_record f]).
    assert (Hl : length l = (length errors + 1)%nat)
      by (unfold l; rewrite length_app; reflexivity).
    rewrite <- Hl.
    assert (Hall : errors ++ map as_record (f :: failures) = l ++ map as_record failures).
    { unfold l. rewrite <- app_assoc. reflexivity. }
    rewrite Hall, IH.
    + rewrite skipn_tail_app by lia.
      rewrite List.skipn_skipn, List.length_skipn. f_equal.
      rewrite !length_app. lia.
    + right. rewrite List.length_skipn. lia.
Qed.

(** X16. The error log of the scheduler is bounded: after any run of
    failures it holds the last fifty error records, oldest first, each with
    the clock reading, the task name and the message it was recorded
    with. *)
Theorem error_log_keeps_last_fifty (errors : list error_record)
    (failures : list (string * string * string)) :
  (length errors <= 50)%nat ->
  (length (record_all errors failures) <= 50)%nat /\
  record_all errors failures =
    skipn (length (errors ++ map as_record failures) - 50)
          (errors ++ map as_record failures).
Proof.
  intros Hlen.
  rewrite (record_all_tail failures errors (or_intror Hlen)).
  split; [|reflexivity].
  rewrite List.length_skipn. lia.
Qed.

Lemma error_log_keeps_last_fifty_witness :
  (length (@nil error_record) <= 50)%nat /\
  record_all [] [("2024-05-01T02:00:00", "cache_cleanup", "Cache cleanup failed: x")] =
  [{| er_timestamp := "2024-05-01T02:00:00"; er_task := "cache_cleanup";
      er_error := "Cache cleanup failed: x" |}].
Proof.
  assert (Hlen : (length (@nil error_record) <= 50)%nat) by (simpl; lia).
  split; [exact Hlen|].
  exact (proj2 (error_log_keeps_last_fifty []
                  [("2024-05-01T02:00:00", "cache_cleanup", "Cache cleanup failed: x")]
                  Hlen)).
Defined.

(** *** The daily poll and the cache *)

Lemma download_step s now tmp id address answer :
  Cache.consistent s ->
  let s' := (Cache.download_and_cache_firmware s now tmp id address answer).1.1 in
  Cache.stats s' = Cache.stats s /\
  (forall id', Cache.has_entry s id' -> Cache.has_entry s' id') /\
  (length (Cache.rows s') <= length (Cache.rows s) + 1)%nat.
Proof.
  intros Hc. cbv zeta.
  destruct (CacheFacts.has_entry_dec s id) as [(r & Hr & Hid)|Hnone].
  - rewrite (CacheFacts.download_cached s now tmp id address answer r Hc Hr Hid).
    cbn [fst]. unfold Cache._update_access_time. cbn [Cache.rows Cache.stats Cache.with_rows].
    split; [reflexivity|]. split; [|rewrite length_map; lia].
    intros id' (x & Hx & Hxid). exists (Cache.touch now id x).
    split; [now apply in_map|]. now rewrite CacheFacts.touch_id.
  - pose proof (CacheFacts.get_cached_miss s id Hnone) as Hmiss.
    assert (Hnot : (Cache.get_cached_firmware_path s id).2 = None) by now rewrite Hmiss.
    destruct answer as [written e|content].
    + rewrite (CacheFacts.download_breaks _ _ _ _ _ _ _ Hnot). cbv zeta.
      rewrite Hmiss. cbn [fst snd Cache.rows Cache.stats Cache.with_files].
      split; [reflexivity|]. split; [auto|lia].
    + rewrite (CacheFacts.download_completes _ _ _ _ _ _ Hnot). cbv zeta.
      rewrite Hmiss. cbn [fst].
      destruct (Cache.passes_verification content); cbn [fst].
      * unfold Cache._update_firmware_local_path, Cache._add_to_cache_db.
        cbn [Cache.rows Cache.stats Cache.with_rows Cache.with_files].
        rewrite (CacheFacts.filter_absent s id Hnone).
        split; [reflexivity|]. split.
        -- intros id' (x & Hx & Hxid). exists x. split; [|exact Hxid].
           apply in_or_app. now left.
        -- rewrite length_app. simpl. lia.
      * cbn [Cache.rows Cache.stats Cache.with_files].
        split; [reflexivity|]. split; [auto|lia].
Qed.

Lemma precache_step w l :
  forall s,
    Cache.consistent s ->
    Cache.consistent (Scheduler._precache_new_firmware w s l) /\
    Cache.stats (Scheduler._precache_new_firmware w s l) = Cache.stats s /\
    (forall id, Cache.has_entry s id ->
                Cache.has_entry (Scheduler._precache_new_firmware w s l) id) /\
    (length (Cache.rows (Scheduler._precache_new_firmware w s l)) <=
     length (Cache.rows s) + length l)%nat.
Proof.
  induction l as [|u l IH]; intros s Hc.
  - cbn. split; [exact Hc|]. split; [reflexivity|]. split; [auto|lia].
  - unfold Scheduler._precache_new_firmware. cbn [fold_left].
    change (fold_left _ l ?x) with (Scheduler._precache_new_firmware w x l).
    set (s1 := (Cache.download_and_cache_firmware s (Scheduler.now w)
                  (Scheduler.temp_of w (u_id u)) (u_id u) (u_download_url u)
                  (Scheduler.fetch w (u_download_url u))).1.1).
    pose proof (CacheFacts.consistent_download s (Scheduler.now w)
                  (Scheduler.temp_of w (u_id u)) (u_id u) (u_download_url u)
                  (Scheduler.fetch w (u_download_url u)) Hc) as Hc1.
    destruct (download_step s (Scheduler.now w) (Scheduler.temp_of w (u_id u))
                (u_id u) (u_download_url u) (Scheduler.fetch w (u_download_url u)) Hc)
      as (Hst & Hent & Hlen).
    fold s1 in Hc1, Hst, Hent, Hlen.
    destruct (IH s1 Hc1) as (Hc' & Hst' & Hent' & Hlen').
    split; [exact Hc'|]. split; [congruence|]. split; [auto|].
    simpl length. lia.
Qed.

Lemma consistent_with_catalog s c :
  Cache.consistent s -> Cache.consistent (Scheduler.with_catalog s c).
Proof. intros H. exact H. Qed.

(** X17. The daily poll never damages the cache or the catalog.  From
    a consistent cache it leaves a consistent cache; it writes no
    statistics row; every firmware that had a cache entry still has one, and
    at most five entries are added; and every identifier the catalog knew is
    still known. *)
Theorem daily_poll_keeps_cache_and_catalog (w : Scheduler.world) (s : Cache.state) :
  Cache.consistent s ->
  let s' := Scheduler._check_firmware_updates w s in
  Cache.consistent s' /\
  Cache.stats s' = Cache.stats s /\
  (forall id, Cache.has_entry s id -> Cache.has_entry s' id) /\
  (length (Cache.rows s') <= length (Cache.rows s) + 5)%nat /\
  (forall id, known (firmware (Cache.catalog s)) id = true ->
              known (firmware (Cache.catalog s')) id = true).
Proof.
  intros Hc. cbv zeta. unfold Scheduler._check_firmware_updates.
  rewrite poll_closed.
  set (ups := all_updates _).
  destruct ups as [|u l] eqn:Hups.
  - cbn. split; [exact Hc|]. split; [reflexivity|]. split; [auto|]. split; [lia|auto].
  - unfold save_firmware_updates. cbn [firmware update_history].
    pose proof (known_save (u :: l) (firmware (Cache.catalog s)) 0) as Hsave.
    destruct (save_rows (u :: l) (firmware (Cache.catalog s)) 0) as [rows n].
    cbn [fst] in Hsave.
    set (s2 := Scheduler.with_catalog s _).
    assert (Hc2 : Cache.consistent s2) by exact Hc.
    destruct (0 <? n).
    + destruct (precache_step w (firstn 5 (u :: l)) s2 Hc2)
        as (Hc' & Hst & Hent & Hlen).
      split; [exact Hc'|]. split; [exact Hst|]. split; [exact Hent|]. split.
      * pose proof (List.length_firstn 5 (u :: l)) as Hfive. cbn [Cache.rows s2] in Hlen.
        change (Cache.rows s2) with (Cache.rows s) in Hlen. lia.
      * intros id Hid. rewrite precache_keeps_known. cbn. apply Hsave. now left.
    + split; [exact Hc2|]. split; [reflexivity|]. split; [auto|]. split; [cbn; lia|].
      intros id Hid. cbn. apply Hsave. now left.
Qed.

Lemma daily_poll_keeps_cache_and_catalog_witness :
  Cache.consistent (Cache.init empty_db) /\
  Cache.consistent (Scheduler._check_firmware_updates Scheduler.sample_world
                      (Cache.init empty_db)).
Proof.
  split; [exact (CacheFacts.consistent_init empty_db)|].
  exact (proj1 (daily_poll_keeps_cache_and_catalog Scheduler.sample_world
                  (Cache.init empty_db) (CacheFacts.consistent_init empty_db))).
Defined.

End JobsFacts.

(** ** More on community uploads *)

Module CommunityMoreFacts.
Import Community Uploads Scheduler ListFacts CommunityFacts SchedulerFacts.

(** *** What an accepted upload has passed *)

Lemma existsb_false_in {A} (p : A -> bool) (l : list A) :
  existsb p l = false -> forall x, In x l -> p x = false.
Proof.
  intros H x Hx. destruct (p x) eqn:Hp; [|reflexivity].
  assert (existsb p l = true) by (apply existsb_exists; eauto). congruence.
Qed.

Lemma hash_absent official st h :
  _firmware_hash_exists official st h = false ->
  (forall r, In r (Catalog.firmware official) -> Catalog.fw_sha256_hash r <> Some h) /\
  (forall r, In r (community_firmware st) -> cf_sha256_hash r <> Some h).
Proof.
  unfold _firmware_hash_exists.
  destruct (existsb _ (Catalog.firmware official)) eqn:Hoff; [discriminate|].
  intros Hcom. split; intros r Hr Heq.
  - pose proof (existsb_false_in _ _ Hoff r Hr) as Hp. cbv beta in Hp.
    rewrite Heq, String.eqb_refl in Hp. discriminate.
  - pose proof (existsb_false_in _ _ Hcom r Hr) as Hp. cbv beta in Hp.
    rewrite Heq, String.eqb_refl in Hp. discriminate.
Qed.

Lemma binary_signature file_data chip :
  _validate_firmware_binary file_data = Valid chip ->
  (exists rest, file_data = xe9 :: rest) \/
  (exists rest, file_data = x1f :: x8b :: rest).
Proof.
  unfold _validate_firmware_binary.
  destruct file_data as [|b0 rest].
  - simpl. discriminate.
  - destruct (Byte.eqb b0 xe9) eqn:He9.
    + intros _. left. exists rest. f_equal. now apply Byte.byte_dec_bl.
    + destruct ((4 <=? Py.len (b0 :: rest)) &&
                Py.beq (firstn 4 (b0 :: rest)) [xe9; x00; x00; x00]) eqn:H32.
      * apply andb_true_iff in H32 as [_ H32]. simpl in H32.
        rewrite He9 in H32. discriminate.
      * rewrite andb_false_r.
        destruct rest as [|b1 rest]; simpl; [rewrite andb_false_r; discriminate|].
        destruct (Byte.eqb b0 x1f) eqn:H1f; [|discriminate].
        destruct (Byte.eqb b1 x8b) eqn:H8b; [|discriminate].
        intros _. right. exists rest.
        apply Byte.byte_dec_bl in H1f, H8b. now subst.
Qed.

Lemma accepted_id_free sf official st now_iso file_data filename md author st' id :
  upload_firmware sf official st now_iso file_data filename md author =
    (st', Uploaded id) ->
  forall r, In r (community_firmware st) -> cf_id r <> id.
Proof.
  unfold upload_firmware.
  destruct (_validate_firmware_upload official st file_data filename md);
    [|discriminate].
  unfold _save_community_firmware. cbn [community_firmware cf_id upload_row].
  destruct (existsb _ (community_firmware st)) eqn:Htaken; [discriminate|].
  intros [= _ <-] r Hr Heq.
  pose proof (existsb_false_in _ _ Htaken r Hr) as Hp. cbv beta in Hp.
  rewrite Heq, String.eqb_refl in Hp. discriminate.
Qed.

(** X18. Only files that passed every check enter the community
    catalog.  When an upload is accepted, the file has between 100000 bytes
    and 10 MiB, its name ends in .bin or .gz in any letter case, its content
    starts with the byte E9 or with the gzip signature 1F 8B, none of the
    eight suspicious patterns occurs in it, its SHA-256 is recorded by no
    row of either catalog, and the identifier it was given was free. *)
Theorem accepted_upload_passed_every_check (sf : string -> string)
    (official : Catalog.db) (st st' : store) (now_iso : string)
    (file_data : Py.bytes) (filename : string) (md : metadata)
    (author : author_info) (id : string) :
  upload_firmware sf official st now_iso file_data filename md author =
    (st', Uploaded id) ->
  100000 <= Py.len file_data <= 10 * 1024 * 1024 /\
  (Py.lower (Py.splitext_ext filename) = ".bin" \/
   Py.lower (Py.splitext_ext filename) = ".gz") /\
  ((exists rest, file_data = xe9 :: rest) \/
   (exists rest, file_data = x1f :: x8b :: rest)) /\
  (forall pattern, In pattern suspicious_patterns ->
                   Py.bcontains pattern file_data = false) /\
  (forall r, In r (Catalog.firmware official) ->
             Catalog.fw_sha256_hash r <> Some (Hash.sha256_hexdigest file_data)) /\
  (forall r, In r (community_firmware st) ->
             cf_sha256_hash r <> Some (Hash.sha256_hexdigest file_data)) /\
  id = _generate_community_firmware_id filename md now_iso /\
  (forall r, In r (community_firmware st) -> cf_id r <> id).
Proof.
  intros Hup.
  destruct (upload_inversion sf official _ _ _ _ _ _ _ _ Hup) as (chip & Hvalid & Hid & _).
  destruct (valid_sizes official _ _ _ _ _ Hvalid) as (Hsize & Hname & Hhash & Hbin & Hscan).
  destruct (hash_absent _ _ _ Hhash) as [Hoff Hcom].
  split; [exact Hsize|]. split.
  { unfold allowed_name, allowed_extensions in Hname. cbn [existsb] in Hname.
    rewrite orb_false_r in Hname. apply orb_true_iff in Hname as [H|H];
      apply String.eqb_eq in H; auto. }
  split; [exact (binary_signature _ _ Hbin)|]. split.
  { unfold _scan_for_malware in Hscan. exact (find_none _ _ Hscan). }
  split; [exact Hoff|]. split; [exact Hcom|]. split; [exact Hid|].
  exact (accepted_id_free _ _ _ _ _ _ _ _ _ _ Hup).
Qed.

Lemma accepted_upload_passed_every_check_witness :
  upload_firmware keep_name Catalog.empty_db empty_store "2024-05-01T10:00:00.000000"
    Cache.esp_100k "fw.bin" no_metadata anonymous = (stored_once, Uploaded first_id) /\
  100000 <= Py.len Cache.esp_100k <= 10 * 1024 * 1024.
Proof.
  split; [exact first_upload_accepted|].
  exact (proj1 (accepted_upload_passed_every_check keep_name Catalog.empty_db
                  empty_store stored_once "2024-05-01T10:00:00.000000" Cache.esp_100k
                  "fw.bin" no_metadata anonymous first_id first_upload_accepted)).
Defined.

(** *** An identifier that is taken *)

Lemma upload_of_taken sf official st now_iso file_data filename md author chip :
  _validate_firmware_upload official st file_data filename md = Valid chip ->
  (exists r, In r (community_firmware st) /\
             cf_id r = _generate_community_firmware_id filename md now_iso) ->
  upload_firmware sf official st now_iso file_data filename md author =
  ({| community_firmware := community_firmware st;
      upload_dir :=
        <[_generate_community_firmware_id filename md now_iso +:+
          Py.lower (Py.splitext_ext (sf filename)) := file_data]> (upload_dir st) |},
   Rejected (UploadFailed "UNIQUE constraint failed: community_firmware.id")).
Proof.
  intros Hvalid (r & Hr & Hid). unfold upload_firmware. rewrite Hvalid.
  unfold _save_community_firmware. cbn [community_firmware cf_id upload_row].
  replace (existsb _ (community_firmware st)) with true; [reflexivity|].
  symmetry. apply existsb_exists. exists r. split; [exact Hr|].
  rewrite Hid. apply String.eqb_refl.
Qed.

(** X19. An upload that passes validation but is given an identifier
    that is already taken (same file name, same version, same clock
    reading) is refused with the message of the database; no row is written
    or changed, but the file has already been stored under the name built
    from the identifier, so that a file of the earlier upload with the same
    extension now holds the new content. *)
Theorem taken_identifier_overwrites_file (sf : string -> string)
    (official : Catalog.db) (st : store) (now_iso : string)
    (file_data : Py.bytes) (filename : string) (md : metadata)
    (author : author_info) (chip : string) :
  _validate_firmware_upload official st file_data filename md = Valid chip ->
  (exists r, In r (community_firmware st) /\
             cf_id r = _generate_community_firmware_id filename md now_iso) ->
  let out := upload_firmware sf official st now_iso file_data filename md author in
  out.2 = Rejected (UploadFailed "UNIQUE constraint failed: community_firmware.id") /\
  community_firmware out.1 = community_firmware st /\
  upload_dir out.1 !! (_generate_community_firmware_id filename md now_iso +:+
                       Py.lower (Py.splitext_ext (sf filename))) = Some file_data /\
  (forall name, name <> _generate_community_firmware_id filename md now_iso +:+
                        Py.lower (Py.splitext_ext (sf filename)) ->
                upload_dir out.1 !! name = upload_dir st !! name).
Proof.
  intros Hvalid Htaken. cbv zeta.
  rewrite (upload_of_taken sf _ _ _ _ _ _ author _ Hvalid Htaken). cbn [fst snd].
  split; [reflexivity|]. split; [reflexivity|]. cbn [upload_dir]. split.
  - apply lookup_insert_eq.
  - intros name Hne. now apply lookup_insert_ne.
Qed.

Lemma len_other_image : Py.len other_image = 100001.
Proof. unfold other_image. rewrite len_esp_image. vm_compute. reflexivity. Qed.

Lemma other_image_valid :
  _validate_firmware_upload Catalog.empty_db stored_once other_image "fw.bin"
    no_metadata = Valid "ESP32".
Proof.
  apply valid_of_checks.
  - rewrite len_other_image. unfold max_file_size. lia.
  - reflexivity.
  - vm_compute. reflexivity.
  - apply esp_image_binary.
  - apply esp_image_clean.
Qed.

Lemma first_id_taken :
  exists r, In r (community_firmware stored_once) /\
            cf_id r = _generate_community_firmware_id "fw.bin" no_metadata
                        "2024-05-01T10:00:00.000000".
Proof.
  eexists. split; [left; reflexivity|]. rewrite first_id_computed. reflexivity.
Qed.

Lemma taken_identifier_overwrites_file_witness :
  _validate_firmware_upload Catalog.empty_db stored_once other_image "fw.bin"
    no_metadata = Valid "ESP32" /\
  (exists r, In r (community_firmware stored_once) /\
             cf_id r = _generate_community_firmware_id "fw.bin" no_metadata
                         "2024-05-01T10:00:00.000000") /\
  community_firmware
    (upload_firmware keep_name Catalog.empty_db stored_once "2024-05-01T10:00:00.000000"
       other_image "fw.bin" no_metadata anonymous).1 = community_firmware stored_once.
Proof.
  split; [exact other_image_valid|]. split; [exact first_id_taken|].
  exact (proj1 (proj2 (taken_identifier_overwrites_file keep_name Catalog.empty_db
                         stored_once "2024-05-01T10:00:00.000000" other_image "fw.bin"
                         no_metadata anonymous "ESP32" other_image_valid
                         first_id_taken))).
Defined.

(** *** The table under uploads *)

Lemma startswith_append (a b : string) : Py.startswith a (a +:+ b) = true.
Proof.
  induction a as [|c a IH]; [reflexivity|].
  change (String c a +:+ b) with (String c (a +:+ b)). cbn [Py.startswith].
  now rewrite Ascii.eqb_refl.
Qed.

Lemma tidy_empty : tidy empty_store.
Proof.
  split; [constructor|]. split; [constructor|]. intros r [].
Qed.

Lemma tidy_more_files st name file_data :
  tidy st ->
  tidy {| community_firmware := community_firmware st;
          upload_dir := <[name := file_data]> (upload_dir st) |}.
Proof.
  intros (Hids & Hhashes & Hrows).
  split; [exact Hids|]. split; [exact Hhashes|]. intros r Hr.
  destruct (Hrows r Hr) as (Hs & Hd & Hc & Hdata & (n & Hpath & Hpre & Hfile)).
  split; [exact Hs|]. split; [exact Hd|]. split; [exact Hc|]. split; [exact Hdata|].
  exists n. split; [exact Hpath|]. split; [exact Hpre|]. cbn [upload_dir].
  destruct (decide (name = n)) as [->|Hne].
  - rewrite lookup_insert_eq. discriminate.
  - now rewrite lookup_insert_ne.
Qed.

Lemma tidy_upload sf official st now_iso file_data filename md author :
  tidy st ->
  tidy (upload_firmware sf official st now_iso file_data filename md author).1.
Proof.
  intros Htidy. unfold upload_firmware.
  destruct (_validate_firmware_upload official st file_data filename md)
    as [chip|e] eqn:Hvalid; [|exact Htidy].
  set (id := _generate_community_firmware_id filename md now_iso).
  set (name := id +:+ Py.lower (Py.splitext_ext (sf filename))).
  pose proof (tidy_more_files st name file_data Htidy) as Hmore.
  unfold _save_community_firmware. cbn [community_firmware cf_id upload_row upload_dir].
  destruct (existsb _ (community_firmware st)) eqn:Htaken; cbn [fst]; [exact Hmore|].
  destruct Hmore as (Hids & Hhashes & Hrows).
  destruct (valid_sizes official _ _ _ _ _ Hvalid) as (Hsize & _ & Hhash & _).
  destruct (hash_absent _ _ _ Hhash) as [_ Hcom].
  unfold tidy. cbn [community_firmware upload_dir] in *.
  split; [|split].
  - rewrite map_app. apply List.NoDup_app; [exact Hids| |].
    + constructor; [intros []|constructor].
    + intros x Hx [<-|[]]. apply in_map_iff in Hx as (r & Hid & Hr).
      pose proof (existsb_false_in _ _ Htaken r Hr) as Hp. cbv beta in Hp.
      cbn [cf_id] in Hid. rewrite Hid, String.eqb_refl in Hp. discriminate.
  - rewrite map_app. apply List.NoDup_app; [exact Hhashes| |].
    + constructor; [intros []|constructor].
    + intros x Hx [<-|[]]. apply in_map_iff in Hx as (r & Hh & Hr).
      exact (Hcom r Hr Hh).
  - intros r Hr. apply in_app_iff in Hr as [Hr|[<-|[]]]; [now apply Hrows|].
    cbn. split; [reflexivity|]. split; [reflexivity|]. split; [reflexivity|]. split.
    + exists file_data. auto.
    + exists name. split; [reflexivity|]. split; [apply startswith_append|].
      rewrite lookup_insert_eq. discriminate.
Qed.

Lemma tidy_upload_all sf requests :
  forall st, tidy st -> tidy (upload_all sf st requests).
Proof.
  induction requests as [|q requests IH]; intros st Htidy; [exact Htidy|].
  apply IH. now apply tidy_upload.
Qed.

(** X20. Under any sequence of uploads, accepted or refused, the
    community table keeps one row per identifier and one row per content
    hash; every row is pending, with no download and no report; it records
    the two digests and the size of a content of admissible size; and the
    file it points to exists in the upload directory under a name that
    starts with its identifier. *)
Theorem community_table_stays_tidy (sf : string -> string)
    (requests : list upload_request) :
  let st := upload_all sf empty_store requests in
  List.NoDup (map cf_id (community_firmware st)) /\
  List.NoDup (map cf_sha256_hash (community_firmware st)) /\
  forall r, In r (community_firmware st) ->
    cf_status r = "pending" /\
    cf_download_count r = 0 /\
    cf_report_count r = 0 /\
    (exists file_data,
        cf_sha256_hash r = Some (Hash.sha256_hexdigest file_data) /\
        cf_md5_hash r = Some (Hash.md5_hexdigest file_data) /\
        cf_file_size r = Some (Py.len file_data) /\
        100000 <= Py.len file_data <= max_file_size) /\
    (exists name,
        cf_local_path r = upload_dir_name +:+ "/" +:+ name /\
        Py.startswith (cf_id r) name = true /\
        upload_dir st !! name <> None).
Proof. exact (tidy_upload_all sf requests empty_store tidy_empty). Qed.

(** *** The automated review of uploads *)

Lemma no_approved_listing st author limit :
  (forall r, In r (community_firmware st) -> cf_status r = "pending") ->
  get_community_firmware_list st "approved" author limit = [].
Proof.
  intros Hpending. unfold get_community_firmware_list.
  replace (List.filter _ (community_firmware st)) with (@nil community_row);
    [now destruct limit|].
  symmetry. induction (community_firmware st) as [|r l IH]; [reflexivity|].
  cbn [List.filter]. rewrite (Hpending r) by now left.
  cbn. apply IH. intros x Hx. apply Hpending. now right.
Qed.

Lemma review_without_history st fw :
  (forall r, In r (community_firmware st) -> cf_status r = "pending") ->
  auto_approve (_automated_firmware_review st fw) = false.
Proof.
  intros Hpending. unfold _automated_firmware_review, review_body.
  destruct (cf_file_size fw) as [n|]; cbn [mbind result_bind]; [|reflexivity].
  destruct ((n <? 100000) || (8 * 1024 * 1024 <? n)); [reflexivity|].
  destruct (_ ++ _ ++ _); [|reflexivity].
  destruct (cf_description fw) as [text|]; cbn [mbind result_bind]; [|reflexivity].
  destruct (existsb _ suspicious_keywords); [reflexivity|].
  rewrite (no_approved_listing st _ _ Hpending).
  change (3 <=? Py.len []) with false. rewrite andb_false_r. reflexivity.
Qed.

(** X21. The automated review cannot approve anything in a catalog
    that only uploads have written: approval asks for three approved
    entries of the same author, every upload is stored as pending, and so
    the review of any entry, against the table left by any sequence of
    uploads, does not approve. *)
Theorem uploads_alone_are_never_approved (sf : string -> string)
    (requests : list upload_request) (fw : community_row) :
  auto_approve (_automated_firmware_review (upload_all sf empty_store requests) fw)
    = false /\
  review_decision (_automated_firmware_review (upload_all sf empty_store requests) fw)
    <> AutoApprove.
Proof.
  assert (H : auto_approve (_automated_firmware_review
                              (upload_all sf empty_store requests) fw) = false).
  { apply review_without_history. intros r Hr.
    destruct (tidy_upload_all sf requests empty_store tidy_empty) as (_ & _ & Hrows).
    now destruct (Hrows r Hr). }
  split; [exact H|]. unfold review_decision. rewrite H.
  destruct (auto_reject _); discriminate.
Qed.

End CommunityMoreFacts.

(** ** Ratings and reports *)

Module FeedbackFacts.
Import Community Feedback ListFacts CommunityMoreFacts.

Lemma set_report_count_id id n r : cf_id (set_report_count id n r) = cf_id r.
Proof. unfold set_report_count. now destruct (String.eqb (cf_id r) id). Qed.

Lemma report_keeps_ids fb id reporter type reason info :
  map cf_id (community_firmware (fb_store (report_firmware fb id reporter type reason info).1)) =
  map cf_id (community_firmware (fb_store fb)).
Proof.
  unfold report_firmware.
  destruct (negb (existsb (String.eqb type) valid_report_types)); [reflexivity|].
  cbn [fst fb_store community_firmware]. rewrite map_map.
  apply map_ext. intros r. apply set_report_count_id.
Qed.

Lemma known_id_iff (st : store) id :
  existsb (fun r => String.eqb (cf_id r) id) (community_firmware st) = true <->
  In id (map cf_id (community_firmware st)).
Proof.
  rewrite existsb_exists, in_map_iff. split; intros (r & H1 & H2).
  - exists r. apply String.eqb_eq in H2. auto.
  - exists r. split; [exact H2|]. now apply String.eqb_eq.
Qed.

Lemma ratings_of_app l row id :
  ratings_of (l ++ [row]) id =
  ratings_of l id ++ (if String.eqb (rt_firmware_id row) id then [row] else []).
Proof. unfold ratings_of. rewrite List.filter_app. reflexivity. Qed.

Lemma rated_soundly_serve st fb q :
  rated_soundly st fb -> rated_soundly st (serve fb q).
Proof.
  intros Hsound. pose proof Hsound as (Hids & Hnd & Hrange & Hcols & Hpresent).
  destruct q as [id user rating text info flashed|id reporter type reason info];
    cbn [serve].
  - unfold submit_firmware_rating.
    destruct (negb ((1 <=? rating) && (rating <=? 5))) eqn:Hr; [exact Hsound|].
    apply negb_false_iff, andb_true_iff in Hr as [Hlo Hhi].
    apply Z.leb_le in Hlo, Hhi.
    destruct (_user_already_rated fb id user) eqn:Hrated; [exact Hsound|].
    cbn [fst].
    set (row := {| rt_firmware_id := id; rt_user_identifier := user;
                   rt_rating := rating; rt_review_text := text;
                   rt_device_info := _; rt_flash_success := flashed |}).
    unfold rated_soundly.
    cbn [fb_store community_ratings firmware_reports rating_columns].
    split; [exact Hids|]. split; [|split; [|split]].
    + rewrite map_app. apply List.NoDup_app; [exact Hnd| |].
      * constructor; [intros []|constructor].
      * intros x Hx [<-|[]]. apply in_map_iff in Hx as (r & Hpair & Hin).
        unfold _user_already_rated in Hrated.
        pose proof (existsb_false_in _ _ Hrated r Hin) as Hp. cbv beta in Hp.
        unfold rater in Hpair. cbn in Hpair. injection Hpair as Hf Hu.
        rewrite Hf, Hu, !String.eqb_refl in Hp. discriminate.
    + intros r Hr. apply in_app_iff in Hr as [Hr|[<-|[]]]; [now apply Hrange|].
      cbn. lia.
    + intros id' sum count Hlook.
      destruct (existsb (fun r => String.eqb (cf_id r) id)
                        (community_firmware (fb_store fb))) eqn:Hknown.
      * destruct (decide (id = id')) as [<-|Hne].
        -- rewrite lookup_insert_eq in Hlook. injection Hlook as <- <-.
           split; [|split; [|split; reflexivity]].
           ++ rewrite <- Hids. now apply known_id_iff.
           ++ rewrite ratings_of_app. cbn [rt_firmware_id row].
              rewrite String.eqb_refl. now destruct (ratings_of _ id).
        -- rewrite lookup_insert_ne in Hlook by exact Hne.
           destruct (Hcols _ _ _ Hlook) as (Hin & Hsome & Hsum & Hcount).
           split; [exact Hin|].
           rewrite ratings_of_app. cbn [rt_firmware_id row].
           apply String.eqb_neq in Hne. rewrite Hne, app_nil_r. auto.
      * destruct (Hcols _ _ _ Hlook) as (Hin & Hsome & Hsum & Hcount).
        split; [exact Hin|].
        assert (Hne : id <> id').
        { intros <-. rewrite <- Hids in Hin. apply known_id_iff in Hin. congruence. }
        rewrite ratings_of_app. cbn [rt_firmware_id row].
        apply String.eqb_neq in Hne. rewrite Hne, app_nil_r. auto.
    + intros id' Hin Hsome.
      destruct (existsb (fun r => String.eqb (cf_id r) id)
                        (community_firmware (fb_store fb))) eqn:Hknown.
      * destruct (decide (id = id')) as [<-|Hne].
        -- rewrite lookup_insert_eq. discriminate.
        -- rewrite lookup_insert_ne by exact Hne. apply Hpresent; [exact Hin|].
           rewrite ratings_of_app in Hsome. cbn [rt_firmware_id row] in Hsome.
           apply String.eqb_neq in Hne. now rewrite Hne, app_nil_r in Hsome.
      * assert (Hne : id <> id').
        { intros <-. rewrite <- Hids in Hin. apply known_id_iff in Hin. congruence. }
        apply Hpresent; [exact Hin|].
        rewrite ratings_of_app in Hsome. cbn [rt_firmware_id row] in Hsome.
        apply String.eqb_neq in Hne. now rewrite Hne, app_nil_r in Hsome.
  - pose proof (report_keeps_ids fb id reporter type reason info) as Hkeep.
    unfold report_firmware in *.
    destruct (negb (existsb (String.eqb type) valid_report_types)); [exact Hsound|].
    cbn [fst] in *. unfold rated_soundly.
    cbn [fb_store community_ratings firmware_reports rating_columns] in *.
    split; [now rewrite Hkeep|].
    split; [exact Hnd|]. split; [exact Hrange|]. split; [exact Hcols|exact Hpresent].
Qed.

Lemma rating_sum_bounds l :
  (forall r, In r l -> 1 <= rt_rating r <= 5) ->
  Py.len l <= rating_sum l <= 5 * Py.len l.
Proof.
  unfold Py.len. induction l as [|r l IH]; intros H; [simpl; lia|].
  cbn [rating_sum fold_right length]. fold (rating_sum l).
  specialize (IH (fun x Hx => H x (or_intror Hx))).
  pose proof (H r (or_introl eq_refl)). lia.
Qed.

Lemma rated_soundly_all st qs :
  forall fb, rated_soundly st fb -> rated_soundly st (serve_all fb qs).
Proof.
  induction qs as [|q qs IH]; intros fb H; [exact H|].
  apply IH. now apply rated_soundly_serve.
Qed.

Lemma rated_soundly_fresh st : rated_soundly st (fresh st).
Proof.
  split; [reflexivity|]. split; [constructor|]. split; [intros r []|].
  split.
  - intros id sum count H. cbn in H. rewrite lookup_empty in H. discriminate.
  - intros id _ H. now contradiction H.
Qed.

(** X22. Ratings stay sound under any sequence of ratings and reports
    that starts without ratings.  A user has at most one rating per
    firmware; every stored rating is between 1 and 5; and whenever the
    rating columns of an entry have been written they hold the exact number
    and sum of its ratings, so that the count is at least 1 and the average
    lies between 1 and 5.  Every rated entry of the table has its columns
    written. *)
Theorem ratings_stay_sound (st : store) (qs : list request) :
  let fb := serve_all (fresh st) qs in
  List.NoDup (map (fun r => (rt_firmware_id r, rt_user_identifier r))
                  (community_ratings fb)) /\
  (forall r, In r (community_ratings fb) -> 1 <= rt_rating r <= 5) /\
  (forall id sum count, rating_columns fb !! id = Some (sum, count) ->
     count = Py.len (ratings_of (community_ratings fb) id) /\
     sum = rating_sum (ratings_of (community_ratings fb) id) /\
     1 <= count /\ count <= sum <= 5 * count) /\
  (forall id, In id (map cf_id (community_firmware st)) ->
     ratings_of (community_ratings fb) id <> [] ->
     rating_columns fb !! id <> None).
Proof.
  cbv zeta.
  destruct (rated_soundly_all st qs (fresh st) (rated_soundly_fresh st))
    as (_ & Hnd & Hrange & Hcols & Hpresent).
  split; [exact Hnd|]. split; [exact Hrange|]. split; [|exact Hpresent].
  intros id sum count Hlook.
  destruct (Hcols _ _ _ Hlook) as (_ & Hsome & -> & ->).
  split; [reflexivity|]. split; [reflexivity|].
  assert (Hin : forall r, In r (ratings_of (community_ratings
                                              (serve_all (fresh st) qs)) id) ->
                          1 <= rt_rating r <= 5).
  { intros r Hr. apply Hrange. unfold ratings_of in Hr. now apply filter_In in Hr. }
  pose proof (rating_sum_bounds _ Hin) as Hbounds.
  split; [|exact Hbounds].
  unfold Py.len. destruct (ratings_of _ id); [contradiction|]. simpl length. lia.
Qed.

(** *** Reports *)

Lemma pending_reports_app l p id :
  rp_status p = "pending" ->
  pending_reports (l ++ [p]) id =
  pending_reports l id + (if String.eqb (rp_firmware_id p) id then 1 else 0).
Proof.
  intros Hp. unfold pending_reports, Py.len.
  rewrite List.filter_app, length_app. cbn [List.filter]. rewrite Hp.
  destruct (String.eqb (rp_firmware_id p) id); simpl; lia.
Qed.

Lemma pending_reports_nonneg l id : 0 <= pending_reports l id.
Proof. unfold pending_reports, Py.len. lia. Qed.

Lemma set_report_count_twice id n m r :
  set_report_count id n (set_report_count id m r) = set_report_count id n r.
Proof.
  unfold set_report_count. destruct (String.eqb (cf_id r) id) eqn:Hid.
  - cbn [cf_id]. rewrite Hid. reflexivity.
  - rewrite Hid. reflexivity.
Qed.

Lemma set_report_count_other id n r :
  cf_id r <> id -> set_report_count id n r = r.
Proof.
  intros Hne. unfold set_report_count. apply String.eqb_neq in Hne. now rewrite Hne.
Qed.

Lemma reported_id l r : cf_id (reported l r) = cf_id r.
Proof.
  unfold reported. destruct (_ =? 0); [reflexivity|apply set_report_count_id].
Qed.

Lemma valid_type_iff type :
  existsb (String.eqb type) valid_report_types = true <-> In type valid_report_types.
Proof.
  rewrite existsb_exists. split.
  - intros (x & Hx & Heq). apply String.eqb_eq in Heq. now subst.
  - intros H. exists type. split; [exact H|apply String.eqb_refl].
Qed.

Lemma reported_soundly_serve st fb q :
  reported_soundly st fb -> reported_soundly st (serve fb q).
Proof.
  intros Hsound. pose proof Hsound as (Hrows & Hdir & Hreports).
  destruct q as [id user rating text info flashed|id reporter type reason info];
    cbn [serve].
  - unfold submit_firmware_rating.
    destruct (negb ((1 <=? rating) && (rating <=? 5))); [exact Hsound|].
    destruct (_user_already_rated fb id user); exact Hsound.
  - unfold report_firmware.
    destruct (negb (existsb (String.eqb type) valid_report_types)) eqn:Hvalid;
      [exact Hsound|].
    apply negb_false_iff, valid_type_iff in Hvalid.
    cbn [fst]. unfold reported_soundly.
    cbn [fb_store community_firmware upload_dir firmware_reports].
    set (p := {| rp_firmware_id := id; rp_reporter_identifier := reporter;
                 rp_report_type := type; rp_report_reason := reason;
                 rp_additional_info := info; rp_status := "pending" |}).
    split; [|split; [exact Hdir|]].
    + rewrite Hrows, map_map. apply map_ext. intros r.
      unfold reported at 2.
      rewrite !(pending_reports_app _ p _ eq_refl). cbn [rp_firmware_id p].
      rewrite String.eqb_refl.
      pose proof (pending_reports_nonneg (firmware_reports fb) id) as Hid.
      pose proof (pending_reports_nonneg (firmware_reports fb) (cf_id r)) as Hr.
      destruct (String.eqb id (cf_id r)) eqn:Hsame.
      * apply String.eqb_eq in Hsame. subst id.
        replace (pending_reports (firmware_reports fb) (cf_id r) + 1 =? 0) with false
          by (symmetry; apply Z.eqb_neq; lia).
        unfold reported. destruct (_ =? 0); [reflexivity|].
        apply set_report_count_twice.
      * rewrite Z.add_0_r. fold (reported (firmware_reports fb) r).
        apply set_report_count_other. rewrite reported_id.
        apply String.eqb_neq in Hsame. congruence.
    + intros q Hq. apply in_app_iff in Hq as [Hq|[<-|[]]]; [now apply Hreports|].
      split; [exact Hvalid|reflexivity].
Qed.

Lemma reported_soundly_all st qs :
  forall fb, reported_soundly st fb -> reported_soundly st (serve_all fb qs).
Proof.
  induction qs as [|q qs IH]; intros fb H; [exact H|].
  apply IH. now apply reported_soundly_serve.
Qed.

Lemma reported_soundly_fresh st : reported_soundly st (fresh st).
Proof.
  split; [|split; [reflexivity|intros p []]].
  cbn. symmetry. rewrite <- (map_id (community_firmware st)) at 2.
  apply map_ext. intros r. reflexivity.
Qed.

(** X23. The report count of an entry follows its reports.  After any
    sequence of ratings and reports that starts without reports, every
    stored report has one of the five valid types and is pending; an entry
    nobody reported is exactly as it was; an entry that was reported
    differs from what it was only in its report count, which is the number
    of its reports.  A further report of a valid type always counts, also
    when the same reporter has reported the entry before. *)
Theorem report_counts_follow_reports (st : store) (qs : list request) :
  let fb := serve_all (fresh st) qs in
  (forall p, In p (firmware_reports fb) ->
     In (rp_report_type p) valid_report_types /\ rp_status p = "pending") /\
  upload_dir (fb_store fb) = upload_dir st /\
  Forall2 (fun r0 r =>
             cf_id r = cf_id r0 /\
             (pending_reports (firmware_reports fb) (cf_id r0) = 0 -> r = r0) /\
             (0 < pending_reports (firmware_reports fb) (cf_id r0) ->
              r = set_report_count (cf_id r0)
                    (pending_reports (firmware_reports fb) (cf_id r0)) r0 /\
              cf_report_count r = pending_reports (firmware_reports fb) (cf_id r0)))
          (community_firmware st) (community_firmware (fb_store fb)) /\
  (forall id reporter type reason info,
     In type valid_report_types ->
     pending_reports
       (firmware_reports (report_firmware fb id reporter type reason info).1) id =
     pending_reports (firmware_reports fb) id + 1).
Proof.
  cbv zeta.
  destruct (reported_soundly_all st qs (fresh st) (reported_soundly_fresh st))
    as (Hrows & Hdir & Hreports).
  split; [exact Hreports|]. split; [exact Hdir|]. split.
  - rewrite Hrows. clear Hrows Hdir Hreports.
    generalize (firmware_reports (serve_all (fresh st) qs)). intros reports.
    induction (community_firmware st) as [|r0 l IH]; cbn [map];
      [constructor|constructor; [|exact IH]].
    split; [apply reported_id|]. unfold reported. split.
    + intros ->. reflexivity.
    + intros Hpos.
      replace (_ =? 0) with false by (symmetry; apply Z.eqb_neq; lia).
      split; [reflexivity|].
      unfold set_report_count. now rewrite String.eqb_refl.
  - intros id reporter type reason info Hvalid.
    unfold report_firmware. apply valid_type_iff in Hvalid. rewrite Hvalid.
    cbn [negb fst firmware_reports].
    rewrite pending_reports_app by reflexivity. cbn [rp_firmware_id].
    now rewrite String.eqb_refl.
Qed.

End FeedbackFacts.
